(** * payments-uz-sdk: Click and Payme integration core

    A shallow embedding of the provider clients, the webhook handlers, the
    status mapping and the error classes of the SDK, followed by the
    properties established about them.

    Conventions of the embedding.
    - A JavaScript string is a [string]; the numeric codes the providers
      send (status codes, error codes, payment ids, JSON-RPC ids) are
      integers and are modelled in [Z]; an amount that the caller passes
      is a JavaScript number, a binary64 value of type [float], and its
      product with 100 is the binary64 product.
    - A field that may be [undefined] where the code reads it is an
      [option]: the fields that the code reads defensively, and the fields
      of what a provider or the business logic answers, which the code
      takes as it comes.
    - [throw] is a result: every operation that may throw returns an
      [outcome], either [Returned v] or [Threw e].
    - [await] is sequencing: each asynchronous call is awaited before the
      next statement runs, so a call is a function application.
    - Functions of the runtime (Base64 decoding, MD5, the clock, the HTTP
      transport, the text of a number, the text of an engine-raised
      TypeError) are parameters of the sections that use them. *)

From Stdlib Require Import ZArith NArith List String Ascii Bool Lia.
From Stdlib Require Import DecimalString.
From Stdlib Require Import PrimFloat.
From Stdlib Require FloatOps SpecFloat.
Import ListNotations.

Local Open Scope string_scope.
Local Open Scope Z_scope.

Set Warnings "-register-all".

(** ** JavaScript values and runtime helpers *)

Module JS.

(** Values of type [any] carried through untouched (params, results,
    error data). *)
Inductive json : Type :=
| JNull
| JBool (b : bool)
| JNum (n : Z)
| JStr (s : string)
| JArr (items : list json)
| JObj (fields : list (string * json)).

(** Truthiness of a string that may be [undefined]: only a present,
    non-empty string is truthy. *)
Definition truthy (s : option string) : bool :=
  match s with
  | Some s' => negb (String.eqb s' "")
  | None => false
  end.

(** Strict equality [a === b] of two values that are strings or
    [undefined]. *)
Definition strict_eq (a b : option string) : bool :=
  match a, b with
  | Some x, Some y => String.eqb x y
  | None, None => true
  | _, _ => false
  end.

(** [s.split(sep)] for a one-character separator: cuts at every
    occurrence, and the empty string gives one empty segment. *)
Fixpoint split (sep : ascii) (s : string) : list string :=
  match s with
  | EmptyString => [EmptyString]
  | String c rest =>
      if Ascii.eqb c sep then EmptyString :: split sep rest
      else match split sep rest with
           | seg :: segs => String c seg :: segs
           | [] => [String c EmptyString]
           end
  end.

(** [items.join(sep)]. *)
Definition join (sep : string) (items : list string) : string :=
  String.concat sep items.

(** [s.startsWith(p)]. *)
Definition startsWith (p s : string) : bool := String.prefix p s.

(** [s.substring(n)]: the suffix from index [n]. *)
Definition substring_from (n : nat) (s : string) : string :=
  String.substring n (String.length s - n) s.

(** [String(n)] for an integer. *)
Definition string_of_Z (n : Z) : string :=
  NilEmpty.string_of_int (Z.to_int n).

(** Does the string contain the character? *)
Fixpoint contains (c : ascii) (s : string) : bool :=
  match s with
  | EmptyString => false
  | String d rest => Ascii.eqb d c || contains c rest
  end.

End JS.

Import JS.

(** ** src/types.ts *)

Inductive PaymentStatus : Type :=
| PENDING
| SUCCESS
| FAILED
| CANCELLED
| REFUNDED.

(** ** Thrown values

    [PaymeError] and [ClickError] extend [BasePaymentError], which extends
    [Error]; [JsError] is any other [Error] instance, the engine's own
    TypeError included; [ThrownValue] is a thrown value that is not an
    [Error]: a string, an object, [null] ([Some JNull]) or [undefined]
    ([None], as in a promise rejected without a reason). *)

Inductive exn : Type :=
| PaymeError (message : string) (code : Z) (data : option json)
| ClickError (message : string) (code : Z)
| JsError (message : string)
| ThrownValue (value : option json).

Inductive outcome (A : Type) : Type :=
| Returned (value : A)
| Threw (error : exn).

Arguments Returned {A} value.
Arguments Threw {A} error.

(** [e instanceof Error]. *)
Definition instanceof_Error (e : exn) : bool :=
  match e with
  | ThrownValue _ => false
  | _ => true
  end.

(** [null] and [undefined]: reading a property of either raises a
    TypeError. *)
Definition nullish (v : option json) : bool :=
  match v with
  | None => true
  | Some JNull => true
  | _ => false
  end.

(** [v.name] for a value that is not nullish: the field of an object,
    [undefined] for anything else. *)
Fixpoint lookup_field (name : string) (fields : list (string * json))
    : option json :=
  match fields with
  | [] => None
  | (k, v) :: rest =>
      if String.eqb k name then Some v else lookup_field name rest
  end.

Definition property (name : string) (v : option json) : option json :=
  match v with
  | Some (JObj fields) => lookup_field name fields
  | _ => None
  end.

(** [e.message] for an [Error] instance. *)
Definition error_message (e : exn) : option json :=
  match e with
  | PaymeError m _ _ => Some (JStr m)
  | ClickError m _ => Some (JStr m)
  | JsError m => Some (JStr m)
  | ThrownValue v => property "message" v
  end.

(** The message of [new Error(message)] when [message] may be
    [undefined]: without a message the error has the inherited, empty
    one. *)
Definition message_or_empty (message : option string) : string :=
  match message with
  | Some m => m
  | None => ""
  end.

(** [`${e.message}`] for an [Error] instance whose message is a string. *)
Definition message_text (e : exn) : string :=
  match e with
  | PaymeError m _ _ => m
  | ClickError m _ => m
  | JsError m => m
  | ThrownValue _ => "undefined"
  end.

(** ** src/payme/types.ts: JSON-RPC structures *)

Record LocalizedMessage : Type := {
  ru : option string;
  uz : option string;
  en : option string
}.

Record PaymeJsonRpcError : Type := {
  err_code : Z;
  err_message : option LocalizedMessage;
  err_data : option json
}.

(** ** src/errors/PaymeError.ts *)

(** [error.message?.k]: a field of the message object, [undefined] when
    the object itself is missing. *)
Definition localized (k : LocalizedMessage -> option string)
    (m : option LocalizedMessage) : option string :=
  match m with
  | Some l => k l
  | None => None
  end.

(** [a || d] where [d] is a string: [a] when it is truthy, else [d]. *)
Definition or_string (a : option string) (d : string) : string :=
  match a with
  | Some s => if String.eqb s "" then d else s
  | None => d
  end.

Definition fromJsonRpcError (error : PaymeJsonRpcError) : exn :=
  let message :=
    or_string (localized en (err_message error))
      (or_string (localized ru (err_message error))
         (or_string (localized uz (err_message error))
            "Unknown Payme Error")) in
  PaymeError message (err_code error) (err_data error).

(** ** src/payme/utils.ts and src/click/status.ts: status mapping

    The argument is optional in both functions; [None] is [undefined].
    The [switch] compares with [===], so only the listed integers match. *)

Definition getStatusFromPaymeReceiptState (paymeStateCode : option Z)
    : PaymentStatus :=
  match paymeStateCode with
  | Some 0 => PENDING
  | Some 1 => PENDING
  | Some 2 => SUCCESS
  | Some 3 => CANCELLED
  | Some 4 => CANCELLED
  | Some 5 => PENDING
  | Some 6 => REFUNDED
  | _ => FAILED
  end.

Definition getStatusFromClickCode (clickStatusCode : option Z)
    : PaymentStatus :=
  match clickStatusCode with
  | Some 0 => PENDING
  | Some 1 => PENDING
  | Some 2 => SUCCESS
  | Some 3 => CANCELLED
  | Some 5 => CANCELLED
  | Some 4 => REFUNDED
  | _ => FAILED
  end.

(** ** src/payme/PaymeClient.ts *)

Module PaymeClient.

Record PaymeConfig : Type := {
  merchantId : string;
  checkoutKey : string;
  merchantApiSecret : string;
  testMode : bool
}.

Record Receipt : Type := {
  _id : option string;
  create_time : Z;
  pay_time : Z;
  cancel_time : Z;
  state : option Z;
  amount : Z
}.

(** [PaymeCreateReceiptResult]; [PaymePayReceiptResult] and
    [PaymeCancelReceiptResult] extend it with no further field.  The
    result is the object that the provider sent, whatever it holds:
    [receipt] is [None] when that object has no receipt ([undefined], or
    [null]). *)
Record PaymeCreateReceiptResult : Type := {
  receipt : option Receipt
}.

(** The amount of a receipt to create is a JavaScript number, a binary64
    value: it is the product of a multiplication. *)
Inductive RpcParams : Type :=
| PaymeCreateReceiptParams (amount : float) (account_order_id : string)
    (description : string)
| PaymePayReceiptParams (id : string) (token : string).

Record PaymeJsonRpcRequest : Type := {
  req_id : string;
  req_method : string;
  req_params : RpcParams
}.

Record PaymeJsonRpcResponse : Type := {
  result : option PaymeCreateReceiptResult;
  error : option PaymeJsonRpcError
}.

Record ProcessPaymentParams : Type := {
  cardToken : string;
  pp_amount : float;
  orderId : string
}.

Record ProcessedReceiptResult : Type := {
  transactionId : option string;
  status : PaymentStatus;
  prr_receipt : Receipt
}.

(** The constructor rejects a configuration with an empty field. *)
Definition new (config : PaymeConfig) : outcome PaymeConfig :=
  if String.eqb (merchantId config) ""
     || String.eqb (checkoutKey config) ""
     || String.eqb (merchantApiSecret config) ""
  then Threw (JsError
    "PaymeClient: merchantId, checkoutKey, and merchantApiSecret are required.")
  else Returned config.

(** A client operation runs against the list of JSON-RPC requests posted so
    far, in the order they were posted, and extends it. *)
Definition Client (A : Type) : Type :=
  list PaymeJsonRpcRequest -> outcome A * list PaymeJsonRpcRequest.

Definition ret {A : Type} (a : A) : Client A :=
  fun sent => (Returned a, sent).

Definition throw {A : Type} (e : exn) : Client A :=
  fun sent => (Threw e, sent).

Definition bind {A B : Type} (c : Client A) (k : A -> Client B) : Client B :=
  fun sent =>
    match c sent with
    | (Returned a, sent') => k a sent'
    | (Threw e, sent') => (Threw e, sent')
    end.

Notation "x <- c ;; k" := (bind c (fun x => k))
  (at level 61, c at next level, right associativity).

Section Provider.

(** The request id is built from the clock and a random number; here it is
    a function of the number of requests posted before. *)
Variable requestId : nat -> string.

(** [httpClient.post]: what the transport answers to the n-th request
    (counting from 0), given its body and its [X-Auth] header.  It either
    throws or returns the parsed response body. *)
Variable post :
  nat -> PaymeJsonRpcRequest -> string -> outcome PaymeJsonRpcResponse.

Variable config : PaymeConfig.

(** Message of the TypeError that the engine raises when [_id] is read
    from a receipt that is [undefined] or [null]. *)
Variable readIdError : string.

Definition httpPost (requestBody : PaymeJsonRpcRequest)
    : Client PaymeJsonRpcResponse :=
  fun sent =>
    (post (List.length sent) requestBody (checkoutKey config),
     (sent ++ [requestBody])%list).

Definition request (method : string) (params : RpcParams)
    : Client PaymeCreateReceiptResult :=
  fun sent =>
    let requestBody := {| req_id := requestId (List.length sent);
                          req_method := method;
                          req_params := params |} in
    (response <- httpPost requestBody ;;
     match error response with
     | Some e => throw (fromJsonRpcError e)
     | None =>
         match result response with
         | None =>
             throw (PaymeError "Received empty result from Payme API."
                      (-32000) None)
         | Some r => ret r
         end
     end) sent.

Definition chargeFromCardToken (params : ProcessPaymentParams)
    : Client ProcessedReceiptResult :=
  let createReceiptParams :=
    PaymeCreateReceiptParams (pp_amount params * 100)%float (orderId params)
      ("Payment for order " ++ orderId params) in
  createResult <- request "receipts.create" createReceiptParams ;;
  match receipt createResult with
  | None => throw (JsError readIdError)
  | Some created =>
      match _id created with
      | Some receiptId =>
          if String.eqb receiptId "" then
            throw (PaymeError "Failed to create receipt." (-32001) None)
          else
            let payReceiptParams :=
              PaymePayReceiptParams receiptId (cardToken params) in
            payResult <- request "receipts.pay" payReceiptParams ;;
            match receipt payResult with
            | None => throw (JsError readIdError)
            | Some paid =>
                ret {| transactionId := _id paid;
                       status := getStatusFromPaymeReceiptState (state paid);
                       prr_receipt := paid |}
            end
      | None => throw (PaymeError "Failed to create receipt." (-32001) None)
      end
  end.

End Provider.

End PaymeClient.

(** ** src/payme/PaymeWebhookHandler.ts *)

Module PaymeWebhookHandler.

(** A JSON-RPC id is a number or a string. *)
Inductive JsId : Type :=
| IdNum (n : Z)
| IdStr (s : string).

Definition id_truthy (i : JsId) : bool :=
  match i with
  | IdNum n => negb (n =? 0)
  | IdStr s => negb (String.eqb s "")
  end.

Record PaymeJsonRpcRequest : Type := {
  id : option JsId;
  method : string;
  params : json
}.

(** The answer of the handler: its [id], [result] and [error] keys, each
    [None] when the key is absent, and its other keys. *)
Record PaymeJsonRpcResponse : Type := {
  res_id : option JsId;
  res_result : option json;
  res_error : option PaymeJsonRpcError;
  res_rest : list (string * json)
}.

(** What an operation of the business logic resolves to.  It is declared
    as [{ result }] or [{ error }], and [handle] spreads whatever object
    it gets: the object may hold both keys or neither, an [id] key of its
    own ([own_id] is [Some v] when it does, [v] being [None] for
    [undefined]), and other keys. *)
Record LogicResponse : Type := {
  own_id : option (option JsId);
  own_result : option json;
  own_error : option PaymeJsonRpcError;
  own_rest : list (string * json)
}.

(** The two declared shapes, [{ result }] and [{ error }]. *)
Definition ResultOf (result : json) : LogicResponse :=
  {| own_id := None; own_result := Some result; own_error := None;
     own_rest := [] |}.

Definition ErrorOf (error : PaymeJsonRpcError) : LogicResponse :=
  {| own_id := None; own_result := None; own_error := Some error;
     own_rest := [] |}.

(** An operation of the business logic receives the params and the request
    id; it resolves to a response or rejects with a thrown value. *)
Definition LogicOperation : Type :=
  json -> option JsId -> outcome LogicResponse.

Record PaymeWebhookLogic : Type := {
  checkPerformTransaction : LogicOperation;
  createTransaction : LogicOperation;
  performTransaction : LogicOperation;
  cancelTransaction : LogicOperation;
  checkTransaction : LogicOperation;
  getStatement : LogicOperation
}.

Inductive PaymeWebhookMethod : Type :=
| CheckPerformTransaction
| CreateTransaction
| PerformTransaction
| CancelTransaction
| CheckTransaction
| GetStatement.

(** One invocation of the business logic, as the logic sees it. *)
Record LogicCall : Type := {
  call_method : PaymeWebhookMethod;
  call_params : json;
  call_requestId : option JsId
}.

Record Handler : Type := {
  secretKey : string;
  logic : PaymeWebhookLogic
}.

Definition PAYME_LOGIN : string := "Paycom".

(** The constructor rejects an empty secret. *)
Definition new (secret : string) (l : PaymeWebhookLogic) : outcome Handler :=
  if String.eqb secret "" then
    Threw (JsError
      "PaymeWebhookHandler: secretKey and logic implementation are required.")
  else Returned {| secretKey := secret; logic := l |}.

(** The [case] labels of the [switch] in [handle]. *)
Definition method_of_string (m : string) : option PaymeWebhookMethod :=
  if String.eqb m "CheckPerformTransaction" then Some CheckPerformTransaction
  else if String.eqb m "CreateTransaction" then Some CreateTransaction
  else if String.eqb m "PerformTransaction" then Some PerformTransaction
  else if String.eqb m "CancelTransaction" then Some CancelTransaction
  else if String.eqb m "CheckTransaction" then Some CheckTransaction
  else if String.eqb m "GetStatement" then Some GetStatement
  else None.

Definition operation (l : PaymeWebhookLogic) (m : PaymeWebhookMethod)
    : LogicOperation :=
  match m with
  | CheckPerformTransaction => checkPerformTransaction l
  | CreateTransaction => createTransaction l
  | PerformTransaction => performTransaction l
  | CancelTransaction => cancelTransaction l
  | CheckTransaction => checkTransaction l
  | GetStatement => getStatement l
  end.

(** [{ id, ...response }]: the keys of the response are copied after
    [id], so an [id] key of the response replaces the id of the request. *)
Definition envelope (i : option JsId) (response : LogicResponse)
    : PaymeJsonRpcResponse :=
  {| res_id := match own_id response with
               | Some replaced => replaced
               | None => i
               end;
     res_result := own_result response;
     res_error := own_error response;
     res_rest := own_rest response |}.

(** [body?.id || Date.now()]. *)
Definition id_or_now (body : option PaymeJsonRpcRequest) (now : Z) : JsId :=
  match body with
  | Some request =>
      match id request with
      | Some i => if id_truthy i then i else IdNum now
      | None => IdNum now
      end
  | None => IdNum now
  end.

Section Runtime.

(** [Buffer.from(s, 'base64').toString('ascii')]. *)
Variable base64_ascii : string -> string.

(** Message of the TypeError raised when the body at hand, [null] or
    [undefined], is destructured, and message of the one raised when
    [message] is read from a thrown value that is [null] or [undefined]:
    the engine names the value in it. *)
Variable destructureError : string.
Variable readNullishError : option json -> string.

Variable handler : Handler.

Definition verifyAuth (authHeader : option string) : outcome unit :=
  match authHeader with
  | None =>
      Threw (PaymeError "Unauthorized" (-32504)
               (Some (JStr "Authorization header missing or invalid")))
  | Some header =>
      if String.eqb header "" || negb (startsWith "Basic " header) then
        Threw (PaymeError "Unauthorized" (-32504)
                 (Some (JStr "Authorization header missing or invalid")))
      else
        let credentials := base64_ascii (substring_from 6 header) in
        let parts := split ":" credentials in
        let login := nth_error parts 0 in
        let password := nth_error parts 1 in
        if negb (strict_eq login (Some PAYME_LOGIN))
           || negb (strict_eq password (Some (secretKey handler)))
        then
          Threw (PaymeError "Unauthorized" (-32504)
                   (Some (JStr "Invalid login or password")))
        else Returned tt
  end.

(** The body of the [try] block, with the calls made to the business
    logic. *)
Definition handle_try (body : option PaymeJsonRpcRequest)
    (authorizationHeader : option string)
    : outcome PaymeJsonRpcResponse * list LogicCall :=
  match verifyAuth authorizationHeader with
  | Threw e => (Threw e, [])
  | Returned _ =>
      match body with
      | None => (Threw (JsError destructureError), [])
      | Some request =>
          match method_of_string (method request) with
          | Some m =>
              let call := {| call_method := m;
                             call_params := params request;
                             call_requestId := id request |} in
              match operation (logic handler) m (params request)
                      (id request) with
              | Returned response =>
                  (Returned (envelope (id request) response), [call])
              | Threw e => (Threw e, [call])
              end
          | None => (Threw (PaymeError "Method not found" (-32601) None), [])
          end
      end
  end.

(** The [catch] block: the JSON-RPC error built from the caught value.
    Reading [message] from a nullish value throws inside the block. *)
Definition jsonRpcError_of (error : exn) : outcome PaymeJsonRpcError :=
  match error with
  | PaymeError message code data =>
      Returned {| err_code := code;
                  err_message :=
                    Some {| ru := None; uz := None; en := Some message |};
                  err_data := data |}
  | ThrownValue v =>
      if nullish v then Threw (JsError (readNullishError v))
      else
        Returned {| err_code := -32400;
                    err_message :=
                      Some {| ru := None; uz := None;
                              en := Some "Internal Server Error" |};
                    err_data := property "message" v |}
  | _ =>
      Returned {| err_code := -32400;
                  err_message :=
                    Some {| ru := None; uz := None;
                            en := Some "Internal Server Error" |};
                  err_data := error_message error |}
  end.

(** [handle]: [now] is the value of [Date.now()]. *)
Definition handle (body : option PaymeJsonRpcRequest)
    (authorizationHeader : option string) (now : Z)
    : outcome PaymeJsonRpcResponse * list LogicCall :=
  match handle_try body authorizationHeader with
  | (Returned response, calls) => (Returned response, calls)
  | (Threw error, calls) =>
      match jsonRpcError_of error with
      | Returned jsonRpcError =>
          (Returned {| res_id := Some (id_or_now body now);
                       res_result := None;
                       res_error := Some jsonRpcError;
                       res_rest := [] |}, calls)
      | Threw e => (Threw e, calls)
      end
  end.

End Runtime.

End PaymeWebhookHandler.

(** ** A Base64 decoder

    Used to run the webhook handler on concrete headers.  It reads the
    standard and the URL-safe alphabet, skips any other character, stops at
    the first [=], and [toString('ascii')] clears the top bit of each
    byte. *)

Module Base64.

Local Open Scope N_scope.

Definition sextet (c : ascii) : option N :=
  let n := N_of_ascii c in
  if (65 <=? n) && (n <=? 90) then Some (n - 65)
  else if (97 <=? n) && (n <=? 122) then Some (n - 71)
  else if (48 <=? n) && (n <=? 57) then Some (n + 4)
  else if (n =? 43) || (n =? 45) then Some 62
  else if (n =? 47) || (n =? 95) then Some 63
  else None.

Fixpoint sextets (s : string) : list N :=
  match s with
  | EmptyString => []
  | String c rest =>
      if Ascii.eqb c "=" then []
      else match sextet c with
           | Some v => v :: sextets rest
           | None => sextets rest
           end
  end.

Fixpoint bytes (l : list N) : list N :=
  match l with
  | a :: b :: c :: d :: rest =>
      (a * 4 + b / 16) :: ((b mod 16) * 16 + c / 4) :: ((c mod 4) * 64 + d)
        :: bytes rest
  | [a; b; c] => [a * 4 + b / 16; (b mod 16) * 16 + c / 4]
  | [a; b] => [a * 4 + b / 16]
  | _ => []
  end.

Definition ascii_string (l : list N) : string :=
  string_of_list_ascii (List.map (fun b => ascii_of_N (b mod 128)) l).

Definition decode_ascii (s : string) : string :=
  ascii_string (bytes (sextets s)).

End Base64.

(** ** src/click/types.ts *)

Module ClickCreateCardTokenResponse.
Record t : Type := {
  card_token : option string;
  phone_number : string;
  card_number : string;
  temporary : Z;
  error_code : Z;
  error_note : string
}.
End ClickCreateCardTokenResponse.

(** The answer to a charge is the parsed body, whatever it holds: each
    field is [None] when the body does not carry it, as in the [{}] that
    [HttpClient.request] returns for an empty body. *)
Module ClickChargeFromCardTokenResponse.
Record t : Type := {
  payment_id : option Z;
  payment_status : option Z;
  error_code : option Z;
  error_note : option string
}.
End ClickChargeFromCardTokenResponse.

Record ClickWebhookBody : Type := {
  click_trans_id : string;
  service_id : string;
  click_paydoc_id : string;
  merchant_trans_id : string;
  amount : string;
  action : Z;
  error : Z;
  error_note : string;
  sign_time : string;
  sign_string : string;
  merchant_prepare_id : option string
}.

(** ** src/click/ClickClient.ts *)

Module ClickClient.

Record ClickConfig : Type := {
  merchantId : string;
  merchantUserId : string;
  secretKey : string;
  serviceId : string
}.

Record CreateCardTokenParams : Type := {
  cardNumber : string;
  expireDate : string;
  save : option bool
}.

Record ProcessPaymentParams : Type := {
  cardToken : string;
  pp_amount : float;
  orderId : string
}.

Record CardTokenResult : Type := {
  ctr_cardToken : string;
  requiresVerification : bool
}.

Record ProcessedPaymentResult : Type := {
  transactionId : option Z;
  status : PaymentStatus
}.

Inductive HttpVerb : Type := Post | Get | Delete.

Inductive RequestBody : Type :=
| CardTokenRequestBody (card_number expire_date : string) (temporary : Z)
    (service_id : string)
| CardTokenPaymentBody (service_id card_token : string) (amount : float)
    (transaction_parameter : string).

(** The constructor rejects a configuration with an empty field. *)
Definition new (config : ClickConfig) : outcome ClickConfig :=
  if String.eqb (merchantId config) ""
     || String.eqb (merchantUserId config) ""
     || String.eqb (secretKey config) ""
     || String.eqb (serviceId config) ""
  then Threw (JsError
    "ClickClient: merchantId, merchantUserId, secretKey, and serviceId are required.")
  else Returned config.

Section Transport.

(** [getDigestAuthToken] of src/click/utils.ts reads the clock and hashes
    with SHA-1; its value at the time of the call is a parameter. *)
Variable getDigestAuthToken : string -> string -> string.

Variable config : ClickConfig.

Section Request.

Context {T : Type}.

(** [httpClient.post], [get] and [delete]: the verb, the endpoint, the
    body ([post] only) and the [Auth] header give what the transport
    throws or the parsed response. *)
Variable http : HttpVerb -> string -> option RequestBody -> string -> outcome T.

Definition request (verb : HttpVerb) (endpoint : string)
    (body : option RequestBody) : outcome T :=
  let headers :=
    getDigestAuthToken (merchantUserId config) (secretKey config) in
  let sent :=
    match verb with
    | Post => http Post endpoint body headers
    | Get => http Get endpoint None headers
    | Delete => http Delete endpoint None headers
    end in
  match sent with
  | Returned response => Returned response
  | Threw e =>
      if instanceof_Error e then
        Threw (JsError ("Click API request failed: " ++ message_text e))
      else
        Threw (JsError
          "An unknown error occurred during the Click API request.")
  end.

End Request.

Definition createCardToken
    (http : HttpVerb -> string -> option RequestBody -> string ->
            outcome ClickCreateCardTokenResponse.t)
    (params : CreateCardTokenParams) : outcome CardTokenResult :=
  let save_or_true := match save params with Some b => b | None => true end in
  match request http Post "/card_token/request"
          (Some (CardTokenRequestBody (cardNumber params) (expireDate params)
                   (if save_or_true then 0 else 1) (serviceId config))) with
  | Threw e => Threw e
  | Returned response =>
      let code := ClickCreateCardTokenResponse.error_code response in
      let note := ClickCreateCardTokenResponse.error_note response in
      match ClickCreateCardTokenResponse.card_token response with
      | Some token =>
          if (code <? 0) || String.eqb token "" then
            Threw (ClickError note code)
          else
            Returned {| ctr_cardToken := token;
                        requiresVerification := true |}
      | None => Threw (ClickError note code)
      end
  end.

(** [payment_status !== 2]. *)
Definition status_is_not_2 (payment_status : option Z) : bool :=
  match payment_status with
  | Some s => negb (s =? 2)
  | None => true
  end.

Definition chargeFromCardToken
    (http : HttpVerb -> string -> option RequestBody -> string ->
            outcome ClickChargeFromCardTokenResponse.t)
    (params : ProcessPaymentParams) : outcome ProcessedPaymentResult :=
  match request http Post "/card_token/payment"
          (Some (CardTokenPaymentBody (serviceId config) (cardToken params)
                   (pp_amount params) (orderId params))) with
  | Threw e => Threw e
  | Returned response =>
      let payment_status :=
        ClickChargeFromCardTokenResponse.payment_status response in
      match ClickChargeFromCardTokenResponse.error_code response with
      | Some code =>
          if (code <? 0) || (status_is_not_2 payment_status && (code =? 0))
          then
            Threw (ClickError
                     (message_or_empty
                        (ClickChargeFromCardTokenResponse.error_note response))
                     code)
          else
            Returned {| transactionId :=
                          ClickChargeFromCardTokenResponse.payment_id response;
                        status := getStatusFromClickCode payment_status |}
      | None =>
          (* [undefined < 0] and [undefined === 0] are both false *)
          Returned {| transactionId :=
                        ClickChargeFromCardTokenResponse.payment_id response;
                      status := getStatusFromClickCode payment_status |}
      end
  end.

End Transport.

End ClickClient.

(** ** src/click/utils.ts *)

Module ClickUtils.

Section Hash.

(** [crypto.createHash('md5').update(s).digest('hex')]. *)
Variable md5_hex : string -> string.

(** The fields that are hashed, in order.  [merchant_prepare_id] takes part
    when [action === 1] and the field is truthy. *)
Definition fieldsToHash (body : ClickWebhookBody) (secretKey : string)
    : list string :=
  ([click_trans_id body; service_id body; secretKey; merchant_trans_id body]
   ++ (match merchant_prepare_id body with
       | Some prepare_id =>
           if (action body =? 1) && negb (String.eqb prepare_id "")
           then [prepare_id] else []
       | None => []
       end)
   ++ [amount body; string_of_Z (action body); sign_time body])%list.

Definition stringToHash (body : ClickWebhookBody) (secretKey : string)
    : string :=
  join "|" (fieldsToHash body secretKey).

Definition verifyWebhookSignature (body : ClickWebhookBody)
    (secretKey : string) : bool :=
  let generatedHash := md5_hex (stringToHash body secretKey) in
  String.eqb generatedHash (sign_string body).

End Hash.

End ClickUtils.

(** ** src/click/ClickWebhookHandler.ts *)

Module ClickWebhookHandler.

(** The constructor rejects an empty secret. *)
Definition new (secretKey : string) : outcome string :=
  if String.eqb secretKey "" then
    Threw (JsError "ClickWebhookHandler: secretKey is required.")
  else Returned secretKey.

Section Hash.

Variable md5_hex : string -> string.

(** The secret key held by the handler. *)
Variable secretKey : string.

Definition verifySignature (body : ClickWebhookBody) : outcome unit :=
  let isValid := ClickUtils.verifyWebhookSignature md5_hex body secretKey in
  if negb isValid then Threw (ClickError "Invalid webhook signature." (-1))
  else Returned tt.

End Hash.

End ClickWebhookHandler.

(** ** MD5 (RFC 1321)

    Used to run the signature check on concrete webhook bodies.  Words are
    32-bit integers in [Z], reduced after every addition and rotation. *)

Module MD5.

Definition word (x : Z) : Z := Z.land x 4294967295.

Definition rotl (x n : Z) : Z :=
  word (Z.lor (Z.shiftl x n) (Z.shiftr x (32 - n))).

Definition K : list Z :=
  [ 3614090360; 3905402710;  606105819; 3250441966;
    4118548399; 1200080426; 2821735955; 4249261313;
    1770035416; 2336552879; 4294925233; 2304563134;
    1804603682; 4254626195; 2792965006; 1236535329;
    4129170786; 3225465664;  643717713; 3921069994;
    3593408605;   38016083; 3634488961; 3889429448;
     568446438; 3275163606; 4107603335; 1163531501;
    2850285829; 4243563512; 1735328473; 2368359562;
    4294588738; 2272392833; 1839030562; 4259657740;
    2763975236; 1272893353; 4139469664; 3200236656;
     681279174; 3936430074; 3572445317;   76029189;
    3654602809; 3873151461;  530742520; 3299628645;
    4096336452; 1126891415; 2878612391; 4237533241;
    1700485571; 2399980690; 4293915773; 2240044497;
    1873313359; 4264355552; 2734768916; 1309151649;
    4149444226; 3174756917;  718787259; 3951481745 ].

Definition S : list Z :=
  [ 7; 12; 17; 22; 7; 12; 17; 22; 7; 12; 17; 22; 7; 12; 17; 22;
    5;  9; 14; 20; 5;  9; 14; 20; 5;  9; 14; 20; 5;  9; 14; 20;
    4; 11; 16; 23; 4; 11; 16; 23; 4; 11; 16; 23; 4; 11; 16; 23;
    6; 10; 15; 21; 6; 10; 15; 21; 6; 10; 15; 21; 6; 10; 15; 21 ].

Record state : Type := { A : Z; B : Z; C : Z; D : Z }.

Definition initial : state :=
  {| A := 1732584193; B := 4023233417; C := 2562383102; D := 271733878 |}.

(** One of the 64 steps on a block of sixteen words. *)
Definition step (M : list Z) (st : state) (i : nat) : state :=
  let iz := Z.of_nat i in
  let b := B st in
  let c := C st in
  let d := D st in
  let '(f, g) :=
    if iz <? 16 then (Z.lor (Z.land b c) (Z.land (word (Z.lnot b)) d), iz)
    else if iz <? 32 then
      (Z.lor (Z.land d b) (Z.land (word (Z.lnot d)) c), (5 * iz + 1) mod 16)
    else if iz <? 48 then (Z.lxor b (Z.lxor c d), (3 * iz + 5) mod 16)
    else (Z.lxor c (Z.lor b (word (Z.lnot d))), (7 * iz) mod 16) in
  let sum := word (f + A st + nth i K 0 + nth (Z.to_nat g) M 0) in
  {| A := d; B := word (b + rotl sum (nth i S 0)); C := b; D := c |}.

Definition block (st : state) (M : list Z) : state :=
  let st' := fold_left (step M) (seq 0 64) st in
  {| A := word (A st + A st'); B := word (B st + B st');
     C := word (C st + C st'); D := word (D st + D st') |}.

(** Little-endian bytes of a number, [n] of them. *)
Fixpoint le_bytes (n : nat) (x : Z) : list Z :=
  match n with
  | O => []
  | Datatypes.S n' => (x mod 256) :: le_bytes n' (x / 256)
  end.

(** The message followed by 0x80, zeros up to 56 modulo 64, and the length
    in bits on eight bytes. *)
Definition padded (message : list Z) : list Z :=
  let len := Z.of_nat (List.length message) in
  let zeros := Z.to_nat ((55 - len) mod 64) in
  (message ++ [128] ++ repeat 0 zeros ++ le_bytes 8 (8 * len))%list.

(** Little-endian 32-bit words of a byte list. *)
Fixpoint words (fuel : nat) (l : list Z) : list Z :=
  match fuel, l with
  | Datatypes.S fuel', b0 :: b1 :: b2 :: b3 :: rest =>
      (b0 + 256 * b1 + 65536 * b2 + 16777216 * b3) :: words fuel' rest
  | _, _ => []
  end.

(** Blocks of sixteen words. *)
Fixpoint blocks (fuel : nat) (l : list Z) : list (list Z) :=
  match fuel, l with
  | Datatypes.S fuel', _ :: _ => firstn 16 l :: blocks fuel' (skipn 16 l)
  | _, _ => []
  end.

Definition digest (message : list Z) : list Z :=
  let ws := words (List.length (padded message)) (padded message) in
  let st := fold_left block (blocks (List.length ws) ws) initial in
  (le_bytes 4 (A st) ++ le_bytes 4 (B st)
   ++ le_bytes 4 (C st) ++ le_bytes 4 (D st))%list.

Definition hex_digit (x : Z) : ascii :=
  if x <? 10 then ascii_of_N (Z.to_N (48 + x))
  else ascii_of_N (Z.to_N (87 + x)).

Fixpoint hex (l : list Z) : string :=
  match l with
  | [] => EmptyString
  | b :: rest =>
      String (hex_digit (b / 16)) (String (hex_digit (b mod 16)) (hex rest))
  end.

Definition bytes_of_string (s : string) : list Z :=
  List.map (fun c => Z.of_N (N_of_ascii c)) (list_ascii_of_string s).

Definition md5_hex (s : string) : string :=
  hex (digest (bytes_of_string s)).

End MD5.

From Stdlib Require Import DecimalZ.

(** ** src/utils/HttpClient.ts *)

Module HttpClient.

(** The value of a header: a string, or an array of strings, which is
    what a key holds after an array of pairs was spread into an object. *)
Inductive HeaderValue : Type :=
| Text (value : string)
| Items (values : list string).

(** A JavaScript object used as a dictionary: its own enumerable string
    keys in the order in which the engine enumerates them, the array
    indices first, in ascending order, then the other keys in insertion
    order. *)
Definition Dictionary : Type := list (string * HeaderValue).

(** [HeadersInit]: a plain object, an array of pairs, or an instance of
    [Headers], whose entries are internal to the instance. *)
Inductive HeadersInit : Type :=
| Plain (fields : Dictionary)
| Pairs (items : list (list string))
| Instance (entries : list (string * string)).

(** An array index: the canonical numeral of an integer below 2^32 - 1. *)
Definition array_index (k : string) : option Z :=
  match NilEmpty.uint_of_string k with
  | Some digits =>
      let i := Z.of_uint digits in
      if String.eqb (string_of_Z i) k && (i <? 4294967295) then Some i
      else None
  | None => None
  end.

(** [o[k]]. *)
Fixpoint get_key (k : string) (o : Dictionary) : option HeaderValue :=
  match o with
  | [] => None
  | (k', v) :: rest => if String.eqb k' k then Some v else get_key k rest
  end.

Definition has_key (k : string) (o : Dictionary) : bool :=
  match get_key k o with
  | Some _ => true
  | None => false
  end.

(** [o[k] = v] for a key that [o] has: the key keeps its place. *)
Fixpoint replace_key (k : string) (v : HeaderValue) (o : Dictionary)
    : Dictionary :=
  match o with
  | [] => []
  | (k', v') :: rest =>
      if String.eqb k' k then (k', v) :: rest
      else (k', v') :: replace_key k v rest
  end.

(** [o[k] = v] for a key that [o] does not have: an array index goes among
    the indices, in ascending order, and another key goes last. *)
Fixpoint add_key (k : string) (v : HeaderValue) (o : Dictionary)
    : Dictionary :=
  match o with
  | [] => [(k, v)]
  | (k', v') :: rest =>
      match array_index k, array_index k' with
      | Some i, Some i' =>
          if i <? i' then (k, v) :: o else (k', v') :: add_key k v rest
      | Some _, None => (k, v) :: o
      | None, _ => (k', v') :: add_key k v rest
      end
  end.

(** [o[k] = v]. *)
Definition set_key (k : string) (v : HeaderValue) (o : Dictionary)
    : Dictionary :=
  if has_key k o then replace_key k v o else add_key k v o.

(** The elements of an array as properties: the indices from [i] on. *)
Fixpoint indexed (i : nat) (items : list (list string)) : Dictionary :=
  match items with
  | [] => []
  | item :: rest =>
      (string_of_Z (Z.of_nat i), Items item) :: indexed (S i) rest
  end.

(** The own enumerable properties that an object spread copies: the
    fields of a plain object, the elements of an array under their
    indices, and nothing for an instance of [Headers]. *)
Definition own_properties (h : HeadersInit) : Dictionary :=
  match h with
  | Plain fields => fields
  | Pairs items => indexed 0 items
  | Instance _ => []
  end.

(** [{ ...base, ...extra }]. *)
Definition spread (base extra : Dictionary) : Dictionary :=
  fold_left (fun o kv => set_key (fst kv) (snd kv) o) extra base.

(** [RequestOptions]: the fields of [RequestInit] that the SDK uses, and
    the timeout. *)
Record RequestOptions : Type := {
  timeout : option Z;
  method : option string;
  body : option string;
  headers : option HeadersInit
}.

(** No option given: [{}]. *)
Definition no_options : RequestOptions :=
  {| timeout := None; method := None; body := None; headers := None |}.

(** What [fetch] resolves to: [ok], [status], and what [text()] resolves
    to. *)
Record Response : Type := {
  ok : bool;
  status : Z;
  text : outcome string
}.

Section Client.

Context {T : Type}.

(** [fetch(url, init)], where [init] is the options without the timeout;
    the last argument is the delay after which the abort signal fires. *)
Variable fetch : string -> RequestOptions -> Z -> outcome Response.

(** [JSON.parse], which throws on malformed text, and [{}] seen at the
    type of the response. *)
Variable JSON_parse : string -> outcome T.
Variable empty_object : T.

Variable baseUrl : string.

Definition request (endpoint : string) (options : RequestOptions)
    : outcome T :=
  let url := baseUrl ++ endpoint in
  let delay := match timeout options with Some t => t | None => 8000 end in
  let restOptions := {| timeout := None; method := method options;
                        body := body options;
                        headers := headers options |} in
  match fetch url restOptions delay with
  | Threw e => Threw e
  | Returned response =>
      if negb (ok response) then
        match text response with
        | Threw e => Threw e
        | Returned errorBody =>
            Threw (JsError ("HTTP error! status: "
                            ++ string_of_Z (status response)
                            ++ ", body: " ++ errorBody))
        end
      else
        match text response with
        | Threw e => Threw e
        | Returned t =>
            if String.eqb t "" then Returned empty_object else JSON_parse t
        end
  end.

Definition get (endpoint : string) (options : RequestOptions) : outcome T :=
  request endpoint
    {| timeout := timeout options; method := Some "GET";
       body := body options; headers := headers options |}.

(** [post]: [stringified] is [JSON.stringify(body)]. *)
Definition post (endpoint : string) (stringified : string)
    (options : RequestOptions) : outcome T :=
  request endpoint
    {| timeout := timeout options; method := Some "POST";
       body := Some stringified;
       headers :=
         Some (Plain
                 (spread [("Content-Type", Text "application/json");
                          ("Accept", Text "application/json")]
                    (match headers options with
                     | Some given => own_properties given
                     | None => []
                     end)))
    |}.

Definition delete (endpoint : string) (options : RequestOptions)
    : outcome T :=
  request endpoint
    {| timeout := timeout options; method := Some "DELETE";
       body := body options; headers := headers options |}.

End Client.

End HttpClient.

(** ** src/payme/PaymeClient.ts: the card and receipt calls, the invoice
    URL; src/payme/utils.ts: [generatePaymeInvoiceUrl] *)

Module PaymeApi.

Definition PAYME_API_BASE_URL : string := "https://checkout.paycom.uz/api".
Definition PAYME_TEST_API_BASE_URL : string :=
  "https://checkout.test.paycom.uz/api".
Definition PAYME_CHECKOUT_URL : string := "https://checkout.paycom.uz/".
Definition PAYME_TEST_CHECKOUT_URL : string := "https://test.paycom.uz/".

(** The base URL of the API and the checkout URL chosen by the
    constructor. *)
Definition baseUrl (config : PaymeClient.PaymeConfig) : string :=
  if PaymeClient.testMode config then PAYME_TEST_API_BASE_URL
  else PAYME_API_BASE_URL.

Definition checkoutUrl (config : PaymeClient.PaymeConfig) : string :=
  if PaymeClient.testMode config then PAYME_TEST_CHECKOUT_URL
  else PAYME_CHECKOUT_URL.

(** A JSON-RPC request with its params as the object that is sent. *)
Record JsonRpcRequest : Type := {
  id : string;
  method : string;
  params : json
}.

Record JsonRpcResponse (R : Type) : Type := {
  result : option R;
  error : option PaymeJsonRpcError
}.

Arguments result {R} _.
Arguments error {R} _.

Record Card : Type := {
  token : string;
  recurrent : bool;
  verify : bool
}.

(** [PaymeCreateCardResult]; [PaymeVerifyCardResult] extends it with no
    further field. *)
Record PaymeCreateCardResult : Type := {
  card : Card
}.

Record PaymeGetVerifyCodeResult : Type := {
  sent : bool;
  phone : string;
  wait : Z
}.

Record PaymeCheckReceiptResult : Type := {
  state : option Z
}.

Record VerifyCardTokenParams : Type := {
  cardToken : string;
  smsCode : string
}.

(** The amount is a JavaScript number, a binary64 value. *)
Record GenerateInvoiceParams : Type := {
  gi_amount : float;
  orderId : string;
  returnUrl : string
}.

Section Call.

Context {R : Type}.

Variable requestId : nat -> string.

(** [httpClient.post]: the answer to the n-th request, given its body and
    its [X-Auth] header. *)
Variable post :
  nat -> JsonRpcRequest -> string -> outcome (JsonRpcResponse R).

Variable config : PaymeClient.PaymeConfig.

(** [request], run against the list of requests posted so far. *)
Definition request (rpcMethod : string) (rpcParams : json)
    (posted : list JsonRpcRequest) : outcome R * list JsonRpcRequest :=
  let requestBody := {| id := requestId (List.length posted);
                        method := rpcMethod;
                        params := rpcParams |} in
  let posted' := (posted ++ [requestBody])%list in
  match post (List.length posted) requestBody
          (PaymeClient.checkoutKey config) with
  | Threw e => (Threw e, posted')
  | Returned response =>
      match error response with
      | Some e => (Threw (fromJsonRpcError e), posted')
      | None =>
          match result response with
          | None =>
              (Threw (PaymeError "Received empty result from Payme API."
                        (-32000) None), posted')
          | Some r => (Returned r, posted')
          end
      end
  end.

End Call.

Section Operations.

Variable requestId : nat -> string.
Variable config : PaymeClient.PaymeConfig.

(** Each operation continues with the result of its single request. *)
Definition andThen {R A : Type} (run : outcome R * list JsonRpcRequest)
    (k : R -> A) : outcome A * list JsonRpcRequest :=
  match run with
  | (Returned r, posted) => (Returned (k r), posted)
  | (Threw e, posted) => (Threw e, posted)
  end.

Definition createCardToken
    (post : nat -> JsonRpcRequest -> string ->
            outcome (JsonRpcResponse PaymeCreateCardResult))
    (p : ClickClient.CreateCardTokenParams)
    (posted : list JsonRpcRequest)
    : outcome (string * bool) * list JsonRpcRequest :=
  let payload :=
    JObj [("card", JObj [("number", JStr (ClickClient.cardNumber p));
                         ("expire", JStr (ClickClient.expireDate p))]);
          ("save", JBool (match ClickClient.save p with
                          | Some b => b
                          | None => true
                          end))] in
  andThen (request requestId post config "cards.create" payload posted)
    (fun r => (token (card r), negb (verify (card r)))).

Definition sendVerificationCode
    (post : nat -> JsonRpcRequest -> string ->
            outcome (JsonRpcResponse PaymeGetVerifyCodeResult))
    (cardToken : string) (posted : list JsonRpcRequest)
    : outcome bool * list JsonRpcRequest :=
  let payload := JObj [("token", JStr cardToken)] in
  andThen (request requestId post config "cards.get_verify_code" payload
             posted)
    sent.

Definition verifyCard
    (post : nat -> JsonRpcRequest -> string ->
            outcome (JsonRpcResponse PaymeCreateCardResult))
    (p : VerifyCardTokenParams) (posted : list JsonRpcRequest)
    : outcome (string * bool) * list JsonRpcRequest :=
  let payload := JObj [("token", JStr (cardToken p));
                       ("code", JStr (smsCode p))] in
  andThen (request requestId post config "cards.verify" payload posted)
    (fun r => (token (card r), verify (card r))).

Definition checkReceiptStatus
    (post : nat -> JsonRpcRequest -> string ->
            outcome (JsonRpcResponse PaymeCheckReceiptResult))
    (receiptId : string) (posted : list JsonRpcRequest)
    : outcome PaymentStatus * list JsonRpcRequest :=
  let payload := JObj [("id", JStr receiptId)] in
  andThen (request requestId post config "receipts.check" payload posted)
    (fun r => getStatusFromPaymeReceiptState (state r)).

(** [readIdError] is the message of the TypeError raised when [_id] is
    read from a receipt that is [undefined] or [null]. *)
Definition cancelReceipt (readIdError : string)
    (post : nat -> JsonRpcRequest -> string ->
            outcome (JsonRpcResponse PaymeClient.PaymeCreateReceiptResult))
    (receiptId : string) (posted : list JsonRpcRequest)
    : outcome PaymeClient.ProcessedReceiptResult * list JsonRpcRequest :=
  let payload := JObj [("id", JStr receiptId)] in
  match request requestId post config "receipts.cancel" payload posted with
  | (Returned r, posted') =>
      match PaymeClient.receipt r with
      | None => (Threw (JsError readIdError), posted')
      | Some cancelled =>
          (Returned
             {| PaymeClient.transactionId := PaymeClient._id cancelled;
                PaymeClient.status :=
                  getStatusFromPaymeReceiptState
                    (PaymeClient.state cancelled);
                PaymeClient.prr_receipt := cancelled |}, posted')
      end
  | (Threw e, posted') => (Threw e, posted')
  end.

End Operations.

Section Invoice.

(** [Buffer.from(s).toString('base64')]. *)
Variable base64 : string -> string.

(** The text of a number in a template literal, which is the one of
    [Number.prototype.toString]: the shortest numeral that reads back as
    the same binary64 value, in exponent notation from 1e21 on. *)
Variable Number_toString : float -> string.

(** The parameter string of an invoice, before it is encoded. *)
Definition invoiceParams (merchantId : string) (amountInTiyins : float)
    (order : string) (back : string) : string :=
  "m=" ++ merchantId ++ ";ac.order_id=" ++ order ++ ";a="
    ++ Number_toString amountInTiyins ++ ";c=" ++ back.

Definition generatePaymeInvoiceUrl (base : string) (merchantId : string)
    (amountInTiyins : float) (order : string) (back : string) : string :=
  let encodedParams :=
    base64 (invoiceParams merchantId amountInTiyins order back) in
  base ++ encodedParams.

Definition generateInvoiceUrl (config : PaymeClient.PaymeConfig)
    (p : GenerateInvoiceParams) : string :=
  let amountInTiyins := (gi_amount p * 100)%float in
  generatePaymeInvoiceUrl (checkoutUrl config)
    (PaymeClient.merchantId config) amountInTiyins (orderId p)
    (returnUrl p).

End Invoice.

End PaymeApi.

(** ** [URLSearchParams]

    The serializer of [application/x-www-form-urlencoded]: letters,
    digits and the characters [*-._] are kept, a space becomes [+], every
    other byte becomes [%XX] in upper-case hexadecimal.  A string is its
    UTF-8 bytes. *)

Module URLSearchParams.

Definition kept (c : ascii) : bool :=
  let n := N_of_ascii c in
  ((48 <=? n) && (n <=? 57) || (65 <=? n) && (n <=? 90)
   || (97 <=? n) && (n <=? 122) || (n =? 42) || (n =? 45) || (n =? 46)
   || (n =? 95))%N.

Definition hex_upper (n : N) : ascii :=
  if (n <? 10)%N then ascii_of_N (48 + n) else ascii_of_N (55 + n).

Definition encode_byte (c : ascii) : string :=
  if kept c then String c EmptyString
  else if Ascii.eqb c " " then "+"
  else
    let n := N_of_ascii c in
    String "%" (String (hex_upper (n / 16))
                  (String (hex_upper (n mod 16)) EmptyString)).

Fixpoint encode (s : string) : string :=
  match s with
  | EmptyString => EmptyString
  | String c rest => encode_byte c ++ encode rest
  end.

(** [params.set(name, value)]: the first pair of that name takes the
    value and later pairs of that name are removed; without such a pair
    the new pair is added last. *)
Fixpoint remove (name : string) (pairs : list (string * string))
    : list (string * string) :=
  match pairs with
  | [] => []
  | (k, v) :: rest =>
      if String.eqb k name then remove name rest
      else (k, v) :: remove name rest
  end.

Fixpoint set (name value : string) (pairs : list (string * string))
    : list (string * string) :=
  match pairs with
  | [] => [(name, value)]
  | (k, v) :: rest =>
      if String.eqb k name then (k, value) :: remove name rest
      else (k, v) :: set name value rest
  end.

(** [params.toString()]. *)
Definition toString (pairs : list (string * string)) : string :=
  join "&" (List.map (fun kv => encode (fst kv) ++ "=" ++ encode (snd kv))
              pairs).

End URLSearchParams.

(** ** src/click/ClickClient.ts: the other calls and the invoice URL;
    src/click/utils.ts: [getDigestAuthToken]

    As for a charge, an answer is the parsed body and may lack any field;
    [undefined < 0] is false, so an answer without error code is not an
    error. *)

Module ClickVerifyCardTokenResponse.
Record t : Type := {
  error_code : option Z;
  error_note : option string
}.
End ClickVerifyCardTokenResponse.

Module ClickPaymentStatusResponse.
Record t : Type := {
  payment_status : option Z;
  payment_status_note : option string;
  error_code : option Z;
  error_note : option string
}.
End ClickPaymentStatusResponse.

Module ClickCancelPaymentResponse.
Record t : Type := {
  payment_id : option Z;
  error_code : option Z;
  error_note : option string
}.
End ClickCancelPaymentResponse.

Module ClickDeleteCardTokenResponse.
Record t : Type := {
  error_code : option Z;
  error_note : option string
}.
End ClickDeleteCardTokenResponse.

Module ClickApi.

Definition CLICK_API_BASE_URL : string := "https://api.click.uz/v2/merchant".
Definition CLICK_INVOICE_BASE_URL : string :=
  "https://my.click.uz/services/pay".

(** A payment id is a string or a number. *)
Inductive PaymentId : Type :=
| PidNum (n : Z)
| PidStr (s : string).

(** [`${paymentId}`]. *)
Definition paymentId_text (p : PaymentId) : string :=
  match p with
  | PidNum n => string_of_Z n
  | PidStr s => s
  end.

Inductive CardType : Type := uzcard | humo | visa | master.

Definition cardType_text (c : CardType) : string :=
  match c with
  | uzcard => "uzcard"
  | humo => "humo"
  | visa => "visa"
  | master => "master"
  end.

(** The amount is a JavaScript number, a binary64 value. *)
Record ClickGenerateInvoiceParams : Type := {
  gi_amount : float;
  orderId : string;
  returnUrl : string;
  cardType : option CardType
}.

Record VerifyCardTokenParams : Type := {
  cardToken : string;
  smsCode : string
}.

Section Digest.

(** [crypto.createHash('sha1').update(s).digest('hex')] and
    [Date.now()]. *)
Variable sha1_hex : string -> string.
Variable now : Z.

Definition getDigestAuthToken (merchantUserId secretKey : string) : string :=
  let timestamp := now / 1000 in
  let digest := sha1_hex (string_of_Z timestamp ++ secretKey) in
  merchantUserId ++ ":" ++ digest ++ ":" ++ string_of_Z timestamp.

End Digest.

Section Transport.

Variable getDigestAuthToken : string -> string -> string.
Variable config : ClickClient.ClickConfig.

Section Request.

(** [request] for any type of body and of response. *)
Context {B T : Type}.

Variable http :
  ClickClient.HttpVerb -> string -> option B -> string -> outcome T.

Definition request (verb : ClickClient.HttpVerb) (endpoint : string)
    (body : option B) : outcome T :=
  let headers :=
    getDigestAuthToken (ClickClient.merchantUserId config)
      (ClickClient.secretKey config) in
  let answer :=
    match verb with
    | ClickClient.Post => http ClickClient.Post endpoint body headers
    | ClickClient.Get => http ClickClient.Get endpoint None headers
    | ClickClient.Delete => http ClickClient.Delete endpoint None headers
    end in
  match answer with
  | Returned response => Returned response
  | Threw e =>
      if instanceof_Error e then
        Threw (JsError ("Click API request failed: " ++ message_text e))
      else
        Threw (JsError
          "An unknown error occurred during the Click API request.")
  end.

End Request.

Definition verifyCardToken
    (http : ClickClient.HttpVerb -> string -> option json -> string ->
            outcome ClickVerifyCardTokenResponse.t)
    (p : VerifyCardTokenParams) : outcome unit :=
  match request http ClickClient.Post "/card_token/verify"
          (Some (JObj [("service_id", JStr (ClickClient.serviceId config));
                       ("card_token", JStr (cardToken p));
                       ("sms_code", JStr (smsCode p))])) with
  | Threw e => Threw e
  | Returned response =>
      match ClickVerifyCardTokenResponse.error_code response with
      | Some code =>
          if code <? 0 then
            Threw (ClickError
                     (message_or_empty
                        (ClickVerifyCardTokenResponse.error_note response))
                     code)
          else Returned tt
      | None => Returned tt
      end
  end.

Section Numbers.

(** [Number(paymentId)]: the type of JavaScript numbers and the
    conversion are left to the runtime. *)
Variable number : Type.
Variable Number_ : PaymentId -> number.

Definition checkPaymentStatus
    (http : ClickClient.HttpVerb -> string -> option json -> string ->
            outcome ClickPaymentStatusResponse.t)
    (paymentId : PaymentId) : outcome (number * PaymentStatus) :=
  match request http ClickClient.Get
          ("/payment/status/" ++ ClickClient.serviceId config ++ "/"
           ++ paymentId_text paymentId) None with
  | Threw e => Threw e
  | Returned response =>
      match ClickPaymentStatusResponse.error_code response with
      | Some code =>
          if code <? 0 then
            Threw (ClickError
                     (message_or_empty
                        (ClickPaymentStatusResponse.error_note response))
                     code)
          else
            Returned (Number_ paymentId,
                      getStatusFromClickCode
                        (ClickPaymentStatusResponse.payment_status response))
      | None =>
          Returned (Number_ paymentId,
                    getStatusFromClickCode
                      (ClickPaymentStatusResponse.payment_status response))
      end
  end.

End Numbers.

Definition cancelPayment
    (http : ClickClient.HttpVerb -> string -> option json -> string ->
            outcome ClickCancelPaymentResponse.t)
    (paymentId : PaymentId) : outcome (option Z) :=
  match request http ClickClient.Delete
          ("/payment/reversal/" ++ ClickClient.serviceId config ++ "/"
           ++ paymentId_text paymentId) None with
  | Threw e => Threw e
  | Returned response =>
      match ClickCancelPaymentResponse.error_code response with
      | Some code =>
          if code <? 0 then
            Threw (ClickError
                     (message_or_empty
                        (ClickCancelPaymentResponse.error_note response))
                     code)
          else Returned (ClickCancelPaymentResponse.payment_id response)
      | None => Returned (ClickCancelPaymentResponse.payment_id response)
      end
  end.

Definition deleteCardToken
    (http : ClickClient.HttpVerb -> string -> option json -> string ->
            outcome ClickDeleteCardTokenResponse.t)
    (token : string) : outcome unit :=
  match request http ClickClient.Delete
          ("/card_token/" ++ ClickClient.serviceId config ++ "/" ++ token)
          None with
  | Threw e => Threw e
  | Returned response =>
      match ClickDeleteCardTokenResponse.error_code response with
      | Some code =>
          if code <? 0 then
            Threw (ClickError
                     (message_or_empty
                        (ClickDeleteCardTokenResponse.error_note response))
                     code)
          else Returned tt
      | None => Returned tt
      end
  end.

(** [Number.prototype.toString]: the shortest numeral that reads back as
    the same binary64 value, in exponent notation from 1e21 on. *)
Variable Number_toString : float -> string.

(** The pairs of the query string, in order. *)
Definition invoiceQuery (p : ClickGenerateInvoiceParams)
    : list (string * string) :=
  let queryParams :=
    [("service_id", ClickClient.serviceId config);
     ("merchant_id", ClickClient.merchantId config);
     ("amount", Number_toString (gi_amount p));
     ("transaction_param", orderId p);
     ("return_url", returnUrl p)] in
  match cardType p with
  | Some c => URLSearchParams.set "card_type" (cardType_text c) queryParams
  | None => queryParams
  end.

Definition generateInvoiceUrl (p : ClickGenerateInvoiceParams) : string :=
  CLICK_INVOICE_BASE_URL ++ "?" ++ URLSearchParams.toString (invoiceQuery p).

End Transport.

End ClickApi.

(** ** The clients on top of [HttpClient]

    Both clients build their transport with [new HttpClient(baseUrl)] and
    pass their authentication header in the options of each call. *)

Module OverHttp.

(** The options of a call that only sets one header. *)
Definition with_header (name value : string) : HttpClient.RequestOptions :=
  {| HttpClient.timeout := None;
     HttpClient.method := None;
     HttpClient.body := None;
     HttpClient.headers :=
       Some (HttpClient.Plain [(name, HttpClient.Text value)]) |}.

Section Click.

Context {B T : Type}.

Variable fetch :
  string -> HttpClient.RequestOptions -> Z -> outcome HttpClient.Response.
Variable JSON_parse : string -> outcome T.
Variable empty_object : T.

(** [JSON.stringify(body)]. *)
Variable JSON_stringify : option B -> string.

Definition click (verb : ClickClient.HttpVerb) (endpoint : string)
    (body : option B) (auth : string) : outcome T :=
  match verb with
  | ClickClient.Post =>
      HttpClient.post fetch JSON_parse empty_object
        ClickApi.CLICK_API_BASE_URL endpoint (JSON_stringify body)
        (with_header "Auth" auth)
  | ClickClient.Get =>
      HttpClient.get fetch JSON_parse empty_object
        ClickApi.CLICK_API_BASE_URL endpoint (with_header "Auth" auth)
  | ClickClient.Delete =>
      HttpClient.delete fetch JSON_parse empty_object
        ClickApi.CLICK_API_BASE_URL endpoint (with_header "Auth" auth)
  end.

End Click.

Section Payme.

(** The n-th call of [fetch]. *)
Variable fetch :
  nat -> string -> HttpClient.RequestOptions -> Z ->
  outcome HttpClient.Response.
Variable JSON_parse : string -> outcome PaymeClient.PaymeJsonRpcResponse.
Variable JSON_stringify : PaymeClient.PaymeJsonRpcRequest -> string.
Variable config : PaymeClient.PaymeConfig.

(** An object without any field, read as a JSON-RPC response. *)
Definition empty_response : PaymeClient.PaymeJsonRpcResponse :=
  {| PaymeClient.result := None; PaymeClient.error := None |}.

Definition payme (n : nat) (requestBody : PaymeClient.PaymeJsonRpcRequest)
    (xAuth : string) : outcome PaymeClient.PaymeJsonRpcResponse :=
  HttpClient.post (fetch n) JSON_parse empty_response
    (PaymeApi.baseUrl config) "" (JSON_stringify requestBody)
    (with_header "X-Auth" xAuth).

End Payme.

End OverHttp.

(** ** A Base64 encoder

    [Buffer.from(s).toString('base64')] on the bytes of [s]: the standard
    alphabet, with [=] padding. *)

Module Base64Encode.

Local Open Scope N_scope.

Definition alphabet : string :=
  "ABCDEFGHIJKLMNOPQRSTUVWXYZabcdefghijklmnopqrstuvwxyz0123456789+/".

Definition digit (v : N) : ascii :=
  match String.get (N.to_nat v) alphabet with
  | Some c => c
  | None => "="%char
  end.

Fixpoint encode_bytes (l : list N) : string :=
  match l with
  | a :: b :: c :: rest =>
      String (digit (a / 4))
        (String (digit ((a mod 4) * 16 + b / 16))
           (String (digit ((b mod 16) * 4 + c / 64))
              (String (digit (c mod 64)) (encode_bytes rest))))
  | [a; b] =>
      String (digit (a / 4))
        (String (digit ((a mod 4) * 16 + b / 16))
           (String (digit ((b mod 16) * 4)) "="))
  | [a] =>
      String (digit (a / 4)) (String (digit ((a mod 4) * 16)) "==")
  | [] => EmptyString
  end.

Definition encode (s : string) : string :=
  encode_bytes (List.map N_of_ascii (list_ascii_of_string s)).

End Base64Encode.

(** * Tables and sample data used in the statements *)

(** The codes listed in the two [switch] statements. *)
Definition payme_codes : list (option Z) :=
  [Some 0; Some 1; Some 2; Some 3; Some 4; Some 5; Some 6].

Definition click_codes : list (option Z) :=
  [Some 0; Some 1; Some 2; Some 3; Some 4; Some 5].

Ltac small_positive p :=
  destruct p as [[[?|?|]|[?|?|]|]|[[?|?|]|[?|?|]|]|].

(** A JSON-RPC error whose message object has no field at all. *)
Definition error_without_message : PaymeJsonRpcError :=
  {| err_code := -32000;
     err_message := Some {| ru := None; uz := None; en := None |};
     err_data := None |}.

(** An error that carries only a Russian message. *)
Definition error_russian_only : PaymeJsonRpcError :=
  {| err_code := -32000;
     err_message := Some {| ru := Some "Neverny zapros"; uz := None;
                            en := None |};
     err_data := None |}.

(** The two requests of the Payme charge flow, as [chargeFromCardToken]
    builds them: [n] is the number of requests posted before. *)
Definition create_request (requestId : nat -> string)
    (params : PaymeClient.ProcessPaymentParams) (n : nat)
    : PaymeClient.PaymeJsonRpcRequest :=
  {| PaymeClient.req_id := requestId n;
     PaymeClient.req_method := "receipts.create";
     PaymeClient.req_params :=
       PaymeClient.PaymeCreateReceiptParams
         (PaymeClient.pp_amount params * 100)%float
         (PaymeClient.orderId params)
         ("Payment for order " ++ PaymeClient.orderId params) |}.

Definition pay_request (requestId : nat -> string)
    (params : PaymeClient.ProcessPaymentParams) (n : nat) (receiptId : string)
    : PaymeClient.PaymeJsonRpcRequest :=
  {| PaymeClient.req_id := requestId n;
     PaymeClient.req_method := "receipts.pay";
     PaymeClient.req_params :=
       PaymeClient.PaymePayReceiptParams receiptId
         (PaymeClient.cardToken params) |}.

(** Sample provider behaviour for the Payme charge flow. *)
Definition sample_receipt (receiptId : option string) (st : Z)
    : PaymeClient.Receipt :=
  {| PaymeClient._id := receiptId;
     PaymeClient.create_time := 1700000000000;
     PaymeClient.pay_time := 0;
     PaymeClient.cancel_time := 0;
     PaymeClient.state := Some st;
     PaymeClient.amount := 100000 |}.

Definition receipt_response (receiptId : option string) (st : Z)
    : PaymeClient.PaymeJsonRpcResponse :=
  {| PaymeClient.result :=
       Some {| PaymeClient.receipt := Some (sample_receipt receiptId st) |};
     PaymeClient.error := None |}.

(** The text of V8 for [_id] read from an [undefined] receipt. *)
Definition v8_readIdError : string :=
  "Cannot read properties of undefined (reading '_id')".

(** The provider answers with a result that holds no receipt:
    [{ result: {} }]. *)
Definition provider_without_receipt (n : nat)
    (body : PaymeClient.PaymeJsonRpcRequest) (xAuth : string)
    : outcome PaymeClient.PaymeJsonRpcResponse :=
  Returned {| PaymeClient.result := Some {| PaymeClient.receipt := None |};
              PaymeClient.error := None |}.

(** The provider creates a receipt without an id. *)
Definition provider_without_receipt_id (n : nat)
    (body : PaymeClient.PaymeJsonRpcRequest) (xAuth : string)
    : outcome PaymeClient.PaymeJsonRpcResponse :=
  Returned (receipt_response (Some "") 1).

(** The provider creates the receipt, then reports it paid. *)
Definition provider_paying (n : nat)
    (body : PaymeClient.PaymeJsonRpcRequest) (xAuth : string)
    : outcome PaymeClient.PaymeJsonRpcResponse :=
  match n with
  | O => Returned (receipt_response (Some "receipt-123") 1)
  | _ => Returned (receipt_response (Some "receipt-123") 2)
  end.

Definition sample_requestId (n : nat) : string :=
  "1700000000000-" ++ string_of_Z (Z.of_nat n).

Definition sample_payme_config : PaymeClient.PaymeConfig :=
  {| PaymeClient.merchantId := "test-merchant-id";
     PaymeClient.checkoutKey := "test-checkout-key";
     PaymeClient.merchantApiSecret := "test-merchant-api-secret";
     PaymeClient.testMode := false |}.

Definition sample_charge (amount : float)
    : PaymeClient.ProcessPaymentParams :=
  {| PaymeClient.cardToken := "test-card-token";
     PaymeClient.pp_amount := amount;
     PaymeClient.orderId := "order-123" |}.

(** Sample data for the Click client. *)
Definition sample_click_config : ClickClient.ClickConfig :=
  {| ClickClient.merchantId := "test-merchant-id";
     ClickClient.merchantUserId := "test-merchant-user-id";
     ClickClient.secretKey := "test-secret-key";
     ClickClient.serviceId := "test-service-id" |}.

Definition sample_digest (merchantUserId secretKey : string) : string :=
  merchantUserId ++ ":" ++ "da39a3ee5e6b4b0d3255bfef95601890afd80709"
    ++ ":1700000000".

Definition sample_card : ClickClient.CreateCardTokenParams :=
  {| ClickClient.cardNumber := "8600123456789012";
     ClickClient.expireDate := "1225";
     ClickClient.save := None |}.

Definition sample_click_charge : ClickClient.ProcessPaymentParams :=
  {| ClickClient.cardToken := "test-card-token";
     ClickClient.pp_amount := 1000;
     ClickClient.orderId := "order-123" |}.

Definition token_response : ClickCreateCardTokenResponse.t :=
  {| ClickCreateCardTokenResponse.card_token := Some "test-card-token";
     ClickCreateCardTokenResponse.phone_number := "+998901234567";
     ClickCreateCardTokenResponse.card_number := "8600 **** **** 9012";
     ClickCreateCardTokenResponse.temporary := 0;
     ClickCreateCardTokenResponse.error_code := 0;
     ClickCreateCardTokenResponse.error_note := "Success" |}.

Definition charge_response (status code : Z)
    : ClickChargeFromCardTokenResponse.t :=
  {| ClickChargeFromCardTokenResponse.payment_id := Some 12345;
     ClickChargeFromCardTokenResponse.payment_status := Some status;
     ClickChargeFromCardTokenResponse.error_code := Some code;
     ClickChargeFromCardTokenResponse.error_note := Some "note" |}.

(** An answer without error code: [{ payment_id: 12345, payment_status }],
    and the empty object [{}]. *)
Definition charge_response_without_code (status : Z)
    : ClickChargeFromCardTokenResponse.t :=
  {| ClickChargeFromCardTokenResponse.payment_id := Some 12345;
     ClickChargeFromCardTokenResponse.payment_status := Some status;
     ClickChargeFromCardTokenResponse.error_code := None;
     ClickChargeFromCardTokenResponse.error_note := None |}.

Definition empty_charge_response : ClickChargeFromCardTokenResponse.t :=
  {| ClickChargeFromCardTokenResponse.payment_id := None;
     ClickChargeFromCardTokenResponse.payment_status := None;
     ClickChargeFromCardTokenResponse.error_code := None;
     ClickChargeFromCardTokenResponse.error_note := None |}.

(** A transport that answers every call with the same response. *)
Definition answering {T : Type} (response : T) (verb : ClickClient.HttpVerb)
    (endpoint : string) (body : option ClickClient.RequestBody)
    (auth : string) : outcome T :=
  Returned response.

(** Sample Click webhook bodies: a "complete" notification that carries
    [merchant_prepare_id], with a given signature. *)
Definition complete_body (signature : string) : ClickWebhookBody :=
  {| click_trans_id := "123";
     service_id := "test-service";
     click_paydoc_id := "456";
     merchant_trans_id := "order-123";
     amount := "1000";
     action := 1;
     error := 0;
     error_note := "Success";
     sign_time := "2023-01-01T00:00:00Z";
     sign_string := signature;
     merchant_prepare_id := Some "prepare-123" |}.

(** Sample data for the Payme webhook handler. *)
Definition resolving (result : json) : PaymeWebhookHandler.LogicOperation :=
  fun _ _ => Returned (PaymeWebhookHandler.ResultOf result).

Definition rejecting (e : exn) : PaymeWebhookHandler.LogicOperation :=
  fun _ _ => Threw e.

(** A business logic that resolves to a given object, and an object that
    holds a result, an error and an id of its own. *)
Definition answering_with (response : PaymeWebhookHandler.LogicResponse)
    : PaymeWebhookHandler.LogicOperation :=
  fun _ _ => Returned response.

Definition both_keys : PaymeWebhookHandler.LogicResponse :=
  {| PaymeWebhookHandler.own_id := Some (Some (PaymeWebhookHandler.IdNum 7));
     PaymeWebhookHandler.own_result := Some (JBool true);
     PaymeWebhookHandler.own_error := Some error_without_message;
     PaymeWebhookHandler.own_rest := [] |}.

Definition uniform_logic (op : PaymeWebhookHandler.LogicOperation)
    : PaymeWebhookHandler.PaymeWebhookLogic :=
  {| PaymeWebhookHandler.checkPerformTransaction := op;
     PaymeWebhookHandler.createTransaction := op;
     PaymeWebhookHandler.performTransaction := op;
     PaymeWebhookHandler.cancelTransaction := op;
     PaymeWebhookHandler.checkTransaction := op;
     PaymeWebhookHandler.getStatement := op |}.

Definition sample_handler (secret : string)
    (op : PaymeWebhookHandler.LogicOperation) : PaymeWebhookHandler.Handler :=
  {| PaymeWebhookHandler.secretKey := secret;
     PaymeWebhookHandler.logic := uniform_logic op |}.

Definition sample_params : json :=
  JObj [("amount", JNum 100000);
        ("account", JObj [("order_id", JStr "order-123")])].

Definition sample_request (requestId : option PaymeWebhookHandler.JsId)
    : PaymeWebhookHandler.PaymeJsonRpcRequest :=
  {| PaymeWebhookHandler.id := requestId;
     PaymeWebhookHandler.method := "CheckPerformTransaction";
     PaymeWebhookHandler.params := sample_params |}.

Definition sample_call (requestId : option PaymeWebhookHandler.JsId)
    : PaymeWebhookHandler.LogicCall :=
  {| PaymeWebhookHandler.call_method :=
       PaymeWebhookHandler.CheckPerformTransaction;
     PaymeWebhookHandler.call_params := sample_params;
     PaymeWebhookHandler.call_requestId := requestId |}.

(** The messages of the V8 engine for [message] read from a thrown [null]
    or [undefined]. *)
Definition v8_readNullishError (thrown : option json) : string :=
  match thrown with
  | Some JNull => "Cannot read properties of null (reading 'message')"
  | _ => "Cannot read properties of undefined (reading 'message')"
  end.

(** The handler run with the Base64 decoder of this file and the messages
    of the V8 engine; a missing body is an [undefined] body. *)
Definition run_handle (h : PaymeWebhookHandler.Handler)
    (body : option PaymeWebhookHandler.PaymeJsonRpcRequest)
    (authorizationHeader : option string) (now : Z)
    : outcome PaymeWebhookHandler.PaymeJsonRpcResponse
      * list PaymeWebhookHandler.LogicCall :=
  PaymeWebhookHandler.handle Base64.decode_ascii
    "Cannot destructure property 'id' of 'request' as it is undefined."
    v8_readNullishError
    h body authorizationHeader now.

(** The response sent when authentication fails. *)
Definition unauthorized (i : PaymeWebhookHandler.JsId) (detail : string)
    : PaymeWebhookHandler.PaymeJsonRpcResponse :=
  {| PaymeWebhookHandler.res_id := Some i;
     PaymeWebhookHandler.res_result := None;
     PaymeWebhookHandler.res_error :=
       Some {| err_code := -32504;
               err_message :=
                 Some {| ru := None; uz := None; en := Some "Unauthorized" |};
               err_data := Some (JStr detail) |};
     PaymeWebhookHandler.res_rest := [] |}.

(** The colon-separated segments of the credentials decoded from a header
    that starts with "Basic ". *)
Definition segments (base64_ascii : string -> string) (header : string)
    : list string :=
  split ":" (base64_ascii (substring_from 6 header)).

(** A "prepare" notification, which carries no [merchant_prepare_id]. *)
Definition prepare_body (signature : string) : ClickWebhookBody :=
  {| click_trans_id := "123";
     service_id := "test-service";
     click_paydoc_id := "456";
     merchant_trans_id := "order-123";
     amount := "1000";
     action := 0;
     error := 0;
     error_note := "Success";
     sign_time := "2023-01-01T00:00:00Z";
     sign_string := signature;
     merchant_prepare_id := None |}.

(** The header of the handler tests: Base64 of "Paycom:test-secret-key". *)
Definition validAuthHeader : string :=
  "Basic UGF5Y29tOnRlc3Qtc2VjcmV0LWtleQ==".

(** The characters of a decimal numeral: the digits and the minus sign. *)
Definition numeral_char (c : ascii) : bool :=
  let n := N_of_ascii c in
  ((n =? 45) || (48 <=? n) && (n <=? 57))%N.

(** The webhook body with other values in the three fields that are not
    part of the hashed string. *)
Definition with_unsigned (body : ClickWebhookBody) (paydoc : string)
    (code : Z) (note : string) : ClickWebhookBody :=
  {| click_trans_id := click_trans_id body;
     service_id := service_id body;
     click_paydoc_id := paydoc;
     merchant_trans_id := merchant_trans_id body;
     amount := amount body;
     action := action body;
     error := code;
     error_note := note;
     sign_time := sign_time body;
     sign_string := sign_string body;
     merchant_prepare_id := merchant_prepare_id body |}.

(** The webhook body with the prepare id moved to the end of
    [merchant_trans_id], after a pipe. *)
Definition prepare_id_in_order (body : ClickWebhookBody) (prepareId : string)
    : ClickWebhookBody :=
  {| click_trans_id := click_trans_id body;
     service_id := service_id body;
     click_paydoc_id := click_paydoc_id body;
     merchant_trans_id := merchant_trans_id body ++ "|" ++ prepareId;
     amount := amount body;
     action := action body;
     error := error body;
     error_note := error_note body;
     sign_time := sign_time body;
     sign_string := sign_string body;
     merchant_prepare_id := None |}.

(** No string field that is hashed holds a pipe. *)
Definition pipe_free (secretKey : string) (body : ClickWebhookBody) : bool :=
  forallb (fun s => negb (contains "|" s))
    ([click_trans_id body; service_id body; secretKey;
      merchant_trans_id body; amount body; sign_time body]
     ++ match merchant_prepare_id body with
        | Some prepareId => [prepareId]
        | None => []
        end).

(** A digest function with a fixed value, for running
    [getDigestAuthToken]. *)
Definition fixed_digest (s : string) : string :=
  "da39a3ee5e6b4b0d3255bfef95601890afd80709".

(** [Number.prototype.toString] on the integers of magnitude below 2^53,
    which print as their decimal numeral, on NaN and on the infinities.
    The sample runs use no other number. *)
Definition toString_of_integer (x : float) : string :=
  match FloatOps.Prim2SF x with
  | SpecFloat.S754_zero _ => "0"
  | SpecFloat.S754_infinity negative =>
      if negative then "-Infinity" else "Infinity"
  | SpecFloat.S754_nan => "NaN"
  | SpecFloat.S754_finite negative m e =>
      (if negative then "-" else "") ++ string_of_Z (Z.shiftl (Zpos m) e)
  end.

(** The items of the query string of a Click invoice URL. *)
Definition invoice_items (config : ClickClient.ClickConfig)
    (Number_toString : float -> string)
    (p : ClickApi.ClickGenerateInvoiceParams) : list string :=
  List.app
    ["service_id=" ++ URLSearchParams.encode (ClickClient.serviceId config);
     "merchant_id=" ++ URLSearchParams.encode (ClickClient.merchantId config);
     "amount=" ++ URLSearchParams.encode
                    (Number_toString (ClickApi.gi_amount p));
     "transaction_param=" ++ URLSearchParams.encode (ClickApi.orderId p);
     "return_url=" ++ URLSearchParams.encode (ClickApi.returnUrl p)]
    match ClickApi.cardType p with
    | Some c => ["card_type=" ++ ClickApi.cardType_text c]
    | None => []
    end.

Definition sample_invoice (amount : float) (order : string)
    (c : option ClickApi.CardType) : ClickApi.ClickGenerateInvoiceParams :=
  {| ClickApi.gi_amount := amount;
     ClickApi.orderId := order;
     ClickApi.returnUrl := "https://example.com/success";
     ClickApi.cardType := c |}.

(** The headers that [HttpClient.post] adds by default. *)
Definition default_headers : HttpClient.Dictionary :=
  [("Content-Type", HttpClient.Text "application/json");
   ("Accept", HttpClient.Text "application/json")].

(** Sample behaviour of [fetch] and [JSON.parse]. *)
Definition http_response (good : bool) (code : Z) (content : string)
    : HttpClient.Response :=
  {| HttpClient.ok := good;
     HttpClient.status := code;
     HttpClient.text := Returned content |}.

Definition fetch_answering (response : HttpClient.Response) (url : string)
    (init : HttpClient.RequestOptions) (delay : Z)
    : outcome HttpClient.Response :=
  Returned response.

Definition parse_failing {T : Type} (content : string) : outcome T :=
  Threw (JsError "Unexpected token < in JSON at position 0").

Definition stringify_stub {B : Type} (body : B) : string := "{}".

(** The single request of each card or receipt call of the Payme client:
    [n] is the number of requests posted before. *)
Definition rpc (requestId : nat -> string) (n : nat) (name : string)
    (payload : json) : PaymeApi.JsonRpcRequest :=
  {| PaymeApi.id := requestId n;
     PaymeApi.method := name;
     PaymeApi.params := payload |}.

(** A provider that answers every request with the same result. *)
Definition provider_answering {R : Type} (r : R) (n : nat)
    (body : PaymeApi.JsonRpcRequest) (xAuth : string)
    : outcome (PaymeApi.JsonRpcResponse R) :=
  Returned {| PaymeApi.result := Some r; PaymeApi.error := None |}.

(** A provider that answers with an error and a result at once. *)
Definition provider_failing {R : Type} (e : PaymeJsonRpcError) (r : R)
    (n : nat) (body : PaymeApi.JsonRpcRequest) (xAuth : string)
    : outcome (PaymeApi.JsonRpcResponse R) :=
  Returned {| PaymeApi.result := Some r; PaymeApi.error := Some e |}.

Definition verified_card : PaymeApi.PaymeCreateCardResult :=
  {| PaymeApi.card := {| PaymeApi.token := "test-card-token";
                         PaymeApi.recurrent := true;
                         PaymeApi.verify := true |} |}.

(** [fetch] for the Payme client: the same answer to every call. *)
Definition fetch_always (response : HttpClient.Response) (n : nat)
    (url : string) (init : HttpClient.RequestOptions) (delay : Z)
    : outcome HttpClient.Response :=
  Returned response.

(** Sample answers for the other calls of the Click client. *)
Definition verify_response (code : Z) : ClickVerifyCardTokenResponse.t :=
  {| ClickVerifyCardTokenResponse.error_code := Some code;
     ClickVerifyCardTokenResponse.error_note := Some "note" |}.

Definition status_response (status : Z) (code : option Z)
    : ClickPaymentStatusResponse.t :=
  {| ClickPaymentStatusResponse.payment_status := Some status;
     ClickPaymentStatusResponse.payment_status_note := Some "status note";
     ClickPaymentStatusResponse.error_code := code;
     ClickPaymentStatusResponse.error_note := Some "note" |}.

Definition sample_verify : ClickApi.VerifyCardTokenParams :=
  {| ClickApi.cardToken := "test-card-token"; ClickApi.smsCode := "123456" |}.

(** [Number(paymentId)] for the payment ids that are numbers; the value
    for a string is not used in the runs below. *)
Definition number_of_id (p : ClickApi.PaymentId) : Z :=
  match p with
  | ClickApi.PidNum n => n
  | ClickApi.PidStr _ => 0
  end.

(** A transport of the Click client that answers every call with the same
    response, for any type of body. *)
Definition always {B T : Type} (response : T) (verb : ClickClient.HttpVerb)
    (endpoint : string) (body : option B) (auth : string) : outcome T :=
  Returned response.

(** Every character of the string is a 7-bit character. *)
Fixpoint seven_bit (s : string) : bool :=
  match s with
  | EmptyString => true
  | String c rest => (N_of_ascii c <? 128)%N && seven_bit rest
  end.

Definition sample_payme_invoice : PaymeApi.GenerateInvoiceParams :=
  {| PaymeApi.gi_amount := 2500;
     PaymeApi.orderId := "order-456";
     PaymeApi.returnUrl := "https://example.com/success" |}.

(** The detail that [verifyAuth] attaches to the unauthorized error: one
    text for a header that is missing, empty or not a Basic header, another
    for Basic credentials that do not match. *)
Definition rejection_detail (authHeader : option string) : string :=
  match authHeader with
  | Some header =>
      if startsWith "Basic " header then "Invalid login or password"
      else "Authorization header missing or invalid"
  | None => "Authorization header missing or invalid"
  end.


(** * Properties *)

(** ** Unit tests of the repository, replayed on the embedding *)

Example test_click_status_mapping :
  List.map getStatusFromClickCode
    [Some 0; Some 1; Some 2; Some 3; Some 4; Some 5; Some 999; Some (-1);
     Some 6; Some 10; None]
  = [PENDING; PENDING; SUCCESS; CANCELLED; REFUNDED; CANCELLED; FAILED;
     FAILED; FAILED; FAILED; FAILED].
Proof. reflexivity. Qed.

Example test_fromJsonRpcError_english_first :
  fromJsonRpcError
    {| err_code := -32000;
       err_message := Some {| ru := Some "Neverny zapros"; uz := None;
                              en := Some "Invalid request" |};
       err_data := Some (JObj [("field", JStr "value")]) |}
  = PaymeError "Invalid request" (-32000)
      (Some (JObj [("field", JStr "value")])).
Proof. reflexivity. Qed.

Example test_fromJsonRpcError_no_message :
  fromJsonRpcError error_without_message
  = PaymeError "Unknown Payme Error" (-32000) None.
Proof. reflexivity. Qed.

Example test_payme_charge_success :
  PaymeClient.chargeFromCardToken sample_requestId provider_paying
    sample_payme_config v8_readIdError (sample_charge 1000) []
  = (Returned
       {| PaymeClient.transactionId := Some "receipt-123";
          PaymeClient.status := SUCCESS;
          PaymeClient.prr_receipt := sample_receipt (Some "receipt-123") 2 |},
     [ {| PaymeClient.req_id := "1700000000000-0";
          PaymeClient.req_method := "receipts.create";
          PaymeClient.req_params :=
            PaymeClient.PaymeCreateReceiptParams 100000 "order-123"
              "Payment for order order-123" |};
       {| PaymeClient.req_id := "1700000000000-1";
          PaymeClient.req_method := "receipts.pay";
          PaymeClient.req_params :=
            PaymeClient.PaymePayReceiptParams "receipt-123"
              "test-card-token" |} ]).
Proof. reflexivity. Qed.

Example test_click_charge_success :
  ClickClient.chargeFromCardToken sample_digest sample_click_config
    (answering
       {| ClickChargeFromCardTokenResponse.payment_id := Some 12345;
          ClickChargeFromCardTokenResponse.payment_status := Some 2;
          ClickChargeFromCardTokenResponse.error_code := Some 0;
          ClickChargeFromCardTokenResponse.error_note := Some "Success" |})
    sample_click_charge
  = Returned {| ClickClient.transactionId := Some 12345;
                ClickClient.status := SUCCESS |}.
Proof. reflexivity. Qed.

Example test_click_charge_status_not_success :
  ClickClient.chargeFromCardToken sample_digest sample_click_config
    (answering
       {| ClickChargeFromCardTokenResponse.payment_id := Some 12345;
          ClickChargeFromCardTokenResponse.payment_status := Some 0;
          ClickChargeFromCardTokenResponse.error_code := Some 0;
          ClickChargeFromCardTokenResponse.error_note := Some "Success" |})
    sample_click_charge
  = Threw (ClickError "Success" 0).
Proof. reflexivity. Qed.

Example test_click_transport_rejects_with_a_string :
  ClickClient.chargeFromCardToken sample_digest sample_click_config
    (fun _ _ _ _ => Threw (ThrownValue (Some (JStr "Unknown error"))))
    sample_click_charge
  = Threw (JsError "An unknown error occurred during the Click API request.").
Proof. reflexivity. Qed.

Example test_signature_prepare :
  ClickUtils.verifyWebhookSignature MD5.md5_hex
    (prepare_body "f0e5f2b90672095f2fda8fe3eece1ab2") "test-secret-key"
  = true.
Proof. vm_compute. reflexivity. Qed.

Example test_signature_complete_with_prepare_id :
  ClickUtils.verifyWebhookSignature MD5.md5_hex
    (complete_body "dd6ceda0e0d01aa08d7a324b19f39674") "test-secret-key"
  = true.
Proof. vm_compute. reflexivity. Qed.

Example test_signature_invalid :
  ClickUtils.verifyWebhookSignature MD5.md5_hex
    (prepare_body "invalid-signature") "test-secret-key"
  = false.
Proof. vm_compute. reflexivity. Qed.

Example test_signature_wrong_secret :
  ClickUtils.verifyWebhookSignature MD5.md5_hex
    (prepare_body (MD5.md5_hex
       "123|test-service|wrong-secret-key|order-123|1000|0|2023-01-01T00:00:00Z"))
    "test-secret-key"
  = false.
Proof. vm_compute. reflexivity. Qed.

Example test_handle_success :
  run_handle (sample_handler "test-secret-key" (resolving (JBool true)))
    (Some (sample_request (Some (PaymeWebhookHandler.IdStr "123"))))
    (Some validAuthHeader) 1700000000000
  = (Returned
       {| PaymeWebhookHandler.res_id := Some (PaymeWebhookHandler.IdStr "123");
          PaymeWebhookHandler.res_result := Some (JBool true);
          PaymeWebhookHandler.res_error := None;
          PaymeWebhookHandler.res_rest := [] |},
     [sample_call (Some (PaymeWebhookHandler.IdStr "123"))]).
Proof. reflexivity. Qed.

Example test_handle_unknown_method :
  run_handle (sample_handler "test-secret-key" (resolving (JBool true)))
    (Some {| PaymeWebhookHandler.id := Some (PaymeWebhookHandler.IdStr "130");
             PaymeWebhookHandler.method := "UnknownMethod";
             PaymeWebhookHandler.params := JObj [] |})
    (Some validAuthHeader) 1700000000000
  = (Returned
       {| PaymeWebhookHandler.res_id := Some (PaymeWebhookHandler.IdStr "130");
          PaymeWebhookHandler.res_result := None;
          PaymeWebhookHandler.res_error :=
            Some {| err_code := -32601;
                    err_message :=
                      Some {| ru := None; uz := None;
                              en := Some "Method not found" |};
                    err_data := None |};
          PaymeWebhookHandler.res_rest := [] |}, []).
Proof. reflexivity. Qed.

Example test_handle_invalid_header :
  run_handle (sample_handler "test-secret-key" (resolving (JBool true)))
    (Some (sample_request (Some (PaymeWebhookHandler.IdStr "131"))))
    (Some "Invalid header") 1700000000000
  = (Returned (unauthorized (PaymeWebhookHandler.IdStr "131")
                 "Authorization header missing or invalid"), []).
Proof. reflexivity. Qed.

Example test_handle_missing_header :
  run_handle (sample_handler "test-secret-key" (resolving (JBool true)))
    (Some (sample_request (Some (PaymeWebhookHandler.IdStr "132"))))
    None 1700000000000
  = (Returned (unauthorized (PaymeWebhookHandler.IdStr "132")
                 "Authorization header missing or invalid"), []).
Proof. reflexivity. Qed.

Example test_handle_invalid_credentials :
  run_handle (sample_handler "test-secret-key" (resolving (JBool true)))
    (Some (sample_request (Some (PaymeWebhookHandler.IdStr "133"))))
    (Some "Basic V3JvbmdVc2VyOndyb25nLXBhc3N3b3Jk") 1700000000000
  = (Returned (unauthorized (PaymeWebhookHandler.IdStr "133")
                 "Invalid login or password"), []).
Proof. reflexivity. Qed.

Example test_handle_unexpected_error_without_request_id :
  run_handle
    (sample_handler "test-secret-key" (rejecting (JsError "Unexpected error")))
    (Some (sample_request None)) (Some validAuthHeader) 1700000000000
  = (Returned
       {| PaymeWebhookHandler.res_id :=
            Some (PaymeWebhookHandler.IdNum 1700000000000);
          PaymeWebhookHandler.res_result := None;
          PaymeWebhookHandler.res_error :=
            Some {| err_code := -32400;
                    err_message :=
                      Some {| ru := None; uz := None;
                              en := Some "Internal Server Error" |};
                    err_data := Some (JStr "Unexpected error") |};
          PaymeWebhookHandler.res_rest := [] |},
     [sample_call None]).
Proof. reflexivity. Qed.

Example test_handle_PaymeError :
  run_handle
    (sample_handler "test-secret-key"
       (rejecting (PaymeError "Test error" (-32000)
                     (Some (JObj [("field", JStr "value")])))))
    (Some (sample_request (Some (PaymeWebhookHandler.IdStr "135"))))
    (Some validAuthHeader) 1700000000000
  = (Returned
       {| PaymeWebhookHandler.res_id := Some (PaymeWebhookHandler.IdStr "135");
          PaymeWebhookHandler.res_result := None;
          PaymeWebhookHandler.res_error :=
            Some {| err_code := -32000;
                    err_message :=
                      Some {| ru := None; uz := None;
                              en := Some "Test error" |};
                    err_data := Some (JObj [("field", JStr "value")]) |};
          PaymeWebhookHandler.res_rest := [] |},
     [sample_call (Some (PaymeWebhookHandler.IdStr "135"))]).
Proof. reflexivity. Qed.

(** ** Status mapping *)

Lemma payme_state_outside_table (code : option Z) :
  ~ In code payme_codes -> getStatusFromPaymeReceiptState code = FAILED.
Proof.
  intros Hout. destruct code as [[|p|p]|]; try reflexivity.
  - exfalso. apply Hout. simpl. tauto.
  - small_positive p; try reflexivity; exfalso; apply Hout; simpl; tauto.
Qed.

Lemma click_code_outside_table (code : option Z) :
  ~ In code click_codes -> getStatusFromClickCode code = FAILED.
Proof.
  intros Hout. destruct code as [[|p|p]|]; try reflexivity.
  - exfalso. apply Hout. simpl. tauto.
  - small_positive p; try reflexivity; exfalso; apply Hout; simpl; tauto.
Qed.

(** C2. Both status normalizers return the status of their mapping table
    on every listed code (Payme: 0, 1, 5 to PENDING, 2 to SUCCESS, 3, 4 to
    CANCELLED, 6 to REFUNDED; Click: 0, 1 to PENDING, 2 to SUCCESS, 3, 5 to
    CANCELLED, 4 to REFUNDED), and FAILED, hence neither PENDING nor
    SUCCESS, on every other input: [undefined], negative and out-of-range
    codes included. *)
Theorem status_normalizer_fail_closed (code : option Z) :
  (getStatusFromPaymeReceiptState (Some 0) = PENDING
   /\ getStatusFromPaymeReceiptState (Some 1) = PENDING
   /\ getStatusFromPaymeReceiptState (Some 5) = PENDING
   /\ getStatusFromPaymeReceiptState (Some 2) = SUCCESS
   /\ getStatusFromPaymeReceiptState (Some 3) = CANCELLED
   /\ getStatusFromPaymeReceiptState (Some 4) = CANCELLED
   /\ getStatusFromPaymeReceiptState (Some 6) = REFUNDED)
  /\ (getStatusFromClickCode (Some 0) = PENDING
      /\ getStatusFromClickCode (Some 1) = PENDING
      /\ getStatusFromClickCode (Some 2) = SUCCESS
      /\ getStatusFromClickCode (Some 3) = CANCELLED
      /\ getStatusFromClickCode (Some 5) = CANCELLED
      /\ getStatusFromClickCode (Some 4) = REFUNDED)
  /\ (~ In code payme_codes ->
      getStatusFromPaymeReceiptState code = FAILED
      /\ getStatusFromPaymeReceiptState code <> PENDING
      /\ getStatusFromPaymeReceiptState code <> SUCCESS)
  /\ (~ In code click_codes ->
      getStatusFromClickCode code = FAILED
      /\ getStatusFromClickCode code <> PENDING
      /\ getStatusFromClickCode code <> SUCCESS).
Proof.
  split; [repeat split | split; [repeat split | split]].
  - intros Hout. rewrite (payme_state_outside_table code Hout).
    repeat split; discriminate.
  - intros Hout. rewrite (click_code_outside_table code Hout).
    repeat split; discriminate.
Qed.

Lemma status_normalizer_fail_closed_witness :
  getStatusFromPaymeReceiptState (Some (-1)) = FAILED
  /\ getStatusFromClickCode (Some (-1)) = FAILED.
Proof.
  destruct (status_normalizer_fail_closed (Some (-1)))
    as (_ & _ & Hpayme & Hclick).
  split.
  - apply Hpayme. simpl. intuition discriminate.
  - apply Hclick. simpl. intuition discriminate.
Defined.

(** ** PaymeError.fromJsonRpcError *)

(** C7, as stated, fails: with no localized message the factory does not
    produce the message "Unknown error". *)
Lemma fromJsonRpcError_fallback_is_not_Unknown_error :
  message_text (fromJsonRpcError error_without_message) <> "Unknown error".
Proof. vm_compute. discriminate. Qed.

(** C7, amended. The factory keeps the code and the data, and takes as
    message the first non-empty one among English, Russian, Uzbek, in this
    order; when none is present it uses the fixed string
    "Unknown Payme Error".  In particular an error with only a Russian
    message yields that Russian text. *)
Theorem fromJsonRpcError_message_priority (error : PaymeJsonRpcError)
    (text : string) :
  text <> "" ->
  let e := localized en (err_message error) in
  let r := localized ru (err_message error) in
  let u := localized uz (err_message error) in
  (e = Some text ->
   fromJsonRpcError error
   = PaymeError text (err_code error) (err_data error))
  /\ (truthy e = false -> r = Some text ->
      fromJsonRpcError error
      = PaymeError text (err_code error) (err_data error))
  /\ (truthy e = false -> truthy r = false -> u = Some text ->
      fromJsonRpcError error
      = PaymeError text (err_code error) (err_data error))
  /\ (truthy e = false -> truthy r = false -> truthy u = false ->
      fromJsonRpcError error
      = PaymeError "Unknown Payme Error" (err_code error) (err_data error)).
Proof.
  intros Htext e r u. unfold fromJsonRpcError. fold e r u.
  assert (Hkeep : forall d, or_string (Some text) d = text).
  { intros d. simpl. destruct (String.eqb_spec text ""); congruence. }
  assert (Hskip : forall a d, truthy a = false -> or_string a d = d).
  { intros [a|] d; simpl; [|reflexivity].
    destruct (String.eqb a ""); [reflexivity | discriminate]. }
  repeat split.
  - intros ->. now rewrite Hkeep.
  - intros He ->. now rewrite (Hskip e), Hkeep.
  - intros He Hr ->. now rewrite (Hskip e), (Hskip r), Hkeep.
  - intros He Hr Hu. now rewrite (Hskip e), (Hskip r), (Hskip u).
Qed.

Lemma fromJsonRpcError_message_priority_witness :
  fromJsonRpcError error_russian_only
  = PaymeError "Neverny zapros" (-32000) None.
Proof.
  refine (proj1 (proj2
    (fromJsonRpcError_message_priority error_russian_only "Neverny zapros"
       _)) _ _).
  - discriminate.
  - reflexivity.
  - reflexivity.
Defined.

(** ** Payme charge flow *)

Section PaymeChargeFlow.

Import PaymeClient.

Variable requestId : nat -> string.
Variable post :
  nat -> PaymeJsonRpcRequest -> string -> outcome PaymeJsonRpcResponse.
Variable config : PaymeConfig.
Variable readIdError : string.

(** [request] posts exactly one request, whatever the transport answers. *)
Lemma request_posts_once (method : string) (rpc : RpcParams)
    (sent : list PaymeJsonRpcRequest) :
  snd (request requestId post config method rpc sent)
  = (sent ++ [{| req_id := requestId (List.length sent);
                 req_method := method;
                 req_params := rpc |}])%list.
Proof.
  unfold request, bind, httpPost, throw, ret.
  destruct (post _ _ _) as [response | e]; [|reflexivity].
  destruct (error response); [reflexivity|].
  destruct (result response); reflexivity.
Qed.

(** What [request] does with the answer of the transport. *)
Lemma request_cases (method : string) (rpc : RpcParams)
    (sent : list PaymeJsonRpcRequest) :
  let body := {| req_id := requestId (List.length sent);
                 req_method := method;
                 req_params := rpc |} in
  request requestId post config method rpc sent
  = (match post (List.length sent) body (checkoutKey config) with
     | Threw e => Threw e
     | Returned response =>
         match error response, result response with
         | Some e, _ => Threw (fromJsonRpcError e)
         | None, None =>
             Threw (PaymeError "Received empty result from Payme API."
                      (-32000) None)
         | None, Some r => Returned r
         end
     end, (sent ++ [body])%list).
Proof.
  unfold request, bind, httpPost, throw, ret. cbv zeta.
  destruct (post _ _ _) as [response | e]; [|reflexivity].
  destruct (error response); [reflexivity|].
  destruct (result response); reflexivity.
Qed.

(** [request] returns a result exactly when the transport returned a
    response without [error] and with a [result]. *)
Lemma request_returns (method : string) (rpc : RpcParams)
    (sent : list PaymeJsonRpcRequest) (r : PaymeCreateReceiptResult) :
  fst (request requestId post config method rpc sent) = Returned r ->
  exists response,
    post (List.length sent)
      {| req_id := requestId (List.length sent); req_method := method;
         req_params := rpc |} (checkoutKey config) = Returned response
    /\ error response = None /\ result response = Some r.
Proof.
  rewrite request_cases. cbv zeta.
  destruct (post _ _ _) as [response | e]; [|discriminate].
  destruct (error response) eqn:He; [discriminate|].
  destruct (result response) eqn:Hr; [|discriminate].
  simpl. intros [= ->]. now exists response.
Qed.

(** The run of [chargeFromCardToken], case by case on what the create call
    returns: [receipts.pay] is requested on one branch only. *)
Lemma charge_cases (params : ProcessPaymentParams)
    (sent : list PaymeJsonRpcRequest) :
  let n := List.length sent in
  let create := create_request requestId params n in
  let sent' := (sent ++ [create])%list in
  chargeFromCardToken requestId post config readIdError params sent
  = match fst (request requestId post config "receipts.create"
                 (req_params create) sent) with
    | Threw e => (Threw e, sent')
    | Returned createResult =>
        match receipt createResult with
        | None => (Threw (JsError readIdError), sent')
        | Some created =>
            match _id created with
            | Some receiptId =>
                if String.eqb receiptId "" then
                  (Threw (PaymeError "Failed to create receipt." (-32001)
                            None), sent')
                else
                  match request requestId post config "receipts.pay"
                          (req_params
                             (pay_request requestId params (S n) receiptId))
                          sent' with
                  | (Threw e, log) => (Threw e, log)
                  | (Returned payResult, log) =>
                      match receipt payResult with
                      | None => (Threw (JsError readIdError), log)
                      | Some paid =>
                          (Returned
                             {| transactionId := _id paid;
                                status :=
                                  getStatusFromPaymeReceiptState (state paid);
                                prr_receipt := paid |}, log)
                      end
                  end
            | None =>
                (Threw (PaymeError "Failed to create receipt." (-32001) None),
                 sent')
            end
        end
    end.
Proof.
  intros n create sent'. unfold chargeFromCardToken, bind.
  pose proof (request_posts_once "receipts.create" (req_params create) sent)
    as Hlog.
  change (req_params create)
    with (PaymeCreateReceiptParams (pp_amount params * 100)%float
            (orderId params) ("Payment for order " ++ orderId params))
    in Hlog |- *.
  destruct (request requestId post config "receipts.create" _ sent)
    as [[createResult | e] log]; simpl in Hlog; subst log;
    [|reflexivity].
  cbn [fst]. destruct (receipt createResult) as [created|]; [|reflexivity].
  destruct (_id created) as [receiptId|]; [|reflexivity].
  destruct (String.eqb receiptId ""); [reflexivity|].
  cbn [pay_request req_params].
  destruct (request requestId post config "receipts.pay" _ _)
    as [[payResult | e] log]; [|reflexivity].
  destruct (receipt payResult); reflexivity.
Qed.

(** The first request that [chargeFromCardToken] posts is the
    [receipts.create] request. *)
Lemma charge_posts_create_first (params : ProcessPaymentParams)
    (sent : list PaymeJsonRpcRequest) :
  exists later,
    snd (chargeFromCardToken requestId post config readIdError params sent)
    = (sent ++ create_request requestId params (List.length sent) :: later)%list.
Proof.
  rewrite charge_cases.
  destruct (fst (request requestId post config "receipts.create" _ sent))
    as [createResult | e]; [|now exists []].
  destruct (receipt createResult) as [created|]; [|now exists []].
  destruct (_id created) as [receiptId|]; [|now exists []].
  destruct (String.eqb receiptId ""); [now exists []|].
  pose proof (request_posts_once "receipts.pay"
    (req_params (pay_request requestId params (S (List.length sent))
                   receiptId))
    (sent ++ [create_request requestId params (List.length sent)])%list)
    as Hlog.
  destruct (request requestId post config "receipts.pay" _ _)
    as [[payResult | e] log]; simpl in Hlog; subst log;
    [destruct (receipt payResult)|];
    eexists; simpl; rewrite <- List.app_assoc; reflexivity.
Qed.

(** C1, amended. Whatever the provider answers, [chargeFromCardToken] posts
    [receipts.create] first, and posts [receipts.pay] only after it, once,
    with the non-empty receipt id that the create call returned.  When the
    create call returns a receipt whose id is empty or missing, the flow
    throws the typed error (code -32001) and [receipts.pay] is not posted.
    When the create call returns a result without a receipt, the flow
    fails and [receipts.pay] is not posted either. *)
Theorem charge_creates_before_paying (params : ProcessPaymentParams)
    (sent : list PaymeJsonRpcRequest) :
  let run := chargeFromCardToken requestId post config readIdError params
               sent in
  let n := List.length sent in
  let create := create_request requestId params n in
  (snd run = (sent ++ [create])%list
   \/ exists response createResult created receiptId,
        post n create (checkoutKey config) = Returned response
        /\ result response = Some createResult
        /\ receipt createResult = Some created
        /\ _id created = Some receiptId
        /\ receiptId <> ""
        /\ snd run
           = (sent ++ [create;
                       pay_request requestId params (S n) receiptId])%list)
  /\ (forall response createResult created,
        post n create (checkoutKey config) = Returned response ->
        error response = None ->
        result response = Some createResult ->
        receipt createResult = Some created ->
        truthy (_id created) = false ->
        run = (Threw (PaymeError "Failed to create receipt." (-32001) None),
               (sent ++ [create])%list))
  /\ (forall response createResult,
        post n create (checkoutKey config) = Returned response ->
        error response = None ->
        result response = Some createResult ->
        receipt createResult = None ->
        exists e, run = (Threw e, (sent ++ [create])%list)).
Proof.
  intros run n create. subst run. rewrite charge_cases.
  fold n create.
  pose proof (request_returns "receipts.create" (req_params create) sent)
    as Hret.
  pose proof (request_cases "receipts.create" (req_params create) sent)
    as Hcases.
  cbv zeta in Hcases. fold n in Hcases, Hret.
  change {| req_id := requestId n; req_method := "receipts.create";
            req_params := req_params create |} with create in Hcases, Hret.
  split; [|split].
  - destruct (fst (request requestId post config "receipts.create" _ sent))
      as [createResult | e]; [|now left].
    destruct (Hret createResult eq_refl) as (response & Hpost & _ & Hres).
    destruct (receipt createResult) as [created|] eqn:Hreceipt; [|now left].
    destruct (_id created) as [receiptId|] eqn:Hid; [|now left].
    destruct (String.eqb_spec receiptId "") as [Hempty | Hne]; [now left|].
    right. exists response, createResult, created, receiptId.
    repeat split; try assumption.
    pose proof (request_posts_once "receipts.pay"
        (req_params (pay_request requestId params (S n) receiptId))
        (sent ++ [create])%list) as Hlog.
      rewrite List.length_app, Nat.add_1_r in Hlog. fold n in Hlog.
    destruct (request requestId post config "receipts.pay" _ _)
      as [[payResult | e] log]; simpl in Hlog; subst log;
      [destruct (receipt payResult)|];
      simpl; now rewrite <- List.app_assoc.
  - intros response createResult created Hpost Herr Hres Hreceipt Hfalsy.
    rewrite Hcases, Hpost, Herr, Hres. cbn [fst]. rewrite Hreceipt.
    destruct (_id created) as [receiptId|]; [|reflexivity].
    cbn [truthy] in Hfalsy.
    destruct (String.eqb receiptId ""); [reflexivity | discriminate].
  - intros response createResult Hpost Herr Hres Hreceipt.
    rewrite Hcases, Hpost, Herr, Hres. cbn [fst].
    rewrite Hreceipt. now exists (JsError readIdError).
Qed.

(** C8. An amount of 1000 is sent as 100000 in the [receipts.create]
    request, which is always the first request posted.  When the create
    call is answered with a receipt that has a non-empty id and the
    [receipts.pay] call for that id is answered with a receipt in state 2,
    the result returned carries that receipt and the status SUCCESS. *)
Theorem charge_amount_in_tiyins_and_paid_status (token order : string)
    (sent : list PaymeJsonRpcRequest) :
  let params := {| cardToken := token; pp_amount := 1000;
                   orderId := order |} in
  let run := chargeFromCardToken requestId post config readIdError params
               sent in
  let n := List.length sent in
  let key := checkoutKey config in
  let create := {| req_id := requestId n;
                   req_method := "receipts.create";
                   req_params :=
                     PaymeCreateReceiptParams 100000 order
                       ("Payment for order " ++ order) |} in
  (exists later, snd run = (sent ++ create :: later)%list)
  /\ (forall response createResult created receiptId
             payResponse payResult paid,
        post n create key = Returned response ->
        error response = None ->
        result response = Some createResult ->
        receipt createResult = Some created ->
        _id created = Some receiptId ->
        receiptId <> "" ->
        post (S n)
          {| req_id := requestId (S n);
             req_method := "receipts.pay";
             req_params := PaymePayReceiptParams receiptId token |} key
        = Returned payResponse ->
        error payResponse = None ->
        result payResponse = Some payResult ->
        receipt payResult = Some paid ->
        state paid = Some 2 ->
        fst run
        = Returned {| transactionId := _id paid;
                      status := SUCCESS;
                      prr_receipt := paid |}).
Proof.
  intros params run n key create.
  assert (Hcreate : create_request requestId params n = create)
    by reflexivity.
  split.
  - destruct (charge_posts_create_first params sent) as (later & Hlog).
    exists later. subst run. fold n in Hlog. now rewrite Hlog, Hcreate.
  - intros response createResult created receiptId payResponse payResult paid
      Hpost Herr Hres Hreceipt Hid Hne Hpay Herr2 Hres2 Hreceipt2 Hstate.
    subst run. rewrite charge_cases. fold n. rewrite Hcreate.
    pose proof (request_cases "receipts.create" (req_params create) sent)
      as Hcases.
    cbv zeta in Hcases. fold n in Hcases.
    change {| req_id := requestId n; req_method := "receipts.create";
              req_params := req_params create |} with create in Hcases.
    rewrite Hcases. fold key. rewrite Hpost, Herr, Hres. cbn [fst].
    rewrite Hreceipt, Hid.
    destruct (String.eqb_spec receiptId ""); [contradiction|].
    rewrite request_cases. cbv zeta.
    rewrite List.length_app, Nat.add_1_r. fold n.
    cbn [pay_request req_params cardToken params]. fold key.
    rewrite Hpay, Herr2, Hres2, Hreceipt2, Hstate. reflexivity.
Qed.

End PaymeChargeFlow.

(** C1, as stated, fails: a create call answered with a result that holds
    no receipt carries no receipt id, and the error raised is the TypeError
    of the engine, not the typed error. *)
Lemma charge_without_receipt_is_not_a_typed_error :
  PaymeClient.chargeFromCardToken sample_requestId provider_without_receipt
    sample_payme_config v8_readIdError (sample_charge 1000) []
  = (Threw (JsError "Cannot read properties of undefined (reading '_id')"),
     [create_request sample_requestId (sample_charge 1000) 0])
  /\ forall message code data,
       fst (PaymeClient.chargeFromCardToken sample_requestId
              provider_without_receipt sample_payme_config v8_readIdError
              (sample_charge 1000) [])
       <> Threw (PaymeError message code data).
Proof.
  split; [reflexivity | discriminate].
Qed.

(** The amount is multiplied in binary64 arithmetic: a product above 2^53
    is rounded. *)
Example test_payme_charge_amount_is_rounded :
  List.map PaymeClient.req_params
    (snd (PaymeClient.chargeFromCardToken sample_requestId
            provider_without_receipt_id sample_payme_config v8_readIdError
            (sample_charge 9007199254740989) []))
  = [PaymeClient.PaymeCreateReceiptParams 900719925474098944 "order-123"
       "Payment for order order-123"].
Proof. reflexivity. Qed.

Lemma charge_creates_before_paying_witness :
  PaymeClient.chargeFromCardToken sample_requestId provider_without_receipt_id
    sample_payme_config v8_readIdError (sample_charge 1000) []
  = (Threw (PaymeError "Failed to create receipt." (-32001) None),
     [create_request sample_requestId (sample_charge 1000) 0]).
Proof.
  apply (proj1 (proj2 (charge_creates_before_paying sample_requestId
                         provider_without_receipt_id sample_payme_config
                         v8_readIdError (sample_charge 1000) []))
           (receipt_response (Some "") 1)
           {| PaymeClient.receipt := Some (sample_receipt (Some "") 1) |}
           (sample_receipt (Some "") 1));
    reflexivity.
Defined.

Lemma charge_amount_in_tiyins_and_paid_status_witness :
  fst (PaymeClient.chargeFromCardToken sample_requestId provider_paying
         sample_payme_config v8_readIdError (sample_charge 1000) [])
  = Returned
      {| PaymeClient.transactionId := Some "receipt-123";
         PaymeClient.status := SUCCESS;
         PaymeClient.prr_receipt := sample_receipt (Some "receipt-123") 2 |}.
Proof.
  apply (proj2 (charge_amount_in_tiyins_and_paid_status sample_requestId
                  provider_paying sample_payme_config v8_readIdError
                  "test-card-token" "order-123" [])
           (receipt_response (Some "receipt-123") 1)
           {| PaymeClient.receipt :=
                Some (sample_receipt (Some "receipt-123") 1) |}
           (sample_receipt (Some "receipt-123") 1) "receipt-123"
           (receipt_response (Some "receipt-123") 2)
           {| PaymeClient.receipt :=
                Some (sample_receipt (Some "receipt-123") 2) |}
           (sample_receipt (Some "receipt-123") 2));
    first [reflexivity | discriminate].
Defined.

(** ** Click client *)

Section ClickClientProperties.

Import ClickClient.

Variable getDigestAuthToken : string -> string -> string.
Variable config : ClickConfig.

(** C3, amended. When the transport call of [chargeFromCardToken]
    succeeded with an answer that carries an error code, the charge returns
    a result exactly when the error code is non-negative and, if the error
    code is zero, [payment_status] is 2; in every other case it throws a
    [ClickError] that carries the provider's note and code. *)
Theorem click_charge_success_condition
    (http : HttpVerb -> string -> option RequestBody -> string ->
            outcome ClickChargeFromCardTokenResponse.t)
    (params : ProcessPaymentParams)
    (response : ClickChargeFromCardTokenResponse.t) (code : Z) :
  http Post "/card_token/payment"
    (Some (CardTokenPaymentBody (serviceId config) (cardToken params)
             (pp_amount params) (orderId params)))
    (getDigestAuthToken (merchantUserId config) (secretKey config))
  = Returned response ->
  ClickChargeFromCardTokenResponse.error_code response = Some code ->
  let paid := ClickChargeFromCardTokenResponse.payment_status response in
  let charged := chargeFromCardToken getDigestAuthToken config http params in
  (0 <= code /\ (code = 0 -> paid = Some 2) ->
   charged
   = Returned
       {| transactionId :=
            ClickChargeFromCardTokenResponse.payment_id response;
          status := getStatusFromClickCode paid |})
  /\ (~ (0 <= code /\ (code = 0 -> paid = Some 2)) ->
      charged
      = Threw (ClickError
                 (message_or_empty
                    (ClickChargeFromCardTokenResponse.error_note response))
                 code)).
Proof.
  intros Hhttp Hcode paid charged. subst charged.
  unfold chargeFromCardToken, request. rewrite Hhttp, Hcode.
  fold paid.
  destruct (Z.ltb_spec code 0) as [Hneg | Hnonneg]; simpl.
  - split; [intros [H _]; lia | reflexivity].
  - destruct (Z.eqb_spec code 0) as [Hzero | Hpos].
    + destruct paid as [st|]; simpl.
      * destruct (Z.eqb_spec st 2) as [-> | Hst]; simpl.
        -- split; [reflexivity | intros H; exfalso; apply H; now split].
        -- split; [|reflexivity].
           intros [_ H]. specialize (H Hzero). congruence.
      * split; [|reflexivity].
        intros [_ H]. specialize (H Hzero). discriminate.
    + rewrite andb_false_r.
      split; [reflexivity | intros H; exfalso; apply H; split; [lia|tauto]].
Qed.

(** A charge returns a result only after a successful transport call. *)
Lemma click_charge_returns_after_transport
    (http : HttpVerb -> string -> option RequestBody -> string ->
            outcome ClickChargeFromCardTokenResponse.t)
    (params : ProcessPaymentParams) (charged : ProcessedPaymentResult) :
  chargeFromCardToken getDigestAuthToken config http params
  = Returned charged ->
  exists response,
    http Post "/card_token/payment"
      (Some (CardTokenPaymentBody (serviceId config) (cardToken params)
               (pp_amount params) (orderId params)))
      (getDigestAuthToken (merchantUserId config) (secretKey config))
    = Returned response.
Proof.
  unfold chargeFromCardToken, request.
  destruct (http Post _ _ _) as [response | e].
  - intros _. now exists response.
  - destruct (instanceof_Error e); discriminate.
Qed.

(** C9. A tokenization response with a non-negative error code and a
    non-empty token makes [createCardToken] return that token with
    [requiresVerification] equal to [true], whatever else the response
    holds. *)
Theorem click_token_always_requires_verification
    (http : HttpVerb -> string -> option RequestBody -> string ->
            outcome ClickCreateCardTokenResponse.t)
    (params : CreateCardTokenParams)
    (response : ClickCreateCardTokenResponse.t) (token : string) :
  http Post "/card_token/request"
    (Some (CardTokenRequestBody (cardNumber params) (expireDate params)
             (if match save params with Some b => b | None => true end
              then 0 else 1)
             (serviceId config)))
    (getDigestAuthToken (merchantUserId config) (secretKey config))
  = Returned response ->
  0 <= ClickCreateCardTokenResponse.error_code response ->
  ClickCreateCardTokenResponse.card_token response = Some token ->
  token <> "" ->
  createCardToken getDigestAuthToken config http params
  = Returned {| ctr_cardToken := token; requiresVerification := true |}.
Proof.
  intros Hhttp Hcode Htoken Hne.
  unfold createCardToken, request. rewrite Hhttp, Htoken.
  destruct (Z.ltb_spec (ClickCreateCardTokenResponse.error_code response) 0);
    [lia|].
  destruct (String.eqb_spec token ""); [contradiction|]. reflexivity.
Qed.

End ClickClientProperties.

(** C3, as stated, fails: an answer without error code is neither a
    failure nor required to be confirmed.  With [payment_status] 2 and no
    error code the charge is a success, and the empty answer [{}] is
    returned with the status FAILED instead of raising a [ClickError]. *)
Lemma click_charge_without_error_code_returns :
  ClickClient.chargeFromCardToken sample_digest sample_click_config
    (answering (charge_response_without_code 2)) sample_click_charge
  = Returned {| ClickClient.transactionId := Some 12345;
                ClickClient.status := SUCCESS |}
  /\ ClickClient.chargeFromCardToken sample_digest sample_click_config
       (answering empty_charge_response) sample_click_charge
     = Returned {| ClickClient.transactionId := None;
                   ClickClient.status := FAILED |}.
Proof.
  split; reflexivity.
Qed.

Lemma click_charge_success_condition_witness :
  ClickClient.chargeFromCardToken sample_digest sample_click_config
    (answering (charge_response 2 0)) sample_click_charge
  = Returned {| ClickClient.transactionId := Some 12345;
                ClickClient.status := SUCCESS |}
  /\ ClickClient.chargeFromCardToken sample_digest sample_click_config
       (answering (charge_response 1 0)) sample_click_charge
     = Threw (ClickError "note" 0).
Proof.
  split.
  - apply (proj1 (click_charge_success_condition sample_digest
                    sample_click_config (answering (charge_response 2 0))
                    sample_click_charge (charge_response 2 0) 0
                    eq_refl eq_refl)).
    simpl. split; [lia | reflexivity].
  - apply (proj2 (click_charge_success_condition sample_digest
                    sample_click_config (answering (charge_response 1 0))
                    sample_click_charge (charge_response 1 0) 0
                    eq_refl eq_refl)).
    simpl. intros [_ H]. specialize (H eq_refl). discriminate.
Defined.

Lemma click_token_always_requires_verification_witness :
  ClickClient.requiresVerification
    {| ClickClient.ctr_cardToken := "test-card-token";
       ClickClient.requiresVerification := true |} = true
  /\ ClickClient.createCardToken sample_digest sample_click_config
       (answering token_response) sample_card
     = Returned {| ClickClient.ctr_cardToken := "test-card-token";
                   ClickClient.requiresVerification := true |}.
Proof.
  split; [reflexivity|].
  apply (click_token_always_requires_verification sample_digest
           sample_click_config (answering token_response) sample_card
           token_response "test-card-token").
  - reflexivity.
  - simpl. lia.
  - reflexivity.
  - discriminate.
Defined.

(** ** Click webhook signature *)

Section ClickSignature.

Variable md5_hex : string -> string.
Variable secretKey : string.

Lemma fieldsToHash_with_prepare_id (body : ClickWebhookBody)
    (prepareId : string) :
  action body = 1 ->
  merchant_prepare_id body = Some prepareId ->
  prepareId <> "" ->
  ClickUtils.fieldsToHash body secretKey
  = [click_trans_id body; service_id body; secretKey; merchant_trans_id body;
     prepareId; amount body; string_of_Z (action body); sign_time body].
Proof.
  intros Haction Hid Hne. unfold ClickUtils.fieldsToHash.
  rewrite Hid, Haction.
  destruct (String.eqb_spec prepareId ""); [contradiction | reflexivity].
Qed.



End ClickSignature.


(** ** Payme webhook handler *)

(** No segment produced by [split] contains the separator. *)
Lemma split_segments_without_separator (sep : ascii) (s : string) :
  Forall (fun segment => contains sep segment = false) (split sep s).
Proof.
  induction s as [|c rest IH]; simpl.
  - repeat constructor.
  - destruct (Ascii.eqb c sep) eqn:Hc.
    + constructor; [reflexivity | assumption].
    + destruct (split sep rest) as [|segment segments].
      * repeat constructor. simpl. now rewrite Hc.
      * inversion IH as [|? ? Hsegment Hsegments]; subst.
        constructor; [|assumption]. simpl. now rewrite Hc.
Qed.

Lemma strict_eq_Some (a : option string) (b : string) :
  strict_eq a (Some b) = true <-> a = Some b.
Proof.
  destruct a as [a|]; simpl.
  - destruct (String.eqb_spec a b); split; congruence.
  - split; discriminate.
Qed.

Section PaymeWebhookProperties.

Import PaymeWebhookHandler.

Variable base64_ascii : string -> string.
Variable destructureError : string.
Variable readNullishError : option json -> string.
Variable handler : Handler.

(** [verifyAuth] accepts exactly the headers that start with "Basic " and
    whose decoded credentials have "Paycom" as first segment and the secret
    as second segment; segments after the second are not looked at. *)
Lemma verifyAuth_accepts (authHeader : option string) :
  verifyAuth base64_ascii handler authHeader = Returned tt
  <-> exists header,
        authHeader = Some header
        /\ startsWith "Basic " header = true
        /\ nth_error (segments base64_ascii header) 0 = Some PAYME_LOGIN
        /\ nth_error (segments base64_ascii header) 1 = Some (secretKey handler).
Proof.
  unfold verifyAuth, segments. destruct authHeader as [header|];
    [|split; [discriminate | intros (h & Hh & _); discriminate]].
  set (parts := split ":" (base64_ascii (substring_from 6 header))).
  destruct (String.eqb_spec header "") as [Hempty | Hne]; cbn [orb negb].
  { split; [discriminate|]. intros (h & [= <-] & Hp & _).
    subst header. discriminate. }
  destruct (startsWith "Basic " header) eqn:Hprefix; cbn [orb negb];
    [|split; [discriminate | intros (h & [= <-] & Hp & _); congruence]].
  destruct (strict_eq (nth_error parts 0) (Some PAYME_LOGIN)) eqn:Hlogin;
    cbn [orb negb].
  - destruct (strict_eq (nth_error parts 1) (Some (secretKey handler)))
      eqn:Hpassword; cbn [orb negb].
    + split; [|reflexivity]. intros _. exists header.
      apply strict_eq_Some in Hlogin, Hpassword. now repeat split.
    + split; [discriminate|].
      intros (h & [= <-] & _ & _ & Hp). fold parts in Hp.
      apply strict_eq_Some in Hp. congruence.
  - split; [discriminate|].
    intros (h & [= <-] & _ & Hl & _). fold parts in Hl.
    apply strict_eq_Some in Hl. congruence.
Qed.

(** Whatever [verifyAuth] throws is the unauthorized error. *)
Lemma verifyAuth_rejects (authHeader : option string) :
  verifyAuth base64_ascii handler authHeader = Returned tt
  \/ exists detail,
       verifyAuth base64_ascii handler authHeader
       = Threw (PaymeError "Unauthorized" (-32504) (Some (JStr detail))).
Proof.
  unfold verifyAuth. destruct authHeader as [header|]; [|right; eauto].
  destruct (String.eqb header "" || negb (startsWith "Basic " header));
    [right; eauto|].
  destruct (negb _ || negb _); [right; eauto | now left].
Qed.

(** A request that fails authentication is answered with the unauthorized
    error, and the business logic is not called. *)
Lemma handle_unauthorized (body : option PaymeJsonRpcRequest)
    (authHeader : option string) (now : Z) :
  verifyAuth base64_ascii handler authHeader <> Returned tt ->
  exists detail,
    handle base64_ascii destructureError readNullishError handler body
      authHeader now
    = (Returned (unauthorized (id_or_now body now) detail), []).
Proof.
  intros Hreject.
  destruct (verifyAuth_rejects authHeader) as [Hok | (detail & Hthrow)];
    [contradiction|].
  exists detail. unfold handle, handle_try. rewrite Hthrow. reflexivity.
Qed.

(** The business logic is called only for an authenticated request. *)
Lemma handle_calls_only_when_authenticated
    (body : option PaymeJsonRpcRequest) (authHeader : option string)
    (now : Z) :
  snd (handle base64_ascii destructureError readNullishError handler body
         authHeader now) <> [] ->
  verifyAuth base64_ascii handler authHeader = Returned tt.
Proof.
  intros Hcalls.
  destruct (verifyAuth_rejects authHeader) as [Hok | (detail & Hthrow)];
    [assumption|].
  exfalso. apply Hcalls.
  destruct (handle_unauthorized body authHeader now) as (d & ->);
    [congruence | reflexivity].
Qed.

(** An authenticated request for one of the six methods whose operation
    resolves is answered with the request id followed by the keys of what
    the operation resolved to. *)
Lemma handle_resolved (request : PaymeJsonRpcRequest)
    (authHeader : option string) (now : Z) (m : PaymeWebhookMethod)
    (response : LogicResponse) :
  verifyAuth base64_ascii handler authHeader = Returned tt ->
  method_of_string (method request) = Some m ->
  operation (logic handler) m (params request) (id request)
  = Returned response ->
  handle base64_ascii destructureError readNullishError handler
    (Some request) authHeader now
  = (Returned (envelope (id request) response),
     [{| call_method := m; call_params := params request;
         call_requestId := id request |}]).
Proof.
  intros Hauth Hmethod Hop. unfold handle, handle_try.
  now rewrite Hauth, Hmethod, Hop.
Qed.

(** An authenticated request for one of the six methods whose operation
    throws a value that is not nullish is answered with an error; the id of
    the answer is the request id when that id is truthy. *)
Lemma handle_rejected (request : PaymeJsonRpcRequest)
    (authHeader : option string) (now : Z) (m : PaymeWebhookMethod)
    (e : exn) (jsonRpcError : PaymeJsonRpcError) :
  verifyAuth base64_ascii handler authHeader = Returned tt ->
  method_of_string (method request) = Some m ->
  operation (logic handler) m (params request) (id request) = Threw e ->
  jsonRpcError_of readNullishError e = Returned jsonRpcError ->
  handle base64_ascii destructureError readNullishError handler
    (Some request) authHeader now
  = (Returned {| res_id := Some (id_or_now (Some request) now);
                 res_result := None;
                 res_error := Some jsonRpcError;
                 res_rest := [] |},
     [{| call_method := m; call_params := params request;
         call_requestId := id request |}]).
Proof.
  intros Hauth Hmethod Hop Herror. unfold handle, handle_try.
  now rewrite Hauth, Hmethod, Hop, Herror.
Qed.

(** An authenticated request for any other method is answered with the
    "Method not found" error, and the business logic is not called. *)
Lemma handle_unknown_method (request : PaymeJsonRpcRequest)
    (authHeader : option string) (now : Z) :
  verifyAuth base64_ascii handler authHeader = Returned tt ->
  method_of_string (method request) = None ->
  handle base64_ascii destructureError readNullishError handler
    (Some request) authHeader now
  = (Returned {| res_id := Some (id_or_now (Some request) now);
                 res_result := None;
                 res_error :=
                   Some {| err_code := -32601;
                           err_message :=
                             Some {| ru := None; uz := None;
                                     en := Some "Method not found" |};
                           err_data := None |};
                 res_rest := [] |}, []).
Proof.
  intros Hauth Hmethod. unfold handle, handle_try.
  now rewrite Hauth, Hmethod.
Qed.

(** The only thrown values that the [catch] block does not convert are
    [null] and [undefined]. *)
Lemma jsonRpcError_of_converts (e : exn) :
  (exists jsonRpcError,
     jsonRpcError_of readNullishError e = Returned jsonRpcError)
  \/ (exists v, e = ThrownValue v /\ nullish v = true).
Proof.
  destruct e as [m c d | m c | m | v]; simpl; eauto.
  destruct (nullish v) eqn:Hv; eauto.
Qed.

(** [handle] lets a thrown value escape only when the business logic threw
    [null] or [undefined]. *)
Lemma handle_throws_only_nullish (body : option PaymeJsonRpcRequest)
    (authHeader : option string) (now : Z) (e : exn) :
  fst (handle base64_ascii destructureError readNullishError handler body
         authHeader now) = Threw e ->
  exists request m v,
    body = Some request
    /\ method_of_string (method request) = Some m
    /\ operation (logic handler) m (params request) (id request)
       = Threw (ThrownValue v)
    /\ nullish v = true.
Proof.
  unfold handle, handle_try.
  destruct (verifyAuth_rejects authHeader) as [-> | (detail & ->)];
    [|discriminate].
  destruct body as [request|]; [|discriminate].
  destruct (method_of_string (method request)) as [m|] eqn:Hm; [|discriminate].
  destruct (operation (logic handler) m (params request) (id request))
    as [response | thrown] eqn:Hop; [discriminate|].
  destruct (jsonRpcError_of_converts thrown) as [(j & ->) | (v & -> & Hv)];
    [discriminate|].
  intros _. exists request, m, v. now repeat split.
Qed.

(** C10. Authentication cuts the decoded credentials at every colon and
    compares the first segment with "Paycom" and the second segment with
    the secret; later segments are ignored.  So when the configured secret
    contains a colon, no Authorization header authenticates: [handle]
    answers every request with the unauthorized error (code -32504) and
    never calls the business logic. *)
Theorem colon_in_secret_locks_everyone_out :
  (forall authHeader,
     verifyAuth base64_ascii handler authHeader = Returned tt
     <-> exists header,
           authHeader = Some header
           /\ startsWith "Basic " header = true
           /\ nth_error (split ":" (base64_ascii (substring_from 6 header))) 0
              = Some "Paycom"
           /\ nth_error (split ":" (base64_ascii (substring_from 6 header))) 1
              = Some (secretKey handler))
  /\ (contains ":" (secretKey handler) = true ->
      forall body authHeader now,
        verifyAuth base64_ascii handler authHeader <> Returned tt
        /\ exists detail,
             handle base64_ascii destructureError readNullishError handler
               body authHeader now
             = (Returned (unauthorized (id_or_now body now) detail), [])).
Proof.
  split; [exact verifyAuth_accepts|].
  intros Hcolon body authHeader now.
  assert (Hreject : verifyAuth base64_ascii handler authHeader <> Returned tt).
  { intros Hok. apply verifyAuth_accepts in Hok.
    destruct Hok as (header & _ & _ & _ & Hpassword).
    apply nth_error_In in Hpassword.
    pose proof (split_segments_without_separator ":"
                  (base64_ascii (substring_from 6 header))) as Hclean.
    rewrite Forall_forall in Hclean.
    specialize (Hclean _ Hpassword). congruence. }
  split; [assumption | now apply handle_unauthorized].
Qed.

End PaymeWebhookProperties.

Lemma colon_in_secret_locks_everyone_out_witness :
  Base64.decode_ascii "UGF5Y29tOnNlOmNyZXQ=" = "Paycom:se:cret"
  /\ exists detail,
       run_handle (sample_handler "se:cret" (resolving JNull))
         (Some (sample_request (Some (PaymeWebhookHandler.IdStr "131"))))
         (Some "Basic UGF5Y29tOnNlOmNyZXQ=") 1700000000000
       = (Returned (unauthorized (PaymeWebhookHandler.IdStr "131") detail),
          []).
Proof.
  split; [reflexivity|].
  apply (proj2 (colon_in_secret_locks_everyone_out Base64.decode_ascii
    "Cannot destructure property 'id' of 'request' as it is undefined."
    v8_readNullishError
    (sample_handler "se:cret" (resolving JNull))) eq_refl).
Defined.

(** C4 does not hold of the code.  The header below carries the
    credentials "Paycom:s3cret:extra"; the password, which is everything
    after the first colon, is "s3cret:extra" and differs from the
    configured secret "s3cret".  [handle] authenticates the request all the
    same, calls the business logic and returns its result. *)
Theorem payme_webhook_accepts_extra_segment :
  Base64.decode_ascii "UGF5Y29tOnMzY3JldDpleHRyYQ==" = "Paycom:s3cret:extra"
  /\ "Paycom:s3cret:extra" <> PaymeWebhookHandler.PAYME_LOGIN ++ ":" ++ "s3cret"
  /\ run_handle (sample_handler "s3cret" (resolving (JBool true)))
       (Some (sample_request (Some (PaymeWebhookHandler.IdStr "131"))))
       (Some "Basic UGF5Y29tOnMzY3JldDpleHRyYQ==") 1700000000000
     = (Returned
          {| PaymeWebhookHandler.res_id :=
               Some (PaymeWebhookHandler.IdStr "131");
             PaymeWebhookHandler.res_result := Some (JBool true);
             PaymeWebhookHandler.res_error := None;
          PaymeWebhookHandler.res_rest := [] |},
        [sample_call (Some (PaymeWebhookHandler.IdStr "131"))]).
Proof.
  split; [reflexivity|]. split; [discriminate | reflexivity].
Qed.

(** C5 does not hold of the code on two inputs, both authenticated requests
    for CheckPerformTransaction.  When the request id is 0 and the business
    logic throws an Error, the answer carries the value of the clock as id
    instead of the request id.  When the business logic throws [undefined],
    the [catch] block itself throws a TypeError, which escapes [handle]. *)
Theorem payme_webhook_error_path_slips :
  run_handle (sample_handler "s3cret" (rejecting (JsError "Unexpected error")))
    (Some (sample_request (Some (PaymeWebhookHandler.IdNum 0))))
    (Some "Basic UGF5Y29tOnMzY3JldA==") 1700000000000
  = (Returned
       {| PaymeWebhookHandler.res_id :=
            Some (PaymeWebhookHandler.IdNum 1700000000000);
          PaymeWebhookHandler.res_result := None;
          PaymeWebhookHandler.res_error :=
            Some {| err_code := -32400;
                    err_message :=
                      Some {| ru := None; uz := None;
                              en := Some "Internal Server Error" |};
                    err_data := Some (JStr "Unexpected error") |};
          PaymeWebhookHandler.res_rest := [] |},
     [sample_call (Some (PaymeWebhookHandler.IdNum 0))])
  /\ run_handle (sample_handler "s3cret" (rejecting (ThrownValue None)))
       (Some (sample_request (Some (PaymeWebhookHandler.IdStr "131"))))
       (Some "Basic UGF5Y29tOnMzY3JldA==") 1700000000000
     = (Threw (JsError
                 "Cannot read properties of undefined (reading 'message')"),
        [sample_call (Some (PaymeWebhookHandler.IdStr "131"))]).
Proof.
  split; reflexivity.
Qed.

(** * Further properties of the code *)

(** ** Strings: [split], [join] and decimal numerals *)

Lemma contains_append (c : ascii) (a b : string) :
  contains c (a ++ b) = contains c a || contains c b.
Proof.
  induction a as [|d a IH]; simpl; [reflexivity|].
  rewrite IH. now rewrite orb_assoc.
Qed.

(** A string without the separator is a single segment. *)
Lemma split_without_separator (sep : ascii) (s : string) :
  contains sep s = false -> split sep s = [s].
Proof.
  induction s as [|c s IH]; simpl; [reflexivity|].
  destruct (Ascii.eqb c sep); simpl; [discriminate|].
  intros Hs. now rewrite (IH Hs).
Qed.

(** Splitting cuts after a first segment that is free of the separator. *)
Lemma split_first_segment (sep : ascii) (s rest : string) :
  contains sep s = false ->
  split sep (s ++ String sep rest) = s :: split sep rest.
Proof.
  induction s as [|c s IH]; simpl.
  - intros _. now rewrite Ascii.eqb_refl.
  - destruct (Ascii.eqb c sep); simpl; [discriminate|].
    intros Hs. now rewrite (IH Hs).
Qed.

(** [split] undoes [join] on a non-empty list of separator-free items. *)
Lemma split_join (sep : ascii) (items : list string) :
  items <> [] ->
  Forall (fun item => contains sep item = false) items ->
  split sep (join (String sep EmptyString) items) = items.
Proof.
  unfold join. induction items as [|x [|y rest] IH]; intros Hne Hfree.
  - contradiction.
  - simpl. inversion Hfree; subst. now apply split_without_separator.
  - inversion Hfree as [|? ? Hx Hrest]; subst.
    change (String.concat (String sep "") (x :: y :: rest))
      with (x ++ String sep (String.concat (String sep "") (y :: rest))).
    rewrite (split_first_segment sep x _ Hx).
    f_equal. apply IH; [discriminate | assumption].
Qed.

(** [join] undoes [split]. *)
Lemma join_split (sep : ascii) (s : string) :
  join (String sep EmptyString) (split sep s) = s.
Proof.
  unfold join. induction s as [|c s IH]; simpl; [reflexivity|].
  destruct (Ascii.eqb_spec c sep) as [-> | Hc].
  - destruct (split sep s) as [|seg segs] eqn:Hsplit.
    + simpl in IH. now subst s.
    + change (String.concat (String sep "") ("" :: seg :: segs))
        with (String sep (String.concat (String sep "") (seg :: segs))).
      f_equal. exact IH.
  - destruct (split sep s) as [|seg segs] eqn:Hsplit.
    + simpl in IH. now subst s.
    + destruct segs as [|seg' segs'].
      * simpl in *. now subst s.
      * change (String.concat (String sep "") (String c seg :: seg' :: segs'))
          with (String c (String.concat (String sep "") (seg :: seg' :: segs'))).
        f_equal. exact IH.
Qed.

Lemma string_of_uint_numeral (c : ascii) (d : Decimal.uint) :
  numeral_char c = false -> contains c (NilEmpty.string_of_uint d) = false.
Proof.
  intros Hc.
  induction d as [|d IH|d IH|d IH|d IH|d IH|d IH|d IH|d IH|d IH|d IH];
    cbn [NilEmpty.string_of_uint contains]; [reflexivity | ..];
    rewrite IH, orb_false_r;
    match goal with
    | |- Ascii.eqb ?digit c = false =>
        destruct (Ascii.eqb_spec digit c) as [<- | _];
        [vm_compute in Hc; discriminate | reflexivity]
    end.
Qed.

(** A decimal numeral holds digits and the minus sign only. *)
Lemma string_of_Z_numeral (c : ascii) (z : Z) :
  numeral_char c = false -> contains c (string_of_Z z) = false.
Proof.
  intros Hc. unfold string_of_Z, NilEmpty.string_of_int.
  destruct (Z.to_int z) as [d | d]; cbn [contains].
  - now apply string_of_uint_numeral.
  - rewrite (string_of_uint_numeral c d Hc), orb_false_r.
    destruct (Ascii.eqb_spec "-" c) as [<- | _];
      [vm_compute in Hc; discriminate | reflexivity].
Qed.

(** Distinct integers have distinct numerals. *)
Lemma string_of_Z_inj (a b : Z) : string_of_Z a = string_of_Z b -> a = b.
Proof.
  unfold string_of_Z. intros Heq. apply DecimalZ.to_int_inj.
  assert (H : Some (Z.to_int a) = Some (Z.to_int b))
    by now rewrite <- !NilEmpty.isi, Heq.
  now injection H.
Qed.

Lemma append_cancel_l (a x y : string) : a ++ x = a ++ y -> x = y.
Proof.
  induction a as [|c a IH]; simpl; [trivial|].
  intros [= H]. now apply IH.
Qed.

(** ** Status mapping across the providers *)

(** X1. The two normalizers agree on every code except 4, 5 and 6: Payme
    reads 4 as cancelled where Click reads it as refunded, 5 as pending
    where Click reads it as cancelled, and 6 as refunded where Click
    fails closed. *)
Theorem normalizers_differ_on_4_5_6 (code : option Z) :
  (getStatusFromPaymeReceiptState code = getStatusFromClickCode code
   <-> ~ In code [Some 4; Some 5; Some 6])
  /\ (getStatusFromPaymeReceiptState (Some 4), getStatusFromClickCode (Some 4))
     = (CANCELLED, REFUNDED)
  /\ (getStatusFromPaymeReceiptState (Some 5), getStatusFromClickCode (Some 5))
     = (PENDING, CANCELLED)
  /\ (getStatusFromPaymeReceiptState (Some 6), getStatusFromClickCode (Some 6))
     = (REFUNDED, FAILED).
Proof.
  split; [|repeat split].
  destruct code as [[|p|p]|]; simpl;
    try (split; [intros _; intuition discriminate | reflexivity]).
  small_positive p; simpl;
    first [ split; [intros _; intuition discriminate | reflexivity]
          | split; [discriminate | intros H; exfalso; apply H; tauto] ].
Qed.

(** ** PaymeError.fromJsonRpcError *)

Lemma fromJsonRpcError_shape (error : PaymeJsonRpcError) :
  exists message,
    fromJsonRpcError error
    = PaymeError message (err_code error) (err_data error)
    /\ message <> "".
Proof.
  unfold fromJsonRpcError. eexists. split; [reflexivity|].
  assert (Hor : forall a d, d <> "" -> or_string a d <> "").
  { intros [s|] d Hd; simpl; [|assumption].
    destruct (String.eqb_spec s ""); assumption. }
  repeat apply Hor. discriminate.
Qed.

(** X2. The error built from a JSON-RPC error keeps its code and its data,
    and its message is never empty: an error whose localized messages are
    all missing or empty gets the fallback text. *)
Theorem fromJsonRpcError_keeps_code_and_has_message
    (error : PaymeJsonRpcError) :
  exists message,
    fromJsonRpcError error
    = PaymeError message (err_code error) (err_data error)
    /\ message <> "".
Proof. exact (fromJsonRpcError_shape error). Qed.

(** ** What the Click signature covers *)

Lemma string_append_assoc (a b c : string) : (a ++ b) ++ c = a ++ (b ++ c).
Proof.
  induction a as [|x a IH]; simpl; [reflexivity | now rewrite IH].
Qed.

Lemma fieldsToHash_pipe_free (secretKey : string) (body : ClickWebhookBody) :
  pipe_free secretKey body = true ->
  ClickUtils.fieldsToHash body secretKey <> []
  /\ Forall (fun item => contains "|" item = false)
       (ClickUtils.fieldsToHash body secretKey).
Proof.
  unfold pipe_free, ClickUtils.fieldsToHash. intros Hfree.
  split; [discriminate|].
  rewrite forallb_forall in Hfree.
  assert (Hin : forall s,
    In s ([click_trans_id body; service_id body; secretKey;
           merchant_trans_id body; amount body; sign_time body]
          ++ match merchant_prepare_id body with
             | Some prepareId => [prepareId]
             | None => []
             end) -> contains "|" s = false).
  { intros s Hs. specialize (Hfree s Hs).
    now destruct (contains "|" s). }
  assert (Haction : contains "|" (string_of_Z (action body)) = false)
    by now apply string_of_Z_numeral.
  destruct (merchant_prepare_id body) as [prepareId|];
    [destruct ((action body =? 1) && negb (String.eqb prepareId ""))|];
    repeat (constructor; [first [exact Haction | apply Hin; simpl; tauto]|]);
    constructor.
Qed.

(** X3. The signature check depends on the hashed fields and on nothing
    else.  It is unchanged when [click_paydoc_id], [error] and
    [error_note] are changed; and for bodies whose hashed fields hold no
    pipe, two bodies give the same hashed string only if they agree on
    [click_trans_id], [service_id], [merchant_trans_id], [amount],
    [action] and [sign_time], and on the list of fields that is hashed. *)
Theorem signature_covers_the_hashed_fields (md5_hex : string -> string)
    (secretKey : string) (body other : ClickWebhookBody) :
  (forall paydoc code note,
     ClickUtils.verifyWebhookSignature md5_hex
       (with_unsigned body paydoc code note) secretKey
     = ClickUtils.verifyWebhookSignature md5_hex body secretKey)
  /\ (pipe_free secretKey body = true ->
      pipe_free secretKey other = true ->
      ClickUtils.stringToHash body secretKey
      = ClickUtils.stringToHash other secretKey ->
      ClickUtils.fieldsToHash body secretKey
      = ClickUtils.fieldsToHash other secretKey
      /\ click_trans_id body = click_trans_id other
      /\ service_id body = service_id other
      /\ merchant_trans_id body = merchant_trans_id other
      /\ amount body = amount other
      /\ action body = action other
      /\ sign_time body = sign_time other).
Proof.
  split; [reflexivity|].
  intros Hbody Hother Hsame.
  destruct (fieldsToHash_pipe_free secretKey body Hbody) as [Hne1 Hfree1].
  destruct (fieldsToHash_pipe_free secretKey other Hother) as [Hne2 Hfree2].
  assert (Hfields : ClickUtils.fieldsToHash body secretKey
                    = ClickUtils.fieldsToHash other secretKey).
  { unfold ClickUtils.stringToHash in Hsame.
    apply (f_equal (split "|")) in Hsame.
    now rewrite !split_join in Hsame by assumption. }
  split; [assumption|].
  unfold ClickUtils.fieldsToHash in Hfields.
  destruct (merchant_prepare_id body) as [p1|];
    [destruct ((action body =? 1) && negb (String.eqb p1 ""))|];
    (destruct (merchant_prepare_id other) as [p2|];
     [destruct ((action other =? 1) && negb (String.eqb p2 ""))|]);
    simpl in Hfields; try discriminate;
    injection Hfields as H1 H2 H3; intros;
    repeat split; try congruence;
    apply string_of_Z_inj; congruence.
Qed.

Lemma signature_covers_the_hashed_fields_witness :
  ClickUtils.fieldsToHash (complete_body "one") "test-secret-key"
  = ClickUtils.fieldsToHash (complete_body "two") "test-secret-key"
  /\ click_trans_id (complete_body "one") = click_trans_id (complete_body "two")
  /\ service_id (complete_body "one") = service_id (complete_body "two")
  /\ merchant_trans_id (complete_body "one")
     = merchant_trans_id (complete_body "two")
  /\ amount (complete_body "one") = amount (complete_body "two")
  /\ action (complete_body "one") = action (complete_body "two")
  /\ sign_time (complete_body "one") = sign_time (complete_body "two").
Proof.
  apply (proj2 (signature_covers_the_hashed_fields MD5.md5_hex
                  "test-secret-key" (complete_body "one")
                  (complete_body "two"))); reflexivity.
Defined.

(** X4. The hashed string does not mark where a field ends.  A "complete"
    notification with prepare id [p] and the notification that carries no
    prepare id but has [|p] appended to [merchant_trans_id] are hashed to
    the same string, so a signature that verifies for one verifies for the
    other. *)
Theorem signature_does_not_bind_field_boundaries
    (md5_hex : string -> string) (secretKey : string)
    (body : ClickWebhookBody) (prepareId : string) :
  action body = 1 ->
  merchant_prepare_id body = Some prepareId ->
  prepareId <> "" ->
  ClickUtils.stringToHash (prepare_id_in_order body prepareId) secretKey
  = ClickUtils.stringToHash body secretKey
  /\ ClickWebhookHandler.verifySignature md5_hex secretKey
       (prepare_id_in_order body prepareId)
     = ClickWebhookHandler.verifySignature md5_hex secretKey body.
Proof.
  intros Haction Hid Hne.
  assert (Hsame :
    ClickUtils.stringToHash (prepare_id_in_order body prepareId) secretKey
    = ClickUtils.stringToHash body secretKey).
  { unfold ClickUtils.stringToHash.
    rewrite (fieldsToHash_with_prepare_id secretKey body prepareId)
      by assumption.
    unfold ClickUtils.fieldsToHash, prepare_id_in_order, join. simpl.
    now rewrite !string_append_assoc. }
  split; [assumption|].
  unfold ClickWebhookHandler.verifySignature,
    ClickUtils.verifyWebhookSignature.
  now rewrite Hsame.
Qed.

Lemma signature_does_not_bind_field_boundaries_witness :
  merchant_trans_id (prepare_id_in_order (complete_body "s") "prepare-123")
  = "order-123|prepare-123"
  /\ ClickUtils.stringToHash
       (prepare_id_in_order (complete_body "s") "prepare-123")
       "test-secret-key"
     = ClickUtils.stringToHash (complete_body "s") "test-secret-key".
Proof.
  split; [reflexivity|].
  apply (proj1 (signature_does_not_bind_field_boundaries MD5.md5_hex
                  "test-secret-key" (complete_body "s") "prepare-123"
                  eq_refl eq_refl ltac:(discriminate))).
Defined.

(** ** The digest token of the Click API *)

(** X5. With a digest in hexadecimal, the token has three colon-separated
    parts when the user id holds no colon: the user id, the digest of the
    time in seconds followed by the secret, and the time in seconds.  Two
    tokens for the same user and secret are equal exactly when they are
    made within the same second. *)
Theorem digest_token_changes_every_second (sha1_hex : string -> string)
    (now later : Z) (merchantUserId secretKey : string) :
  (forall s, contains ":" (sha1_hex s) = false) ->
  (contains ":" merchantUserId = false ->
   split ":" (ClickApi.getDigestAuthToken sha1_hex now merchantUserId secretKey)
   = [merchantUserId;
      sha1_hex (string_of_Z (now / 1000) ++ secretKey);
      string_of_Z (now / 1000)])
  /\ (ClickApi.getDigestAuthToken sha1_hex now merchantUserId secretKey
      = ClickApi.getDigestAuthToken sha1_hex later merchantUserId secretKey
      <-> now / 1000 = later / 1000).
Proof.
  intros Hhex. unfold ClickApi.getDigestAuthToken.
  assert (Hts : forall z, contains ":" (string_of_Z z) = false)
    by (intros z; now apply string_of_Z_numeral).
  assert (Htail : forall d t,
    contains ":" d = false -> contains ":" t = false ->
    split ":" (d ++ String ":" t) = [d; t]).
  { intros d t Hd Ht.
    rewrite split_first_segment by assumption.
    now rewrite split_without_separator. }
  split.
  - intros Huser. cbn [append].
    rewrite split_first_segment by assumption.
    now rewrite Htail.
  - split.
    + intros Heq. apply append_cancel_l in Heq. cbn [append] in Heq.
      injection Heq as Heq.
      apply (f_equal (split ":")) in Heq.
      rewrite !Htail in Heq by auto.
      injection Heq as _ Heq. now apply string_of_Z_inj.
    + now intros ->.
Qed.

Lemma digest_token_changes_every_second_witness :
  split ":"
    (ClickApi.getDigestAuthToken fixed_digest 1700000000999 "test-user-id"
       "test-secret-key")
  = ["test-user-id"; "da39a3ee5e6b4b0d3255bfef95601890afd80709"; "1700000000"].
Proof.
  apply (proj1 (digest_token_changes_every_second fixed_digest 1700000000999
                  0 "test-user-id" "test-secret-key"
                  (fun _ => eq_refl))).
  reflexivity.
Defined.

(** ** The invoice URL of Click *)

Lemma encode_byte_has_no_separator (c : ascii) :
  contains "&" (URLSearchParams.encode_byte c) = false.
Proof.
  destruct c as [[] [] [] [] [] [] [] []]; reflexivity.
Qed.

(** An encoded string holds no ampersand. *)
Lemma encode_has_no_separator (s : string) :
  contains "&" (URLSearchParams.encode s) = false.
Proof.
  induction s as [|c s IH]; simpl; [reflexivity|].
  now rewrite contains_append, encode_byte_has_no_separator, IH.
Qed.

Lemma numeral_char_is_kept (c : ascii) :
  numeral_char c = true -> URLSearchParams.encode_byte c = String c "".
Proof.
  destruct c as [[] [] [] [] [] [] [] []]; vm_compute;
    first [reflexivity | discriminate].
Qed.

(** A string of digits and minus signs is encoded as itself. *)
Lemma encode_numeral_text (s : string) :
  (forall c, numeral_char c = false -> contains c s = false) ->
  URLSearchParams.encode s = s.
Proof.
  induction s as [|d s IH]; intros Hchars; simpl; [reflexivity|].
  assert (Hd : numeral_char d = true).
  { destruct (numeral_char d) eqn:Hn; [reflexivity|].
    specialize (Hchars d Hn). simpl in Hchars.
    now rewrite Ascii.eqb_refl in Hchars. }
  rewrite (numeral_char_is_kept d Hd). simpl. f_equal.
  apply IH. intros c Hc. specialize (Hchars c Hc). simpl in Hchars.
  now apply orb_false_elim in Hchars.
Qed.

(** A decimal numeral is encoded as itself. *)
Lemma encode_numeral (z : Z) :
  URLSearchParams.encode (string_of_Z z) = string_of_Z z.
Proof.
  apply encode_numeral_text. intros c. apply string_of_Z_numeral.
Qed.

(** X6. The invoice URL of Click is the fixed base, a question mark and a
    query that splits at its ampersands into exactly the five items
    service_id, merchant_id, amount, transaction_param and return_url, in
    this order, followed by card_type when a card type is given.  Every
    value is encoded, the text of the amount included, so no value can add
    a parameter; an amount whose text is a plain numeral appears as this
    numeral. *)
Theorem click_invoice_query_items (config : ClickClient.ClickConfig)
    (Number_toString : float -> string)
    (p : ClickApi.ClickGenerateInvoiceParams) :
  exists query,
    ClickApi.generateInvoiceUrl config Number_toString p
    = "https://my.click.uz/services/pay?" ++ query
    /\ split "&" query = invoice_items config Number_toString p
    /\ ((forall c, numeral_char c = false ->
                   contains c (Number_toString (ClickApi.gi_amount p))
                   = false) ->
        nth_error (split "&" query) 2
        = Some ("amount=" ++ Number_toString (ClickApi.gi_amount p))).
Proof.
  exists (URLSearchParams.toString
            (ClickApi.invoiceQuery config Number_toString p)).
  split; [reflexivity|].
  assert (Hitems :
    List.map (fun kv => URLSearchParams.encode (fst kv) ++ "="
                        ++ URLSearchParams.encode (snd kv))
      (ClickApi.invoiceQuery config Number_toString p)
    = invoice_items config Number_toString p).
  { unfold ClickApi.invoiceQuery, invoice_items.
    destruct (ClickApi.cardType p) as [[]|]; reflexivity. }
  assert (Hsplit :
    split "&" (URLSearchParams.toString
                 (ClickApi.invoiceQuery config Number_toString p))
    = invoice_items config Number_toString p).
  { unfold URLSearchParams.toString. rewrite Hitems.
    apply split_join.
    - unfold invoice_items. discriminate.
    - unfold invoice_items.
      destruct (ClickApi.cardType p) as [[]|]; cbn [List.app];
        repeat apply Forall_cons; try apply Forall_nil;
        cbn [append contains Ascii.eqb Bool.eqb orb];
        rewrite ?encode_has_no_separator; reflexivity. }
  split; [exact Hsplit|].
  intros Hnumeral. rewrite Hsplit. unfold invoice_items.
  cbn [List.app nth_error]. now rewrite (encode_numeral_text _ Hnumeral).
Qed.

Example test_click_invoice_url :
  ClickApi.generateInvoiceUrl sample_click_config toString_of_integer
    (sample_invoice 5000 "order-456" None)
  = "https://my.click.uz/services/pay?service_id=test-service-id&merchant_id=test-merchant-id&amount=5000&transaction_param=order-456&return_url=https%3A%2F%2Fexample.com%2Fsuccess".
Proof. vm_compute. reflexivity. Qed.

Example test_click_invoice_url_with_spaces_and_card_type :
  split "&"
    (substring_from 33
       (ClickApi.generateInvoiceUrl sample_click_config toString_of_integer
          (sample_invoice 5000 "order with spaces&amount=1"
             (Some ClickApi.uzcard))))
  = ["service_id=test-service-id"; "merchant_id=test-merchant-id";
     "amount=5000"; "transaction_param=order+with+spaces%26amount%3D1";
     "return_url=https%3A%2F%2Fexample.com%2Fsuccess"; "card_type=uzcard"].
Proof. vm_compute. reflexivity. Qed.

(** From 1e21 on the text of a number is in exponent notation, and its
    plus sign is encoded. *)
Example test_click_invoice_url_of_a_large_amount :
  nth_error
    (split "&"
       (substring_from 33
          (ClickApi.generateInvoiceUrl sample_click_config
             (fun _ => "1e+21") (sample_invoice 1e21 "order-456" None)))) 2
  = Some "amount=1e%2B21".
Proof. vm_compute. reflexivity. Qed.

(** ** HttpClient *)

Lemma get_replace_key (k name : string) (value : HttpClient.HeaderValue)
    (o : HttpClient.Dictionary) :
  HttpClient.has_key name o = true ->
  HttpClient.get_key k (HttpClient.replace_key name value o)
  = if String.eqb name k then Some value else HttpClient.get_key k o.
Proof.
  unfold HttpClient.has_key.
  induction o as [|[k0 v0] rest IH]; simpl; [discriminate|].
  destruct (String.eqb_spec k0 name) as [-> | Hk0]; simpl.
  - intros _. now destruct (String.eqb name k).
  - intros Hhas. rewrite (IH Hhas).
    destruct (String.eqb_spec k0 k) as [-> | Hk]; [|reflexivity].
    destruct (String.eqb_spec name k); [congruence | reflexivity].
Qed.

Lemma get_add_key (k name : string) (value : HttpClient.HeaderValue)
    (o : HttpClient.Dictionary) :
  HttpClient.has_key name o = false ->
  HttpClient.get_key k (HttpClient.add_key name value o)
  = if String.eqb name k then Some value else HttpClient.get_key k o.
Proof.
  unfold HttpClient.has_key.
  induction o as [|[k0 v0] rest IH]; [reflexivity|].
  cbn [HttpClient.get_key HttpClient.add_key].
  destruct (String.eqb_spec k0 name) as [-> | Hk0]; [discriminate|].
  intros Hhas.
  assert (Hrest :
    HttpClient.get_key k ((k0, v0) :: HttpClient.add_key name value rest)
    = if String.eqb name k then Some value
      else if String.eqb k0 k then Some v0 else HttpClient.get_key k rest).
  { cbn [HttpClient.get_key]. rewrite (IH Hhas).
    destruct (String.eqb_spec k0 k) as [-> | Hk]; [|reflexivity].
    destruct (String.eqb_spec name k); [congruence | reflexivity]. }
  destruct (HttpClient.array_index name) as [i|];
    [destruct (HttpClient.array_index k0) as [i0|];
     [destruct (i <? i0)|]|];
    first [exact Hrest | reflexivity].
Qed.

Lemma get_set_key (k name : string) (value : HttpClient.HeaderValue)
    (o : HttpClient.Dictionary) :
  HttpClient.get_key k (HttpClient.set_key name value o)
  = if String.eqb name k then Some value else HttpClient.get_key k o.
Proof.
  unfold HttpClient.set_key.
  destruct (HttpClient.has_key name o) eqn:Hhas.
  - now apply get_replace_key.
  - now apply get_add_key.
Qed.

Lemma get_key_app (k : string) (a b : HttpClient.Dictionary) :
  HttpClient.get_key k (a ++ b)%list
  = match HttpClient.get_key k a with
    | Some v => Some v
    | None => HttpClient.get_key k b
    end.
Proof.
  induction a as [|[k0 v0] a IH]; simpl; [reflexivity|].
  now destruct (String.eqb k0 k).
Qed.

(** In [{ ...base, ...extra }] the last value given in [extra] wins, and
    the keys of [base] that [extra] does not give keep their value. *)
Lemma get_spread (k : string) (base extra : HttpClient.Dictionary) :
  HttpClient.get_key k (HttpClient.spread base extra)
  = match HttpClient.get_key k (rev extra) with
    | Some v => Some v
    | None => HttpClient.get_key k base
    end.
Proof.
  unfold HttpClient.spread. revert base.
  induction extra as [|[name value] extra IH]; intros base; simpl;
    [reflexivity|].
  rewrite IH, get_key_app, get_set_key. simpl.
  destruct (HttpClient.get_key k (rev extra)); [reflexivity|].
  now destruct (String.eqb name k).
Qed.

(** A value that is looked up is a value of the dictionary. *)
Lemma get_key_In (k : string) (v : HttpClient.HeaderValue)
    (o : HttpClient.Dictionary) :
  HttpClient.get_key k o = Some v -> In (k, v) o.
Proof.
  induction o as [|[k0 v0] rest IH]; simpl; [discriminate|].
  destruct (String.eqb_spec k0 k) as [-> | Hk].
  - intros [= ->]. now left.
  - intros Hget. right. now apply IH.
Qed.

(** The elements of an array are spread as arrays, not as strings. *)
Lemma indexed_values (i : nat) (items : list (list string)) (k : string)
    (v : HttpClient.HeaderValue) :
  In (k, v) (HttpClient.indexed i items) ->
  exists item, v = HttpClient.Items item.
Proof.
  revert i. induction items as [|item rest IH]; intros i; simpl;
    [contradiction|].
  intros [[= _ <-] | Hin]; [now exists item | now apply (IH (S i))].
Qed.

(** X7. [post] sends the method POST, the stringified body and the
    caller's timeout, and merges the own properties of [options.headers]
    over its two defaults.  For a plain object every header that the caller
    passes reaches [fetch] with the caller's value, also when it replaces
    Content-Type or Accept, and these two are "application/json" when the
    caller does not pass them.  An instance of [Headers] has no such
    property: [fetch] receives the two defaults and none of the caller's
    headers.  An array of pairs is spread under its indices: the only
    headers with a string value that [fetch] receives are the defaults. *)
Theorem post_merges_the_own_properties_of_the_headers {T : Type}
    (fetch : string -> HttpClient.RequestOptions -> Z ->
             outcome HttpClient.Response)
    (JSON_parse : string -> outcome T) (empty_object : T)
    (baseUrl endpoint stringified : string)
    (options : HttpClient.RequestOptions) :
  exists merged,
    HttpClient.post fetch JSON_parse empty_object baseUrl endpoint
      stringified options
    = HttpClient.request fetch JSON_parse empty_object baseUrl endpoint
        {| HttpClient.timeout := HttpClient.timeout options;
           HttpClient.method := Some "POST";
           HttpClient.body := Some stringified;
           HttpClient.headers := Some (HttpClient.Plain merged) |}
    /\ (forall fields name,
          HttpClient.headers options = Some (HttpClient.Plain fields) ->
          HttpClient.get_key name merged
          = match HttpClient.get_key name (rev fields) with
            | Some value => Some value
            | None => HttpClient.get_key name default_headers
            end)
    /\ (HttpClient.headers options = None -> merged = default_headers)
    /\ (forall entries,
          HttpClient.headers options = Some (HttpClient.Instance entries) ->
          merged = default_headers)
    /\ (forall items name value,
          HttpClient.headers options = Some (HttpClient.Pairs items) ->
          HttpClient.get_key name merged = Some (HttpClient.Text value) ->
          HttpClient.get_key name default_headers
          = Some (HttpClient.Text value)).
Proof.
  eexists. split; [reflexivity|]. split; [|split; [|split]].
  - intros fields name ->. apply get_spread.
  - now intros ->.
  - now intros entries ->.
  - intros items name value ->. cbn [HttpClient.own_properties].
    fold default_headers. rewrite get_spread.
    destruct (HttpClient.get_key name (rev (HttpClient.indexed 0 items)))
      as [v|] eqn:Hget; [|trivial].
    intros [= ->]. apply get_key_In in Hget. apply in_rev in Hget.
    apply indexed_values in Hget. destruct Hget as (item & Hitem).
    discriminate.
Qed.

(** X8. On top of [HttpClient], a Click charge whose HTTP call is answered
    with a status outside 2xx throws a plain [Error], never a
    [ClickError]: its message is "Click API request failed: " followed by
    the "HTTP error!" message with the status and the body.  The call that
    is made is a POST to the payment endpoint of the Click API with the
    headers Content-Type, Accept and Auth. *)
Theorem click_http_error_is_a_plain_error
    (getDigestAuthToken : string -> string -> string)
    (config : ClickClient.ClickConfig)
    (fetch : string -> HttpClient.RequestOptions -> Z ->
             outcome HttpClient.Response)
    (JSON_parse : string -> outcome ClickChargeFromCardTokenResponse.t)
    (empty_object : ClickChargeFromCardTokenResponse.t)
    (JSON_stringify : option ClickClient.RequestBody -> string)
    (params : ClickClient.ProcessPaymentParams)
    (response : HttpClient.Response) (errorBody : string) :
  fetch "https://api.click.uz/v2/merchant/card_token/payment"
    {| HttpClient.timeout := None;
       HttpClient.method := Some "POST";
       HttpClient.body :=
         Some (JSON_stringify
                 (Some (ClickClient.CardTokenPaymentBody
                          (ClickClient.serviceId config)
                          (ClickClient.cardToken params)
                          (ClickClient.pp_amount params)
                          (ClickClient.orderId params))));
       HttpClient.headers :=
         Some (HttpClient.Plain
                 [("Content-Type", HttpClient.Text "application/json");
                  ("Accept", HttpClient.Text "application/json");
                  ("Auth",
                   HttpClient.Text
                     (getDigestAuthToken (ClickClient.merchantUserId config)
                        (ClickClient.secretKey config)))]) |}
    8000
  = Returned response ->
  HttpClient.ok response = false ->
  HttpClient.text response = Returned errorBody ->
  ClickClient.chargeFromCardToken getDigestAuthToken config
    (OverHttp.click fetch JSON_parse empty_object JSON_stringify) params
  = Threw (JsError ("Click API request failed: HTTP error! status: "
                    ++ string_of_Z (HttpClient.status response)
                    ++ ", body: " ++ errorBody)).
Proof.
  intros Hfetch Hok Htext.
  unfold ClickClient.chargeFromCardToken, ClickClient.request, OverHttp.click,
    HttpClient.post, HttpClient.request.
  cbn -[string_of_Z].
  match type of Hfetch with
  | ?call = _ =>
      match goal with
      | |- context [fetch ?u ?i ?d] => change (fetch u i d) with call
      end
  end.
  rewrite Hfetch, Hok, Htext. reflexivity.
Qed.

Lemma click_http_error_is_a_plain_error_witness :
  ClickClient.chargeFromCardToken sample_digest sample_click_config
    (OverHttp.click
       (fetch_answering (http_response false 500 "Internal Server Error"))
       parse_failing empty_charge_response stringify_stub)
    sample_click_charge
  = Threw (JsError
      "Click API request failed: HTTP error! status: 500, body: Internal Server Error").
Proof.
  apply (click_http_error_is_a_plain_error sample_digest sample_click_config
           (fetch_answering (http_response false 500 "Internal Server Error"))
           parse_failing empty_charge_response stringify_stub
           sample_click_charge
           (http_response false 500 "Internal Server Error")
           "Internal Server Error"); reflexivity.
Defined.

(** An empty 2xx body is read as [{}], which carries no error code: the
    charge returns it as a failed payment without id. *)
Example test_click_charge_on_an_empty_body :
  ClickClient.chargeFromCardToken sample_digest sample_click_config
    (OverHttp.click (fetch_answering (http_response true 200 ""))
       parse_failing empty_charge_response stringify_stub)
    sample_click_charge
  = Returned {| ClickClient.transactionId := None;
                ClickClient.status := FAILED |}.
Proof. reflexivity. Qed.

(** An array of pairs is spread under its index, before the other keys;
    an instance of [Headers] adds nothing. *)
Example test_spread_of_headers_that_are_not_a_plain_object :
  HttpClient.spread default_headers
    (HttpClient.own_properties (HttpClient.Pairs [["X-Trace"; "abc"]]))
  = [("0", HttpClient.Items ["X-Trace"; "abc"]);
     ("Content-Type", HttpClient.Text "application/json");
     ("Accept", HttpClient.Text "application/json")]
  /\ HttpClient.spread default_headers
       (HttpClient.own_properties (HttpClient.Instance [("X-Trace", "abc")]))
     = default_headers.
Proof. split; reflexivity. Qed.

(** ** The Payme client *)

(** X9. On top of [HttpClient], a Payme charge whose first HTTP call is
    answered with an empty 2xx body throws the typed error -32000
    ("Received empty result from Payme API."), and one answered with a
    status outside 2xx throws the plain "HTTP error!" [Error] unchanged.
    In both cases only the [receipts.create] request was posted. *)
Theorem payme_http_failures (requestId : nat -> string)
    (fetch : nat -> string -> HttpClient.RequestOptions -> Z ->
             outcome HttpClient.Response)
    (JSON_parse : string -> outcome PaymeClient.PaymeJsonRpcResponse)
    (JSON_stringify : PaymeClient.PaymeJsonRpcRequest -> string)
    (config : PaymeClient.PaymeConfig)
    (params : PaymeClient.ProcessPaymentParams)
    (readIdError : string)
    (posted : list PaymeClient.PaymeJsonRpcRequest)
    (response : HttpClient.Response) (content : string) :
  (forall url init delay,
     fetch (List.length posted) url init delay = Returned response) ->
  HttpClient.text response = Returned content ->
  let run :=
    PaymeClient.chargeFromCardToken requestId
      (OverHttp.payme fetch JSON_parse JSON_stringify config) config
      readIdError params posted in
  let create := create_request requestId params (List.length posted) in
  (HttpClient.ok response = true -> content = "" ->
   run = (Threw (PaymeError "Received empty result from Payme API."
                   (-32000) None), (posted ++ [create])%list))
  /\ (HttpClient.ok response = false ->
      run = (Threw (JsError ("HTTP error! status: "
                             ++ string_of_Z (HttpClient.status response)
                             ++ ", body: " ++ content)),
             (posted ++ [create])%list)).
Proof.
  intros Hfetch Htext run create. subst run create.
  unfold PaymeClient.chargeFromCardToken, PaymeClient.bind,
    PaymeClient.request, PaymeClient.bind, PaymeClient.httpPost,
    OverHttp.payme, HttpClient.post, HttpClient.request, create_request.
  rewrite Hfetch, Htext.
  split.
  - intros -> ->. reflexivity.
  - intros ->. reflexivity.
Qed.

Lemma payme_http_failures_witness :
  PaymeClient.chargeFromCardToken sample_requestId
    (OverHttp.payme (fetch_always (http_response true 200 "")) parse_failing
       stringify_stub sample_payme_config)
    sample_payme_config v8_readIdError (sample_charge 1000) []
  = (Threw (PaymeError "Received empty result from Payme API." (-32000) None),
     [create_request sample_requestId (sample_charge 1000) 0])
  /\ PaymeClient.chargeFromCardToken sample_requestId
       (OverHttp.payme (fetch_always (http_response false 502 "Bad Gateway"))
          parse_failing stringify_stub sample_payme_config)
       sample_payme_config v8_readIdError (sample_charge 1000) []
     = (Threw (JsError "HTTP error! status: 502, body: Bad Gateway"),
        [create_request sample_requestId (sample_charge 1000) 0]).
Proof.
  split.
  - apply (proj1 (payme_http_failures sample_requestId
                    (fetch_always (http_response true 200 "")) parse_failing
                    stringify_stub sample_payme_config (sample_charge 1000)
                    v8_readIdError [] (http_response true 200 "") ""
                    (fun _ _ _ => eq_refl) eq_refl)); reflexivity.
  - apply (proj2 (payme_http_failures sample_requestId
                    (fetch_always (http_response false 502 "Bad Gateway"))
                    parse_failing stringify_stub sample_payme_config
                    (sample_charge 1000) v8_readIdError []
                    (http_response false 502 "Bad Gateway") "Bad Gateway"
                    (fun _ _ _ => eq_refl) eq_refl)); reflexivity.
Defined.

Section PaymeCalls.

Variable requestId : nat -> string.
Variable config : PaymeClient.PaymeConfig.

(** What [request] does with the answer of the transport. *)
Lemma payme_request_cases {R : Type}
    (post : nat -> PaymeApi.JsonRpcRequest -> string ->
            outcome (PaymeApi.JsonRpcResponse R))
    (name : string) (payload : json) (posted : list PaymeApi.JsonRpcRequest) :
  let sent := rpc requestId (List.length posted) name payload in
  PaymeApi.request requestId post config name payload posted
  = (match post (List.length posted) sent (PaymeClient.checkoutKey config) with
     | Threw e => Threw e
     | Returned response =>
         match PaymeApi.error response, PaymeApi.result response with
         | Some e, _ => Threw (fromJsonRpcError e)
         | None, None =>
             Threw (PaymeError "Received empty result from Payme API."
                      (-32000) None)
         | None, Some r => Returned r
         end
     end, (posted ++ [sent])%list).
Proof.
  unfold PaymeApi.request, rpc. cbv zeta.
  destruct (post _ _ _) as [response | e]; [|reflexivity].
  destruct (PaymeApi.error response); [reflexivity|].
  destruct (PaymeApi.result response); reflexivity.
Qed.

(** X10. Every JSON-RPC call of the Payme client posts exactly one request
    and never retries.  An [error] in the answer wins over a [result]: the
    call throws a [PaymeError] with the code and data of that error and a
    non-empty message.  The call returns a result only when the answer
    holds that result and no error. *)
Theorem payme_request_error_wins {R : Type}
    (post : nat -> PaymeApi.JsonRpcRequest -> string ->
            outcome (PaymeApi.JsonRpcResponse R))
    (name : string) (payload : json) (posted : list PaymeApi.JsonRpcRequest) :
  let sent := rpc requestId (List.length posted) name payload in
  let run := PaymeApi.request requestId post config name payload posted in
  snd run = (posted ++ [sent])%list
  /\ (forall response e,
        post (List.length posted) sent (PaymeClient.checkoutKey config)
        = Returned response ->
        PaymeApi.error response = Some e ->
        exists message,
          fst run = Threw (PaymeError message (err_code e) (err_data e))
          /\ message <> "")
  /\ (forall r,
        fst run = Returned r ->
        exists response,
          post (List.length posted) sent (PaymeClient.checkoutKey config)
          = Returned response
          /\ PaymeApi.error response = None
          /\ PaymeApi.result response = Some r).
Proof.
  intros sent run. subst run. rewrite payme_request_cases. fold sent.
  split; [reflexivity|]. split.
  - intros response e -> ->. simpl.
    destruct (fromJsonRpcError_shape e) as (message & -> & Hmessage).
    now exists message.
  - intros r. simpl.
    destruct (post _ _ _) as [response | e]; [|discriminate].
    destruct (PaymeApi.error response) eqn:He; [discriminate|].
    destruct (PaymeApi.result response) eqn:Hr; [|discriminate].
    intros [= ->]. now exists response.
Qed.

End PaymeCalls.

Lemma payme_request_error_wins_witness :
  exists message,
    fst (PaymeApi.request sample_requestId
           (provider_failing error_russian_only verified_card)
           sample_payme_config "cards.create" (JObj []) [])
    = Threw (PaymeError message (-32000) None)
    /\ message <> "".
Proof.
  apply (proj1 (proj2 (payme_request_error_wins sample_requestId
                         sample_payme_config
                         (provider_failing error_russian_only verified_card)
                         "cards.create" (JObj []) []))
           {| PaymeApi.result := Some verified_card;
              PaymeApi.error := Some error_russian_only |}
           error_russian_only eq_refl eq_refl).
Defined.

Section PaymeOperations.

Variable requestId : nat -> string.
Variable config : PaymeClient.PaymeConfig.

(** X11. [createCardToken] of the Payme client posts one [cards.create]
    request that asks to save the card unless the caller passed
    [save: false], and, when the provider answers with a card, returns its
    token with [requiresVerification] equal to the negation of the card's
    [verify] flag: a card that is already verified needs no SMS step. *)
Theorem payme_createCardToken_contract
    (post : nat -> PaymeApi.JsonRpcRequest -> string ->
            outcome (PaymeApi.JsonRpcResponse PaymeApi.PaymeCreateCardResult))
    (number expire : string) (save : option bool)
    (posted : list PaymeApi.JsonRpcRequest) :
  let p := {| ClickClient.cardNumber := number;
              ClickClient.expireDate := expire;
              ClickClient.save := save |} in
  let keep := match save with Some false => false | _ => true end in
  let sent :=
    rpc requestId (List.length posted) "cards.create"
      (JObj [("card", JObj [("number", JStr number);
                            ("expire", JStr expire)]);
             ("save", JBool keep)]) in
  let run := PaymeApi.createCardToken requestId config post p posted in
  snd run = (posted ++ [sent])%list
  /\ (forall response r,
        post (List.length posted) sent (PaymeClient.checkoutKey config)
        = Returned response ->
        PaymeApi.error response = None ->
        PaymeApi.result response = Some r ->
        fst run
        = Returned (PaymeApi.token (PaymeApi.card r),
                    negb (PaymeApi.verify (PaymeApi.card r)))).
Proof.
  intros p keep sent run. subst run.
  unfold PaymeApi.createCardToken. rewrite payme_request_cases.
  assert (Hsent :
    rpc requestId (List.length posted) "cards.create"
      (JObj [("card", JObj [("number", JStr (ClickClient.cardNumber p));
                            ("expire", JStr (ClickClient.expireDate p))]);
             ("save", JBool (match ClickClient.save p with
                             | Some b => b
                             | None => true
                             end))]) = sent).
  { subst sent keep p. simpl. now destruct save as [[]|]. }
  rewrite Hsent. unfold PaymeApi.andThen.
  split.
  - destruct (post _ _ _) as [response | e]; [|reflexivity].
    destruct (PaymeApi.error response); [reflexivity|].
    destruct (PaymeApi.result response); reflexivity.
  - intros response r -> -> ->. reflexivity.
Qed.

(** X12. [checkReceiptStatus] returns SUCCESS exactly when the provider
    returned, without error, a result whose state is 2; an answer without
    a state is reported as FAILED, not thrown.  [cancelReceipt] posts one
    [receipts.cancel] request and, for an answer with a result and no
    error, returns the receipt of that answer with its id and its
    normalized state, or throws the TypeError of the engine when the
    result holds no receipt. *)
Theorem payme_receipt_status_is_normalized (readIdError : string)
    (postCheck : nat -> PaymeApi.JsonRpcRequest -> string ->
            outcome (PaymeApi.JsonRpcResponse PaymeApi.PaymeCheckReceiptResult))
    (postCancel : nat -> PaymeApi.JsonRpcRequest -> string ->
            outcome (PaymeApi.JsonRpcResponse
                       PaymeClient.PaymeCreateReceiptResult))
    (receiptId : string) (posted : list PaymeApi.JsonRpcRequest) :
  let n := List.length posted in
  let key := PaymeClient.checkoutKey config in
  let check := rpc requestId n "receipts.check"
                 (JObj [("id", JStr receiptId)]) in
  let cancel := rpc requestId n "receipts.cancel"
                  (JObj [("id", JStr receiptId)]) in
  (fst (PaymeApi.checkReceiptStatus requestId config postCheck receiptId
          posted) = Returned SUCCESS
   <-> exists response,
         postCheck n check key = Returned response
         /\ PaymeApi.error response = None
         /\ PaymeApi.result response
            = Some {| PaymeApi.state := Some 2 |})
  /\ (forall response,
        postCheck n check key = Returned response ->
        PaymeApi.error response = None ->
        PaymeApi.result response = Some {| PaymeApi.state := None |} ->
        PaymeApi.checkReceiptStatus requestId config postCheck receiptId
          posted
        = (Returned FAILED, (posted ++ [check])%list))
  /\ (forall response r,
        postCancel n cancel key = Returned response ->
        PaymeApi.error response = None ->
        PaymeApi.result response = Some r ->
        PaymeApi.cancelReceipt requestId config readIdError postCancel
          receiptId posted
        = (match PaymeClient.receipt r with
           | Some cancelled =>
               Returned
                 {| PaymeClient.transactionId := PaymeClient._id cancelled;
                    PaymeClient.status :=
                      getStatusFromPaymeReceiptState
                        (PaymeClient.state cancelled);
                    PaymeClient.prr_receipt := cancelled |}
           | None => Threw (JsError readIdError)
           end, (posted ++ [cancel])%list)).
Proof.
  intros n key check cancel.
  unfold PaymeApi.checkReceiptStatus, PaymeApi.cancelReceipt.
  rewrite !payme_request_cases. fold n key check cancel.
  unfold PaymeApi.andThen.
  split; [|split].
  - split.
    + destruct (postCheck n check key) as [response | e]; [|discriminate].
      destruct (PaymeApi.error response) eqn:He; [discriminate|].
      destruct (PaymeApi.result response) as [[st]|] eqn:Hr; [|discriminate].
      simpl. intros [= Hst].
      assert (Hpaid : st = Some 2).
      { destruct st as [[|q|q]|]; try discriminate.
        small_positive q; try discriminate. reflexivity. }
      subst st. now exists response.
    + intros (response & -> & -> & ->). reflexivity.
  - intros response -> -> ->. reflexivity.
  - intros response r -> -> ->.
    destruct (PaymeClient.receipt r); reflexivity.
Qed.

End PaymeOperations.

Lemma payme_createCardToken_contract_witness :
  fst (PaymeApi.createCardToken sample_requestId sample_payme_config
         (provider_answering verified_card) sample_card [])
  = Returned ("test-card-token", false).
Proof.
  apply (proj2 (payme_createCardToken_contract sample_requestId
                  sample_payme_config (provider_answering verified_card)
                  "8600123456789012" "1225" None [])
           {| PaymeApi.result := Some verified_card;
              PaymeApi.error := None |} verified_card);
    reflexivity.
Defined.

Lemma payme_receipt_status_is_normalized_witness :
  PaymeApi.cancelReceipt sample_requestId sample_payme_config v8_readIdError
    (provider_answering
       {| PaymeClient.receipt :=
            Some (sample_receipt (Some "receipt-123") 4) |})
    "receipt-123" []
  = (Returned
       {| PaymeClient.transactionId := Some "receipt-123";
          PaymeClient.status := CANCELLED;
          PaymeClient.prr_receipt := sample_receipt (Some "receipt-123") 4 |},
     [rpc sample_requestId 0 "receipts.cancel"
        (JObj [("id", JStr "receipt-123")])]).
Proof.
  apply (proj2 (proj2 (payme_receipt_status_is_normalized sample_requestId
                         sample_payme_config v8_readIdError
                         (provider_answering {| PaymeApi.state := None |})
                         (provider_answering
                            {| PaymeClient.receipt :=
                                 Some (sample_receipt (Some "receipt-123")
                                         4) |})
                         "receipt-123" []))
           {| PaymeApi.result :=
                Some {| PaymeClient.receipt :=
                          Some (sample_receipt (Some "receipt-123") 4) |};
              PaymeApi.error := None |}
           {| PaymeClient.receipt :=
                Some (sample_receipt (Some "receipt-123") 4) |});
    reflexivity.
Defined.

(** X13. A Payme charge returns a result only after both calls succeeded:
    then exactly two requests were posted, [receipts.create] and
    [receipts.pay], the pay call was answered with a result and no error,
    and the returned transaction id, receipt and status are those of the
    receipt in that result. *)
Theorem payme_charge_returns_after_both_calls
    (requestId : nat -> string)
    (post : nat -> PaymeClient.PaymeJsonRpcRequest -> string ->
            outcome PaymeClient.PaymeJsonRpcResponse)
    (config : PaymeClient.PaymeConfig) (readIdError : string)
    (params : PaymeClient.ProcessPaymentParams)
    (posted : list PaymeClient.PaymeJsonRpcRequest)
    (charged : PaymeClient.ProcessedReceiptResult) :
  let run := PaymeClient.chargeFromCardToken requestId post config
               readIdError params posted in
  let n := List.length posted in
  fst run = Returned charged ->
  exists receiptId response payResult paid,
    snd run
    = (posted ++ [create_request requestId params n;
                  pay_request requestId params (S n) receiptId])%list
    /\ post (S n) (pay_request requestId params (S n) receiptId)
         (PaymeClient.checkoutKey config) = Returned response
    /\ PaymeClient.error response = None
    /\ PaymeClient.result response = Some payResult
    /\ PaymeClient.receipt payResult = Some paid
    /\ charged
       = {| PaymeClient.transactionId := PaymeClient._id paid;
            PaymeClient.status :=
              getStatusFromPaymeReceiptState (PaymeClient.state paid);
            PaymeClient.prr_receipt := paid |}.
Proof.
  intros run n. subst run. rewrite charge_cases. fold n.
  destruct (fst (PaymeClient.request requestId post config "receipts.create"
                   _ posted)) as [createResult | e]; [|discriminate].
  destruct (PaymeClient.receipt createResult) as [created|]; [|discriminate].
  destruct (PaymeClient._id created) as [receiptId|]; [|discriminate].
  destruct (String.eqb receiptId ""); [discriminate|].
  pose proof (request_posts_once requestId post config "receipts.pay"
    (PaymeClient.req_params (pay_request requestId params (S n) receiptId))
    (posted ++ [create_request requestId params n])%list) as Hlog.
  pose proof (request_returns requestId post config "receipts.pay"
    (PaymeClient.req_params (pay_request requestId params (S n) receiptId))
    (posted ++ [create_request requestId params n])%list) as Hret.
  rewrite List.length_app, Nat.add_1_r in Hlog, Hret. fold n in Hlog, Hret.
  change {| PaymeClient.req_id := requestId (S n);
            PaymeClient.req_method := "receipts.pay";
            PaymeClient.req_params :=
              PaymeClient.req_params
                (pay_request requestId params (S n) receiptId) |}
    with (pay_request requestId params (S n) receiptId) in Hlog, Hret.
  destruct (PaymeClient.request requestId post config "receipts.pay" _ _)
    as [[payResult | e] log]; simpl in Hlog, Hret; subst log;
    [|discriminate].
  destruct (Hret payResult eq_refl) as (response & Hpost & Herr & Hres).
  destruct (PaymeClient.receipt payResult) as [paid|] eqn:Hpaid;
    [|discriminate].
  simpl. intros [= <-].
  exists receiptId, response, payResult, paid.
  rewrite <- List.app_assoc. now repeat split.
Qed.

Lemma payme_charge_returns_after_both_calls_witness :
  exists receiptId response payResult paid,
    snd (PaymeClient.chargeFromCardToken sample_requestId provider_paying
           sample_payme_config v8_readIdError (sample_charge 1000) [])
    = [create_request sample_requestId (sample_charge 1000) 0;
       pay_request sample_requestId (sample_charge 1000) 1 receiptId]
    /\ provider_paying 1
         (pay_request sample_requestId (sample_charge 1000) 1 receiptId)
         "test-checkout-key" = Returned response
    /\ PaymeClient.error response = None
    /\ PaymeClient.result response = Some payResult
    /\ PaymeClient.receipt payResult = Some paid
    /\ {| PaymeClient.transactionId := Some "receipt-123";
          PaymeClient.status := SUCCESS;
          PaymeClient.prr_receipt := sample_receipt (Some "receipt-123") 2 |}
       = {| PaymeClient.transactionId := PaymeClient._id paid;
            PaymeClient.status :=
              getStatusFromPaymeReceiptState (PaymeClient.state paid);
            PaymeClient.prr_receipt := paid |}.
Proof.
  apply (payme_charge_returns_after_both_calls sample_requestId
           provider_paying sample_payme_config v8_readIdError
           (sample_charge 1000) []).
  reflexivity.
Defined.

(** ** The Click client *)

Section ClickOperations.

Variable getDigestAuthToken : string -> string -> string.
Variable config : ClickClient.ClickConfig.

(** [request] turns whatever the transport throws into a plain [Error]. *)
Lemma click_request_throws_plain_errors {B T : Type}
    (http : ClickClient.HttpVerb -> string -> option B -> string -> outcome T)
    (verb : ClickClient.HttpVerb) (endpoint : string) (body : option B)
    (e : exn) :
  ClickApi.request getDigestAuthToken config http verb endpoint body = Threw e ->
  exists message, e = JsError message.
Proof.
  unfold ClickApi.request.
  destruct verb;
    (destruct (http _ _ _ _) as [response | thrown]; [discriminate|];
     destruct (instanceof_Error thrown); intros [= <-]; eauto).
Qed.

(** The generic [request] is the one of the tokenization and charge calls. *)
Lemma click_request_agrees {T : Type}
    (http : ClickClient.HttpVerb -> string ->
            option ClickClient.RequestBody -> string -> outcome T)
    (verb : ClickClient.HttpVerb) (endpoint : string)
    (body : option ClickClient.RequestBody) :
  ClickApi.request getDigestAuthToken config http verb endpoint body
  = ClickClient.request getDigestAuthToken config http verb endpoint body.
Proof. reflexivity. Qed.

(** X14. A [ClickError] thrown by [verifyCardToken], [checkPaymentStatus],
    [cancelPayment] or [deleteCardToken] always carries a negative code,
    and whatever [request] itself throws, for a failure of the transport,
    is a plain [Error] and not a [ClickError]. *)
Theorem click_errors_carry_a_negative_code (number : Type)
    (Number_ : ClickApi.PaymentId -> number) (message : string) (code : Z) :
  (forall http p,
     ClickApi.verifyCardToken getDigestAuthToken config http p
     = Threw (ClickError message code) -> code < 0)
  /\ (forall http paymentId,
        ClickApi.checkPaymentStatus getDigestAuthToken config number Number_
          http paymentId
        = Threw (ClickError message code) -> code < 0)
  /\ (forall http paymentId,
        ClickApi.cancelPayment getDigestAuthToken config http paymentId
        = Threw (ClickError message code) -> code < 0)
  /\ (forall http token,
        ClickApi.deleteCardToken getDigestAuthToken config http token
        = Threw (ClickError message code) -> code < 0)
  /\ (forall (http : ClickClient.HttpVerb -> string -> option json ->
                     string -> outcome number) verb endpoint body e,
        ClickApi.request getDigestAuthToken config http verb endpoint body
        = Threw e ->
        exists text, e = JsError text).
Proof.
  split; [|split; [|split; [|split]]];
    [| | | | intros http verb endpoint body e;
             apply click_request_throws_plain_errors];
    intros http p;
    [ unfold ClickApi.verifyCardToken
    | unfold ClickApi.checkPaymentStatus
    | unfold ClickApi.cancelPayment
    | unfold ClickApi.deleteCardToken ];
    (destruct (ClickApi.request getDigestAuthToken config http _ _ _)
       as [response | e] eqn:Hrequest;
     [ match goal with
       | |- context [match ?c with Some _ => _ | None => _ end] =>
           destruct c as [n|]; [|discriminate]
       end;
       destruct (Z.ltb_spec n 0); [|discriminate];
       intros [= _ <-]; assumption
     | intros [= ->];
       destruct (click_request_throws_plain_errors http _ _ _ _ Hrequest)
         as (m & Hm); discriminate ]).
Qed.

(** X15. For every answer of the provider whose error code is not
    negative, an answer without error code included, [checkPaymentStatus]
    returns the payment id with the normalized status, also when the
    payment is not confirmed or its status is unknown or missing.  It
    returns SUCCESS exactly when the provider answered with payment status
    2 and no negative error code. *)
Theorem click_payment_status_is_normalized (number : Type)
    (Number_ : ClickApi.PaymentId -> number)
    (http : ClickClient.HttpVerb -> string -> option json -> string ->
            outcome ClickPaymentStatusResponse.t)
    (paymentId : ClickApi.PaymentId) :
  let endpoint := "/payment/status/" ++ ClickClient.serviceId config ++ "/"
                  ++ ClickApi.paymentId_text paymentId in
  let auth := getDigestAuthToken (ClickClient.merchantUserId config)
                (ClickClient.secretKey config) in
  let checked := ClickApi.checkPaymentStatus getDigestAuthToken config number
                   Number_ http paymentId in
  let negative (response : ClickPaymentStatusResponse.t) :=
    exists code,
      ClickPaymentStatusResponse.error_code response = Some code
      /\ code < 0 in
  (forall response,
     http ClickClient.Get endpoint None auth = Returned response ->
     ~ negative response ->
     checked
     = Returned (Number_ paymentId,
                 getStatusFromClickCode
                   (ClickPaymentStatusResponse.payment_status response)))
  /\ (forall n,
        checked = Returned (n, SUCCESS)
        <-> n = Number_ paymentId
            /\ exists response,
                 http ClickClient.Get endpoint None auth = Returned response
                 /\ ~ negative response
                 /\ ClickPaymentStatusResponse.payment_status response
                    = Some 2).
Proof.
  intros endpoint auth checked negative. subst checked negative.
  unfold ClickApi.checkPaymentStatus, ClickApi.request.
  fold endpoint auth.
  assert (Hreturns : forall response,
    ~ (exists code,
         ClickPaymentStatusResponse.error_code response = Some code
         /\ code < 0) ->
    match ClickPaymentStatusResponse.error_code response with
    | Some code =>
        if code <? 0 then
          Threw (ClickError
                   (message_or_empty
                      (ClickPaymentStatusResponse.error_note response)) code)
        else
          Returned (Number_ paymentId,
                    getStatusFromClickCode
                      (ClickPaymentStatusResponse.payment_status response))
    | None =>
        Returned (Number_ paymentId,
                  getStatusFromClickCode
                    (ClickPaymentStatusResponse.payment_status response))
    end
    = Returned (Number_ paymentId,
                getStatusFromClickCode
                  (ClickPaymentStatusResponse.payment_status response))).
  { intros response Hfine.
    destruct (ClickPaymentStatusResponse.error_code response) as [code|];
      [|reflexivity].
    destruct (Z.ltb_spec code 0); [|reflexivity].
    exfalso. apply Hfine. now exists code. }
  split.
  - intros response -> Hfine. now apply Hreturns.
  - intros n. split.
    + destruct (http ClickClient.Get endpoint None auth)
        as [response | e]; [|destruct (instanceof_Error e); discriminate].
      assert (Hfine :
        (exists code,
           ClickPaymentStatusResponse.error_code response = Some code
           /\ code < 0)
        \/ ~ (exists code,
                ClickPaymentStatusResponse.error_code response = Some code
                /\ code < 0)).
      { destruct (ClickPaymentStatusResponse.error_code response) as [code|].
        - destruct (Z.ltb_spec code 0); [left; now exists code|].
          right. intros (c & [= <-] & Hc). lia.
        - right. intros (c & Hc & _). discriminate. }
      destruct Hfine as [(code & Hcode & Hneg) | Hfine].
      * rewrite Hcode. destruct (Z.ltb_spec code 0); [discriminate | lia].
      * rewrite (Hreturns response Hfine).
        intros [= <- Hstatus]. split; [reflexivity|].
        exists response. repeat split; try assumption.
        destruct (ClickPaymentStatusResponse.payment_status response)
          as [[|q|q]|]; try discriminate.
        small_positive q; try discriminate. reflexivity.
    + intros (-> & response & -> & Hfine & Hstatus).
      rewrite (Hreturns response Hfine). now rewrite Hstatus.
Qed.

(** X16. A Click charge that returns carries the payment id of the answer
    and the normalized [payment_status].  Its status is SUCCESS when the
    error code is zero; it can be another status only when the answer has
    a positive error code or none. *)
Theorem click_charge_returned_status
    (http : ClickClient.HttpVerb -> string ->
            option ClickClient.RequestBody -> string ->
            outcome ClickChargeFromCardTokenResponse.t)
    (params : ClickClient.ProcessPaymentParams)
    (charged : ClickClient.ProcessedPaymentResult) :
  ClickClient.chargeFromCardToken getDigestAuthToken config http params
  = Returned charged ->
  exists response,
    http ClickClient.Post "/card_token/payment"
      (Some (ClickClient.CardTokenPaymentBody (ClickClient.serviceId config)
               (ClickClient.cardToken params) (ClickClient.pp_amount params)
               (ClickClient.orderId params)))
      (getDigestAuthToken (ClickClient.merchantUserId config)
         (ClickClient.secretKey config))
    = Returned response
    /\ ClickClient.transactionId charged
       = ClickChargeFromCardTokenResponse.payment_id response
    /\ ClickClient.status charged
       = getStatusFromClickCode
           (ClickChargeFromCardTokenResponse.payment_status response)
    /\ ((ClickChargeFromCardTokenResponse.error_code response = Some 0
         /\ ClickClient.status charged = SUCCESS)
        \/ (exists code,
              ClickChargeFromCardTokenResponse.error_code response
              = Some code /\ 0 < code)
        \/ ClickChargeFromCardTokenResponse.error_code response = None).
Proof.
  unfold ClickClient.chargeFromCardToken, ClickClient.request.
  destruct (http ClickClient.Post _ _ _) as [response | e];
    [|destruct (instanceof_Error e); discriminate].
  destruct (ClickChargeFromCardTokenResponse.error_code response)
    as [code|] eqn:Hcode.
  - destruct (Z.ltb_spec code 0) as [Hneg | Hnonneg]; [discriminate|].
    destruct (Z.eqb_spec code 0) as [Hzero | Hpos].
    + destruct (ClickChargeFromCardTokenResponse.payment_status response)
        as [st|] eqn:Hst; simpl; [|discriminate].
      destruct (Z.eqb_spec st 2) as [-> | Hne]; simpl; [|discriminate].
      intros [= <-]. exists response. simpl. rewrite Hst.
      repeat split. left. subst code. now split.
    + rewrite andb_false_r. simpl. intros [= <-]. exists response. simpl.
      repeat split. right. left. exists code. split; [assumption | lia].
  - intros [= <-]. exists response. simpl. repeat split. now right; right.
Qed.

(** X17. [createCardToken] of the Click client throws a [ClickError]
    exactly when the provider answered and the answer has a negative error
    code or no token (missing or empty); the error carries the note and the
    code of the answer, so its code can be zero or positive when only the
    token is missing. *)
Theorem click_createCardToken_failure
    (http : ClickClient.HttpVerb -> string ->
            option ClickClient.RequestBody -> string ->
            outcome ClickCreateCardTokenResponse.t)
    (params : ClickClient.CreateCardTokenParams)
    (message : string) (code : Z) :
  ClickClient.createCardToken getDigestAuthToken config http params
  = Threw (ClickError message code)
  <-> exists response,
        http ClickClient.Post "/card_token/request"
          (Some (ClickClient.CardTokenRequestBody
                   (ClickClient.cardNumber params)
                   (ClickClient.expireDate params)
                   (match ClickClient.save params with
                    | Some false => 1
                    | _ => 0
                    end)
                   (ClickClient.serviceId config)))
          (getDigestAuthToken (ClickClient.merchantUserId config)
             (ClickClient.secretKey config))
        = Returned response
        /\ message = ClickCreateCardTokenResponse.error_note response
        /\ code = ClickCreateCardTokenResponse.error_code response
        /\ (code < 0
            \/ truthy (ClickCreateCardTokenResponse.card_token response)
               = false).
Proof.
  unfold ClickClient.createCardToken, ClickClient.request.
  assert (Hflag :
    (if match ClickClient.save params with Some b => b | None => true end
     then 0 else 1)
    = match ClickClient.save params with Some false => 1 | _ => 0 end)
    by now destruct (ClickClient.save params) as [[]|].
  rewrite Hflag.
  destruct (http ClickClient.Post _ _ _) as [response | e].
  - destruct (ClickCreateCardTokenResponse.card_token response) as [token|]
      eqn:Htoken; simpl.
    + destruct (Z.ltb_spec
                  (ClickCreateCardTokenResponse.error_code response) 0)
        as [Hneg | Hcode]; simpl.
      * split.
        -- intros [= <- <-]. exists response. rewrite Htoken. auto.
        -- intros (r & [= <-] & -> & -> & _). reflexivity.
      * destruct (String.eqb_spec token "") as [-> | Hne].
        -- split.
           ++ intros [= <- <-]. exists response. rewrite Htoken. auto.
           ++ intros (r & [= <-] & -> & -> & _). reflexivity.
        -- split; [discriminate|].
           intros (r & [= <-] & -> & -> & [Hneg | Hfalsy]); [lia|].
           rewrite Htoken in Hfalsy. simpl in Hfalsy.
           destruct (String.eqb_spec token ""); [contradiction|discriminate].
    + split.
      * intros [= <- <-]. exists response. rewrite Htoken. auto.
      * intros (r & [= <-] & -> & -> & _). reflexivity.
  - split.
    + destruct (instanceof_Error e); discriminate.
    + intros (r & Hr & _). discriminate.
Qed.

End ClickOperations.

Lemma click_errors_carry_a_negative_code_witness : -5 < 0.
Proof.
  apply (proj1 (click_errors_carry_a_negative_code sample_digest
                  sample_click_config Z number_of_id "note" (-5))
           (always (verify_response (-5))) sample_verify).
  reflexivity.
Defined.

Lemma click_payment_status_is_normalized_witness :
  ClickApi.checkPaymentStatus sample_digest sample_click_config Z number_of_id
    (always (status_response 2 None)) (ClickApi.PidNum 12345)
  = Returned (12345, SUCCESS).
Proof.
  apply (proj1 (click_payment_status_is_normalized sample_digest
                  sample_click_config Z number_of_id
                  (always (status_response 2 None)) (ClickApi.PidNum 12345))
           (status_response 2 None)).
  - reflexivity.
  - simpl. intros (code & Hcode & _). discriminate.
Defined.

Lemma click_charge_returned_status_witness :
  exists response,
    answering (charge_response 1 3) ClickClient.Post "/card_token/payment"
      (Some (ClickClient.CardTokenPaymentBody "test-service-id"
               "test-card-token" 1000 "order-123"))
      (sample_digest "test-merchant-user-id" "test-secret-key")
    = Returned response
    /\ Some 12345 = ClickChargeFromCardTokenResponse.payment_id response
    /\ PENDING
       = getStatusFromClickCode
           (ClickChargeFromCardTokenResponse.payment_status response)
    /\ ((ClickChargeFromCardTokenResponse.error_code response = Some 0
         /\ PENDING = SUCCESS)
        \/ (exists code,
              ClickChargeFromCardTokenResponse.error_code response
              = Some code /\ 0 < code)
        \/ ClickChargeFromCardTokenResponse.error_code response = None).
Proof.
  apply (click_charge_returned_status sample_digest sample_click_config
           (answering (charge_response 1 3)) sample_click_charge
           {| ClickClient.transactionId := Some 12345;
              ClickClient.status := PENDING |}).
  reflexivity.
Defined.

(** ** The Payme webhook handler, further *)

Lemma substring_all (s : string) : String.substring 0 (String.length s) s = s.
Proof.
  induction s as [|c s IH]; simpl; [reflexivity | now rewrite IH].
Qed.

Section PaymeWebhookFurther.

Import PaymeWebhookHandler.

Variable base64_ascii : string -> string.
Variable destructureError : string.
Variable readNullishError : option json -> string.
Variable handler : Handler.

(** X18. Let the header be "Basic " followed by a payload that decodes to
    "Paycom:" followed by the configured secret.  The request is
    authenticated exactly when the secret holds no colon. *)
Theorem right_credentials_pass_iff_secret_has_no_colon (payload : string) :
  base64_ascii payload = "Paycom:" ++ secretKey handler ->
  (verifyAuth base64_ascii handler (Some ("Basic " ++ payload)) = Returned tt
   <-> contains ":" (secretKey handler) = false).
Proof.
  intros Hdecoded.
  assert (Hsegments :
    segments base64_ascii ("Basic " ++ payload)
    = "Paycom" :: split ":" (secretKey handler)).
  { unfold segments, substring_from. simpl.
    rewrite Nat.sub_0_r, substring_all, Hdecoded.
    change ("Paycom:" ++ secretKey handler)
      with ("Paycom" ++ String ":" (secretKey handler)).
    now apply split_first_segment. }
  rewrite verifyAuth_accepts. split.
  - intros (header & Hheader & _ & _ & Hpassword).
    assert (header = "Basic " ++ payload) as -> by congruence.
    rewrite Hsegments in Hpassword. simpl in Hpassword.
    pose proof (split_segments_without_separator ":" (secretKey handler))
      as Hclean.
    destruct (split ":" (secretKey handler)) as [|first others];
      [discriminate|].
    injection Hpassword as ->. now inversion Hclean.
  - intros Hfree. exists ("Basic " ++ payload).
    rewrite Hsegments, (split_without_separator _ _ Hfree).
    repeat split; try reflexivity.
    unfold startsWith. now destruct payload.
Qed.


(** X20. An answer that [handle] returns is either an error built by the
    handler itself, with no result and no other key and with the id taken
    from the body or the clock, or the object that the business logic
    resolved to, with its result, error and other keys unchanged after the
    id.  So the answers hold exactly one of result and error whenever the
    responses of the logic do; [handle] does not check that they do. *)
Theorem handle_answers_are_errors_or_the_response_of_the_logic
    (body : option PaymeJsonRpcRequest) (authHeader : option string)
    (now : Z) (answer : PaymeJsonRpcResponse) :
  fst (handle base64_ascii destructureError readNullishError handler body
         authHeader now) = Returned answer ->
  ((res_result answer = None /\ res_error answer <> None
    /\ res_rest answer = [] /\ res_id answer = Some (id_or_now body now))
   \/ exists request m response,
        body = Some request
        /\ verifyAuth base64_ascii handler authHeader = Returned tt
        /\ method_of_string (method request) = Some m
        /\ operation (logic handler) m (params request) (id request)
           = Returned response
        /\ res_result answer = own_result response
        /\ res_error answer = own_error response
        /\ res_rest answer = own_rest response
        /\ res_id answer = match own_id response with
                           | Some replaced => replaced
                           | None => id request
                           end)
  /\ ((forall request m response,
         body = Some request ->
         method_of_string (method request) = Some m ->
         operation (logic handler) m (params request) (id request)
         = Returned response ->
         (own_result response = None <-> own_error response <> None)) ->
      (res_result answer = None <-> res_error answer <> None)).
Proof.
  intros Hrun.
  assert (Hshape :
    (res_result answer = None /\ res_error answer <> None
     /\ res_rest answer = [] /\ res_id answer = Some (id_or_now body now))
    \/ exists request m response,
         body = Some request
         /\ verifyAuth base64_ascii handler authHeader = Returned tt
         /\ method_of_string (method request) = Some m
         /\ operation (logic handler) m (params request) (id request)
            = Returned response
         /\ res_result answer = own_result response
         /\ res_error answer = own_error response
         /\ res_rest answer = own_rest response
         /\ res_id answer = match own_id response with
                            | Some replaced => replaced
                            | None => id request
                            end).
  { revert Hrun. unfold handle, handle_try.
    destruct (verifyAuth base64_ascii handler authHeader) as [[] | e].
    - destruct body as [request|].
      + destruct (method_of_string (method request)) as [m|] eqn:Hm.
        * destruct (operation (logic handler) m (params request) (id request))
            as [response | thrown] eqn:Hop; simpl.
          -- intros [= <-]. right. exists request, m, response.
             now repeat split.
          -- destruct (jsonRpcError_of readNullishError thrown);
               [|discriminate].
             intros [= <-]. left. now repeat split.
        * simpl. intros [= <-]. left. now repeat split.
      + simpl. intros [= <-]. left. now repeat split.
    - destruct (jsonRpcError_of readNullishError e); [|discriminate].
      simpl. intros [= <-]. left. now repeat split. }
  split; [exact Hshape|].
  intros Hdeclared.
  destruct Hshape as [(Hresult & Herror & _) |
    (request & m & response & Hbody & _ & Hm & Hop & Hresult & Herror & _)].
  - tauto.
  - rewrite Hresult, Herror. exact (Hdeclared request m response Hbody Hm Hop).
Qed.

End PaymeWebhookFurther.

Lemma right_credentials_pass_iff_secret_has_no_colon_witness :
  PaymeWebhookHandler.verifyAuth Base64.decode_ascii
    (sample_handler "s3cret" (resolving JNull))
    (Some "Basic UGF5Y29tOnMzY3JldA==")
  = Returned tt.
Proof.
  apply (proj2 (right_credentials_pass_iff_secret_has_no_colon
                  Base64.decode_ascii
                  (sample_handler "s3cret" (resolving JNull))
                  "UGF5Y29tOnMzY3JldA==" eq_refl)).
  reflexivity.
Defined.

Lemma handle_answers_are_errors_or_the_response_of_the_logic_witness :
  exists request m response,
    Some (sample_request (Some (PaymeWebhookHandler.IdStr "131")))
    = Some request
    /\ PaymeWebhookHandler.verifyAuth Base64.decode_ascii
         (sample_handler "test-secret-key" (answering_with both_keys))
         (Some validAuthHeader) = Returned tt
    /\ PaymeWebhookHandler.method_of_string
         (PaymeWebhookHandler.method request) = Some m
    /\ PaymeWebhookHandler.operation
         (PaymeWebhookHandler.logic
            (sample_handler "test-secret-key" (answering_with both_keys)))
         m (PaymeWebhookHandler.params request)
         (PaymeWebhookHandler.id request)
       = Returned response
    /\ Some (JBool true) = PaymeWebhookHandler.own_result response
    /\ Some error_without_message = PaymeWebhookHandler.own_error response
    /\ [] = PaymeWebhookHandler.own_rest response
    /\ Some (PaymeWebhookHandler.IdNum 7)
       = match PaymeWebhookHandler.own_id response with
         | Some replaced => replaced
         | None => PaymeWebhookHandler.id request
         end.
Proof.
  destruct (proj1 (handle_answers_are_errors_or_the_response_of_the_logic
                     Base64.decode_ascii
                     "Cannot destructure property 'id' of 'request' as it is undefined."
                     v8_readNullishError
                     (sample_handler "test-secret-key"
                        (answering_with both_keys))
                     (Some (sample_request
                              (Some (PaymeWebhookHandler.IdStr "131"))))
                     (Some validAuthHeader) 1700000000000
                     {| PaymeWebhookHandler.res_id :=
                          Some (PaymeWebhookHandler.IdNum 7);
                        PaymeWebhookHandler.res_result := Some (JBool true);
                        PaymeWebhookHandler.res_error :=
                          Some error_without_message;
                        PaymeWebhookHandler.res_rest := [] |}
                     eq_refl))
    as [(Hresult & _) | Hspread].
  - discriminate Hresult.
  - exact Hspread.
Defined.

(** The answer to a response that holds a result, an error and an id of
    its own holds all three, and the answer to an empty response holds the
    id of the request only. *)
Example test_handle_spreads_the_response :
  run_handle (sample_handler "test-secret-key" (answering_with both_keys))
    (Some (sample_request (Some (PaymeWebhookHandler.IdStr "131"))))
    (Some validAuthHeader) 1700000000000
  = (Returned
       {| PaymeWebhookHandler.res_id := Some (PaymeWebhookHandler.IdNum 7);
          PaymeWebhookHandler.res_result := Some (JBool true);
          PaymeWebhookHandler.res_error := Some error_without_message;
          PaymeWebhookHandler.res_rest := [] |},
     [sample_call (Some (PaymeWebhookHandler.IdStr "131"))])
  /\ fst (run_handle
            (sample_handler "test-secret-key"
               (answering_with
                  {| PaymeWebhookHandler.own_id := None;
                     PaymeWebhookHandler.own_result := None;
                     PaymeWebhookHandler.own_error := None;
                     PaymeWebhookHandler.own_rest := [] |}))
            (Some (sample_request (Some (PaymeWebhookHandler.IdStr "131"))))
            (Some validAuthHeader) 1700000000000)
     = Returned
         {| PaymeWebhookHandler.res_id :=
              Some (PaymeWebhookHandler.IdStr "131");
            PaymeWebhookHandler.res_result := None;
            PaymeWebhookHandler.res_error := None;
            PaymeWebhookHandler.res_rest := [] |}.
Proof. split; reflexivity. Qed.

(** X21. A handler that the constructor returned has a non-empty secret,
    so it authenticates no request whose credentials have an empty or a
    missing password: the second colon-separated segment of accepted
    credentials is the secret and is not empty. *)
Theorem built_handler_needs_a_password (base64_ascii : string -> string)
    (secret : string) (l : PaymeWebhookHandler.PaymeWebhookLogic)
    (h : PaymeWebhookHandler.Handler) (authHeader : option string) :
  PaymeWebhookHandler.new secret l = Returned h ->
  PaymeWebhookHandler.verifyAuth base64_ascii h authHeader = Returned tt ->
  secret <> ""
  /\ exists header,
       authHeader = Some header
       /\ nth_error (segments base64_ascii header) 1 = Some secret.
Proof.
  unfold PaymeWebhookHandler.new.
  destruct (String.eqb_spec secret "") as [-> | Hne]; [discriminate|].
  intros [= <-] Hauth. split; [assumption|].
  apply verifyAuth_accepts in Hauth.
  destruct Hauth as (header & -> & _ & _ & Hpassword).
  now exists header.
Qed.

Lemma built_handler_needs_a_password_witness :
  "s3cret" <> ""
  /\ exists header,
       Some "Basic UGF5Y29tOnMzY3JldA==" = Some header
       /\ nth_error (segments Base64.decode_ascii header) 1 = Some "s3cret".
Proof.
  apply (built_handler_needs_a_password Base64.decode_ascii "s3cret"
           (uniform_logic (resolving JNull))
           (sample_handler "s3cret" (resolving JNull))
           (Some "Basic UGF5Y29tOnMzY3JldA==")); reflexivity.
Defined.

(** ** The invoice URL of Payme *)

Lemma list_ind3 {A : Type} (P : list A -> Prop) :
  P [] -> (forall a, P [a]) -> (forall a b, P [a; b]) ->
  (forall a b c rest, P rest -> P (a :: b :: c :: rest)) ->
  forall l, P l.
Proof.
  intros H0 H1 H2 H3.
  assert (Hall : forall l, P l /\ (forall a, P (a :: l))
                           /\ (forall a b, P (a :: b :: l))).
  { induction l as [|x l (IH0 & IH1 & IH2)].
    - repeat split; auto.
    - repeat split; auto. }
  intros l. apply Hall.
Qed.

(** Each of the 64 digits of the alphabet is read back as its value, and
    none of them is the padding character. *)
Lemma sextet_digit (v : N) :
  (v < 64)%N ->
  Base64.sextet (Base64Encode.digit v) = Some v
  /\ Ascii.eqb (Base64Encode.digit v) "=" = false.
Proof.
  intros Hv.
  assert (Hall :
    forallb (fun n =>
      match Base64.sextet (Base64Encode.digit (N.of_nat n)) with
      | Some w => N.eqb w (N.of_nat n)
      | None => false
      end && negb (Ascii.eqb (Base64Encode.digit (N.of_nat n)) "="))
      (seq 0 64) = true) by (vm_compute; reflexivity).
  rewrite forallb_forall in Hall.
  specialize (Hall (N.to_nat v)).
  rewrite N2Nat.id in Hall.
  assert (Hin : In (N.to_nat v) (seq 0 64)) by (apply in_seq; lia).
  specialize (Hall Hin). apply andb_prop in Hall. destruct Hall as [Hs Hp].
  split.
  - destruct (Base64.sextet (Base64Encode.digit v)) as [w|]; [|discriminate].
    apply N.eqb_eq in Hs. now subst.
  - now destruct (Ascii.eqb (Base64Encode.digit v) "=").
Qed.

Ltac sextets_step :=
  match goal with
  | |- context [Base64.sextets (String (Base64Encode.digit ?v) ?rest)] =>
      let Hs := fresh "Hs" in
      let Hp := fresh "Hp" in
      assert (v < 64)%N as Hs by
        (zify; Z.to_euclidean_division_equations; lia);
      destruct (sextet_digit v Hs) as [Hs' Hp];
      change (Base64.sextets (String (Base64Encode.digit v) rest))
        with (if Ascii.eqb (Base64Encode.digit v) "=" then []
              else match Base64.sextet (Base64Encode.digit v) with
                   | Some w => w :: Base64.sextets rest
                   | None => Base64.sextets rest
                   end);
      rewrite Hp, Hs'; clear Hs Hs' Hp
  end.

(** Decoding undoes encoding on bytes. *)
Lemma bytes_of_encoded (l : list N) :
  Forall (fun b => (b < 256)%N) l ->
  Base64.bytes (Base64.sextets (Base64Encode.encode_bytes l)) = l.
Proof.
  induction l as [|a|a b|a b c rest IH] using list_ind3; intros Hbytes.
  - reflexivity.
  - inversion Hbytes as [|? ? Ha _]; subst.
    cbn [Base64Encode.encode_bytes]. repeat sextets_step.
    cbn [Base64.sextets Ascii.eqb Bool.eqb Base64.bytes]. simpl Base64.sextets.
    cbn [Base64.bytes]. f_equal.
    zify; Z.to_euclidean_division_equations; lia.
  - inversion Hbytes as [|? ? Ha Hb']; subst.
    inversion Hb' as [|? ? Hb _]; subst.
    cbn [Base64Encode.encode_bytes]. repeat sextets_step.
    simpl Base64.sextets. cbn [Base64.bytes].
    f_equal; [|f_equal]; zify; Z.to_euclidean_division_equations; lia.
  - inversion Hbytes as [|? ? Ha Hb']; subst.
    inversion Hb' as [|? ? Hb Hc']; subst.
    inversion Hc' as [|? ? Hc Hrest]; subst.
    cbn [Base64Encode.encode_bytes]. repeat sextets_step.
    cbn [Base64.bytes]. rewrite (IH Hrest).
    f_equal; [|f_equal; [|f_equal]];
      zify; Z.to_euclidean_division_equations; lia.
Qed.

(** On a string of 7-bit characters, decoding undoes encoding. *)
Lemma decode_encode (s : string) :
  seven_bit s = true -> Base64.decode_ascii (Base64Encode.encode s) = s.
Proof.
  intros Hs. unfold Base64.decode_ascii, Base64Encode.encode.
  rewrite bytes_of_encoded.
  - unfold Base64.ascii_string.
    induction s as [|c s IH]; simpl; [reflexivity|].
    simpl in Hs. apply andb_prop in Hs. destruct Hs as [Hc Hs].
    apply N.ltb_lt in Hc.
    rewrite N.mod_small by assumption.
    rewrite ascii_N_embedding. f_equal. now apply IH.
  - clear Hs. induction s as [|c s IH]; simpl; constructor;
      [apply N_ascii_bounded | assumption].
Qed.

(** X22. The invoice URL of Payme is the checkout URL, the one of the
    sandbox in test mode, followed by Base64 text that decodes to
    [m=<merchantId>;ac.order_id=<orderId>;a=<amount * 100>;c=<returnUrl>],
    when these values hold 7-bit characters only.  The amount is the text
    of the binary64 product of the amount and 100; the other values are
    copied as they are. *)
Theorem payme_invoice_url_decodes (Number_toString : float -> string)
    (config : PaymeClient.PaymeConfig) (p : PaymeApi.GenerateInvoiceParams) :
  let amountInTiyins := (PaymeApi.gi_amount p * 100)%float in
  seven_bit (PaymeClient.merchantId config ++ PaymeApi.orderId p
             ++ Number_toString amountInTiyins ++ PaymeApi.returnUrl p)
  = true ->
  exists encoded,
    PaymeApi.generateInvoiceUrl Base64Encode.encode Number_toString config p
    = (if PaymeClient.testMode config then "https://test.paycom.uz/"
       else "https://checkout.paycom.uz/") ++ encoded
    /\ Base64.decode_ascii encoded
       = "m=" ++ PaymeClient.merchantId config
         ++ ";ac.order_id=" ++ PaymeApi.orderId p
         ++ ";a=" ++ Number_toString amountInTiyins
         ++ ";c=" ++ PaymeApi.returnUrl p.
Proof.
  intros amountInTiyins Hascii.
  assert (Happ : forall a b,
    seven_bit (a ++ b) = seven_bit a && seven_bit b).
  { intros a b. induction a as [|c a IH]; simpl; [reflexivity|].
    now rewrite IH, andb_assoc. }
  rewrite !Happ in Hascii.
  apply andb_prop in Hascii. destruct Hascii as [Hm Hrest].
  apply andb_prop in Hrest. destruct Hrest as [Ho Hrest].
  apply andb_prop in Hrest. destruct Hrest as [Ha Hr].
  eexists. split.
  - unfold PaymeApi.generateInvoiceUrl, PaymeApi.generatePaymeInvoiceUrl,
      PaymeApi.checkoutUrl, PaymeApi.PAYME_TEST_CHECKOUT_URL,
      PaymeApi.PAYME_CHECKOUT_URL.
    reflexivity.
  - apply decode_encode. unfold PaymeApi.invoiceParams.
    fold amountInTiyins. rewrite !Happ, Hm, Ho, Ha, Hr. reflexivity.
Qed.

Lemma payme_invoice_url_decodes_witness :
  exists encoded,
    PaymeApi.generateInvoiceUrl Base64Encode.encode toString_of_integer
      sample_payme_config sample_payme_invoice
    = "https://checkout.paycom.uz/" ++ encoded
    /\ Base64.decode_ascii encoded
       = "m=test-merchant-id;ac.order_id=order-456;a=250000;c=https://example.com/success".
Proof.
  apply (payme_invoice_url_decodes toString_of_integer sample_payme_config
           sample_payme_invoice).
  vm_compute. reflexivity.
Defined.

Example test_payme_invoice_url :
  PaymeApi.generateInvoiceUrl Base64Encode.encode toString_of_integer
    sample_payme_config sample_payme_invoice
  = "https://checkout.paycom.uz/bT10ZXN0LW1lcmNoYW50LWlkO2FjLm9yZGVyX2lkPW9yZGVyLTQ1NjthPTI1MDAwMDtjPWh0dHBzOi8vZXhhbXBsZS5jb20vc3VjY2Vzcw==".
Proof. vm_compute. reflexivity. Qed.

(** ** HttpClient, further *)

(** X23. [request] returns a value only for an answer with a 2xx status:
    the value is the empty object when the body is empty, without calling
    [JSON.parse], and otherwise what [JSON.parse] returns for the body.
    [fetch] is called on the base URL followed by the endpoint, with an
    abort delay of 8000 ms unless the caller gives a timeout. *)
Theorem request_returns_only_for_2xx {T : Type}
    (fetch : string -> HttpClient.RequestOptions -> Z ->
             outcome HttpClient.Response)
    (JSON_parse : string -> outcome T) (empty_object : T)
    (baseUrl endpoint : string) (options : HttpClient.RequestOptions)
    (value : T) :
  HttpClient.request fetch JSON_parse empty_object baseUrl endpoint options
  = Returned value ->
  exists response content,
    fetch (baseUrl ++ endpoint)
      {| HttpClient.timeout := None;
         HttpClient.method := HttpClient.method options;
         HttpClient.body := HttpClient.body options;
         HttpClient.headers := HttpClient.headers options |}
      (match HttpClient.timeout options with Some t => t | None => 8000 end)
    = Returned response
    /\ HttpClient.ok response = true
    /\ HttpClient.text response = Returned content
    /\ ((content = "" /\ value = empty_object)
        \/ (content <> "" /\ JSON_parse content = Returned value)).
Proof.
  unfold HttpClient.request.
  destruct (fetch _ _ _) as [response | e]; [|discriminate].
  destruct (HttpClient.ok response) eqn:Hok; simpl.
  - destruct (HttpClient.text response) as [content | e] eqn:Htext;
      [|discriminate].
    destruct (String.eqb_spec content "") as [-> | Hne].
    + intros [= <-]. exists response, "".
      split; [reflexivity|]. split; [assumption|]. split; [assumption|].
      left. now split.
    + intros Hparse. exists response, content.
      split; [reflexivity|]. split; [assumption|]. split; [assumption|].
      right. now split.
  - destruct (HttpClient.text response); discriminate.
Qed.

Lemma request_returns_only_for_2xx_witness :
  exists response content,
    fetch_answering (http_response true 200 "") ("https://host" ++ "/path")
      {| HttpClient.timeout := None;
         HttpClient.method := None;
         HttpClient.body := None;
         HttpClient.headers := None |} 8000
    = Returned response
    /\ HttpClient.ok response = true
    /\ HttpClient.text response = Returned content
    /\ ((content = "" /\ 0 = 0)
        \/ (content <> "" /\ @parse_failing Z content = Returned 0)).
Proof.
  apply (request_returns_only_for_2xx
           (fetch_answering (http_response true 200 "")) parse_failing 0
           "https://host" "/path" HttpClient.no_options 0).
  reflexivity.
Defined.

(** ** The Payme webhook handler: what holds of authentication and of the
    answers *)

Section PaymeWebhookAnswers.

Import PaymeWebhookHandler.

Variable base64_ascii : string -> string.
Variable destructureError : string.
Variable readNullishError : option json -> string.
Variable handler : Handler.

(** X24. A request is rejected unless its header starts with "Basic " and
    decodes to credentials whose first colon-separated segment is "Paycom"
    and whose second segment is the secret.  A rejected request is
    answered with the error -32504 "Unauthorized", before the method and
    the params of the body are read and without calling the business
    logic; the detail says whether the header or the credentials were
    wrong. *)
Theorem unauthenticated_requests_are_rejected
    (body : option PaymeJsonRpcRequest) (authHeader : option string)
    (now : Z) :
  ~ (exists header,
       authHeader = Some header
       /\ startsWith "Basic " header = true
       /\ nth_error (segments base64_ascii header) 0 = Some "Paycom"
       /\ nth_error (segments base64_ascii header) 1
          = Some (secretKey handler)) ->
  handle base64_ascii destructureError readNullishError handler body
    authHeader now
  = (Returned (unauthorized (id_or_now body now)
                 (rejection_detail authHeader)), []).
Proof.
  intros Hbad.
  assert (Hreject : verifyAuth base64_ascii handler authHeader <> Returned tt)
    by (intros Hok; apply Hbad; now apply verifyAuth_accepts).
  unfold handle, handle_try. revert Hreject.
  unfold verifyAuth, rejection_detail.
  destruct authHeader as [header|]; [|reflexivity].
  destruct (String.eqb_spec header "") as [-> | Hne]; cbn [orb negb];
    [reflexivity|].
  destruct (startsWith "Basic " header); cbn [orb negb]; [|reflexivity].
  destruct (negb _ || negb _); [reflexivity | congruence].
Qed.

(** X25. When the request carries an id that is not 0 and not the empty
    string, every answer that [handle] returns carries exactly this id,
    for a result, for an error returned or thrown by the business logic,
    for an unknown method and for a rejected authentication, with one
    exception: when the object that the business logic resolved to has an
    [id] key of its own, the answer carries the value of that key. *)
Theorem answers_echo_a_truthy_id (request : PaymeJsonRpcRequest)
    (authHeader : option string) (now : Z) (i : JsId)
    (answer : PaymeJsonRpcResponse) :
  id request = Some i ->
  id_truthy i = true ->
  fst (handle base64_ascii destructureError readNullishError handler
         (Some request) authHeader now) = Returned answer ->
  res_id answer = Some i
  \/ exists m response replaced,
       verifyAuth base64_ascii handler authHeader = Returned tt
       /\ method_of_string (method request) = Some m
       /\ operation (logic handler) m (params request) (id request)
          = Returned response
       /\ own_id response = Some replaced
       /\ res_id answer = replaced.
Proof.
  intros Hid Htruthy. unfold handle, handle_try.
  assert (Hfallback : id_or_now (Some request) now = i)
    by (unfold id_or_now; now rewrite Hid, Htruthy).
  rewrite Hfallback.
  destruct (verifyAuth base64_ascii handler authHeader) as [[] | e].
  - destruct (method_of_string (method request)) as [m|].
    + destruct (operation (logic handler) m (params request) (id request))
        as [response | thrown] eqn:Hop; cbn [fst].
      * intros [= <-]. cbn [envelope res_id].
        destruct (own_id response) as [replaced|] eqn:Hown.
        -- right. exists m, response, replaced. now repeat split.
        -- left. exact Hid.
      * destruct (jsonRpcError_of readNullishError thrown); [|discriminate].
        intros [= <-]. now left.
    + cbn [fst jsonRpcError_of]. intros [= <-]. now left.
  - destruct (jsonRpcError_of readNullishError e); [|discriminate].
    cbn [fst]. intros [= <-]. now left.
Qed.

(** X26. [handle] converts every thrown value except [null] and
    [undefined]: when the business logic returns, or throws a [PaymeError],
    another [Error] or any value that is not nullish, [handle] returns an
    answer.  A thrown [PaymeError] keeps its code, message and data in the
    answer; any other thrown value gives the code -32400. *)
Theorem handle_converts_what_the_logic_throws
    (body : option PaymeJsonRpcRequest) (authHeader : option string)
    (now : Z) :
  (forall request m v,
     body = Some request ->
     method_of_string (method request) = Some m ->
     operation (logic handler) m (params request) (id request)
     = Threw (ThrownValue v) ->
     nullish v = false) ->
  exists answer,
    fst (handle base64_ascii destructureError readNullishError handler body
           authHeader now) = Returned answer
    /\ (forall request m thrown,
          verifyAuth base64_ascii handler authHeader = Returned tt ->
          body = Some request ->
          method_of_string (method request) = Some m ->
          operation (logic handler) m (params request) (id request)
          = Threw thrown ->
          exists error,
            res_error answer = Some error
            /\ match thrown with
               | PaymeError message code data =>
                   error
                   = {| err_code := code;
                        err_message :=
                          Some {| ru := None; uz := None;
                                  en := Some message |};
                        err_data := data |}
               | _ => err_code error = -32400
               end).
Proof.
  intros Hnot_nullish.
  destruct (fst (handle base64_ascii destructureError readNullishError
                   handler body authHeader now)) as [answer | e] eqn:Hrun.
  - exists answer. split; [reflexivity|].
    intros request m thrown Hauth -> Hm Hop.
    unfold handle, handle_try in Hrun. rewrite Hauth, Hm, Hop in Hrun.
    destruct thrown as [message code data | message code | message | v];
      simpl in Hrun.
    + injection Hrun as <-. eexists. split; reflexivity.
    + injection Hrun as <-. eexists. split; reflexivity.
    + injection Hrun as <-. eexists. split; reflexivity.
    + destruct (nullish v); [discriminate|].
      injection Hrun as <-. eexists. split; reflexivity.
  - exfalso.
    destruct (handle_throws_only_nullish base64_ascii destructureError
                readNullishError handler body authHeader now e Hrun)
      as (request & m & v & Hbody & Hm & Hop & Hv).
    specialize (Hnot_nullish request m v Hbody Hm Hop). congruence.
Qed.

End PaymeWebhookAnswers.

Lemma unauthenticated_requests_are_rejected_witness :
  run_handle (sample_handler "test-secret-key" (resolving JNull)) None
    (Some "Bearer abc") 1700000000000
  = (Returned (unauthorized (PaymeWebhookHandler.IdNum 1700000000000)
                 "Authorization header missing or invalid"), []).
Proof.
  apply (unauthenticated_requests_are_rejected Base64.decode_ascii
           "Cannot destructure property 'id' of 'request' as it is undefined."
           v8_readNullishError
           (sample_handler "test-secret-key" (resolving JNull)) None
           (Some "Bearer abc") 1700000000000).
  intros (header & [= <-] & Hprefix & _). discriminate.
Defined.

Lemma answers_echo_a_truthy_id_witness :
  fst (run_handle
         (sample_handler "test-secret-key"
            (rejecting (JsError "Unexpected error")))
         (Some (sample_request (Some (PaymeWebhookHandler.IdNum 7))))
         (Some validAuthHeader) 1700000000000)
  = Returned
      {| PaymeWebhookHandler.res_id := Some (PaymeWebhookHandler.IdNum 7);
         PaymeWebhookHandler.res_result := None;
         PaymeWebhookHandler.res_error :=
           Some {| err_code := -32400;
                   err_message :=
                     Some {| ru := None; uz := None;
                             en := Some "Internal Server Error" |};
                   err_data := Some (JStr "Unexpected error") |};
         PaymeWebhookHandler.res_rest := [] |}
  /\ (Some (PaymeWebhookHandler.IdNum 7) = Some (PaymeWebhookHandler.IdNum 7)
      \/ exists m response replaced,
           PaymeWebhookHandler.verifyAuth Base64.decode_ascii
             (sample_handler "test-secret-key"
                (rejecting (JsError "Unexpected error")))
             (Some validAuthHeader) = Returned tt
           /\ PaymeWebhookHandler.method_of_string
                "CheckPerformTransaction" = Some m
           /\ PaymeWebhookHandler.operation
                (uniform_logic (rejecting (JsError "Unexpected error")))
                m sample_params (Some (PaymeWebhookHandler.IdNum 7))
              = Returned response
           /\ PaymeWebhookHandler.own_id response = Some replaced
           /\ Some (PaymeWebhookHandler.IdNum 7) = replaced).
Proof.
  split; [reflexivity|].
  apply (answers_echo_a_truthy_id Base64.decode_ascii
           "Cannot destructure property 'id' of 'request' as it is undefined."
           v8_readNullishError
           (sample_handler "test-secret-key"
              (rejecting (JsError "Unexpected error")))
           (sample_request (Some (PaymeWebhookHandler.IdNum 7)))
           (Some validAuthHeader) 1700000000000
           (PaymeWebhookHandler.IdNum 7)
           {| PaymeWebhookHandler.res_id :=
                Some (PaymeWebhookHandler.IdNum 7);
              PaymeWebhookHandler.res_result := None;
              PaymeWebhookHandler.res_error :=
                Some {| err_code := -32400;
                        err_message :=
                          Some {| ru := None; uz := None;
                                  en := Some "Internal Server Error" |};
                        err_data := Some (JStr "Unexpected error") |};
              PaymeWebhookHandler.res_rest := [] |});
    reflexivity.
Defined.

Lemma handle_converts_what_the_logic_throws_witness :
  exists answer,
    fst (run_handle
           (sample_handler "test-secret-key"
              (rejecting (PaymeError "Order not found" (-31050) None)))
           (Some (sample_request (Some (PaymeWebhookHandler.IdStr "129"))))
           (Some validAuthHeader) 1700000000000)
    = Returned answer.
Proof.
  destruct (handle_converts_what_the_logic_throws Base64.decode_ascii
              "Cannot destructure property 'id' of 'request' as it is undefined."
              v8_readNullishError
              (sample_handler "test-secret-key"
                 (rejecting (PaymeError "Order not found" (-31050) None)))
              (Some (sample_request (Some (PaymeWebhookHandler.IdStr "129"))))
              (Some validAuthHeader) 1700000000000)
    as (answer & Hanswer & _).
  - intros request m v [= <-] Hm Hop.
    destruct m; discriminate Hop.
  - exists answer. exact Hanswer.
Defined.
